(** * goads: the ADS/AMS client core, embedded and verified

    A shallow embedding of the Go sources of the client
    (ams/notification.go, client.go, session.go, the symbol and
    notification-manager files) together with the properties the
    specification states about them.

    Conventions.
    - A Go [uintN] is a [Z] in [0, 2^N); wrap-around is written out with
      [mod].  A Go [int] (64 bit) is a [Z]; the values met here stay far
      from its bounds.
    - A Go [[]byte] is a [list byte]; a Go [string] is a [string].
    - A Go [map] is a [gmap]; a missing key is [None].
    - A Go [error] result is a [result]: [Ok v] or [Err e]. *)

From Stdlib Require Import ZArith Lia List Strings.Byte Ascii String.
From stdpp Require Import base option list gmap strings.

Local Open Scope Z_scope.

(** ** Errors and results *)

Inductive error : Type :=
  | ErrUnexpectedEOF                (* short stream met by the Buffer *)
  | ErrTimeout                      (* client.go: ErrTimeout *)
  | ErrCancelled                    (* ctx.Err() *)
  | ErrIO                           (* a failed conn.Read / conn.Write *)
  | ErrMsg (msg : string)           (* fmt.Errorf(...) *)
  | ErrCode (msg : string) (code : Z)  (* fmt.Errorf("...: %d", code) *)
  | ErrWrap (msg : string) (cause : error). (* fmt.Errorf("...: %w", err) *)

Inductive result (A : Type) : Type :=
  | Ok (v : A)
  | Err (e : error).
Arguments Ok {A} v.
Arguments Err {A} e.

Definition is_ok {A} (r : result A) : bool :=
  match r with Ok _ => true | Err _ => false end.

(** ** Bytes and little-endian integers *)

Definition Z_of_byte (b : byte) : Z := Z.of_N (Byte.to_N b).

Definition byte_of_Z (z : Z) : byte :=
  match Byte.of_N (Z.to_N (z mod 256)) with
  | Some b => b
  | None => x00
  end.

(** [binary.LittleEndian.PutUintN]: the [n] low bytes of [z], lowest first. *)
Fixpoint le_bytes (n : nat) (z : Z) : list byte :=
  match n with
  | O => []
  | S k => byte_of_Z z :: le_bytes k (Z.shiftr z 8)
  end.

(** [binary.LittleEndian.UintN] over exactly the bytes given. *)
Fixpoint le_value (bs : list byte) : Z :=
  match bs with
  | [] => 0
  | b :: tl => Z.lor (Z_of_byte b) (Z.shiftl (le_value tl) 8)
  end.

Definition u8_max : Z := 2 ^ 8.
Definition u16_max : Z := 2 ^ 16.
Definition u32_max : Z := 2 ^ 32.
Definition u64_max : Z := 2 ^ 64.

Definition is_u16 (z : Z) : Prop := 0 <= z < u16_max.
Definition is_u32 (z : Z) : Prop := 0 <= z < u32_max.
Definition is_u64 (z : Z) : Prop := 0 <= z < u64_max.

(** Conversions [uint32(x)], [uint64(x)] and [int64(x)] of Go. *)
Definition to_u32 (z : Z) : Z := z mod u32_max.
Definition to_u64 (z : Z) : Z := z mod u64_max.
Definition to_i64 (z : Z) : Z :=
  let m := z mod u64_max in
  if m <? 2 ^ 63 then m else m - u64_max.

(** ** ams.Buffer *)

Module Buffer.

(** Modelled from the spec: the file of [ams.Buffer] is not among the
    sources.  The spec fixes what the codec needs of it: every
    multi-byte integer is little-endian, structs are tightly packed, a
    sample carries exactly [size] bytes of data, and a short stream is
    detected and reported as an explicit decode error.  The error is
    sticky, as the [b.Err()] checks of the decoders expect: once set,
    every later read yields the zero value and consumes nothing.
    [buf] is the unread remainder when reading and the bytes written
    so far when writing. *)
Record t : Type := mk { buf : list byte; err : option error }.

Definition NewBuffer (data : list byte) : t := mk data None.
Definition empty : t := mk [] None.

Definition Err (b : t) : option error := err b.
Definition Bytes (b : t) : list byte := buf b.

Definition ReadN (n : nat) (b : t) : list byte * t :=
  match err b with
  | Some _ => ([], b)
  | None =>
      if (length (buf b) <? n)%nat
      then ([], mk (buf b) (Some ErrUnexpectedEOF))
      else (take n (buf b), mk (drop n (buf b)) None)
  end.

Definition ReadUint (w : nat) (b : t) : Z * t :=
  let '(d, b') := ReadN w b in
  match err b' with
  | Some _ => (0, b')
  | None => (le_value d, b')
  end.

Definition ReadUint16 : t -> Z * t := ReadUint 2.
Definition ReadUint32 : t -> Z * t := ReadUint 4.

Definition Write (d : list byte) (b : t) : t :=
  match err b with
  | Some _ => b
  | None => mk (buf b ++ d) None
  end.

Definition WriteUint16 (z : Z) : t -> t := Write (le_bytes 2 z).
Definition WriteUint32 (z : Z) : t -> t := Write (le_bytes 4 z).

(** [WriteN d n]: exactly [n] bytes, the first [n] of [d], zero-filled
    when [d] is shorter. *)
Definition WriteN (d : list byte) (n : Z) : t -> t :=
  let k := Z.to_nat n in
  Write (take k d ++ replicate (k - length d) x00).

End Buffer.

(** ** Frame headers *)

(** Modelled from the spec: the header file of package [ams] is not among
    the sources.  Spec, section 3: a frame is TCPHeader (6 bytes: 2
    reserved + 4 payload length), then AMSHeader (32 bytes) carrying
    target and sender (an AmsAddr is a 6-byte NetId and a 16-bit port),
    CmdID (u16), StateFlags (u16), length (u32), errorCode (u32) and
    invokeID (u32), all little-endian and tightly packed. *)
Definition NetID : Type := (byte * byte * byte * byte * byte * byte)%type.

Record Addr : Type := mkAddr { NetId : NetID; Port : Z }.

Record TCPHeader : Type := mkTCPHeader {
  tcp_Reserved : Z;   (* u16 *)
  tcp_Length : Z      (* u32 *)
}.

Record AMSHeader : Type := mkAMSHeader {
  Target : Addr;
  Sender : Addr;
  CmdID : Z;          (* u16 *)
  StateFlags : Z;     (* u16 *)
  Length : Z;         (* u32 *)
  ErrorCode : Z;      (* u32 *)
  InvokeID : Z        (* u32 *)
}.

(** Modelled from the spec: the constants of package [ams] are not among
    the sources.  Section 3 gives the length of the AMS header, the closed
    set of commands and the two StateFlags bits; [NoError] is the zero
    result code. *)
Definition amsHeaderLen : Z := 32.

Definition CmdADSReadDeviceInfo : Z := 1.
Definition CmdADSRead : Z := 2.
Definition CmdADSWrite : Z := 3.
Definition CmdADSReadState : Z := 4.
Definition CmdADSAddDeviceNotification : Z := 6.
Definition CmdADSDeleteDeviceNotification : Z := 7.
Definition CmdADSDeviceNotification : Z := 8.
Definition CmdADSReadWrite : Z := 9.

Definition StateResponse : Z := 0x0001.
Definition StateADSCommand : Z := 0x0004.

Definition NoError : Z := 0.

(** The state constants of package [ams] are not among the sources; the
    spec names [Start], [Run] and [Stop] only.  The numbers are those of
    the ADS state enumeration; nothing below depends on them. *)
Definition ADSStateStart : Z := 4.
Definition ADSStateRun : Z := 5.
Definition ADSStateStop : Z := 6.

Definition netid_bytes (n : NetID) : list byte :=
  let '(a, b, c, d, e, f) := n in [a; b; c; d; e; f].

Definition netid_of_bytes (l : list byte) : NetID :=
  match l with
  | [a; b; c; d; e; f] => (a, b, c, d, e, f)
  | _ => (x00, x00, x00, x00, x00, x00)
  end.

Definition WriteAddr (a : Addr) (b : Buffer.t) : Buffer.t :=
  Buffer.WriteUint16 (Port a) (Buffer.Write (netid_bytes (NetId a)) b).

Definition ReadAddr (b : Buffer.t) : Addr * Buffer.t :=
  let '(n, b) := Buffer.ReadN 6 b in
  let '(p, b) := Buffer.ReadUint16 b in
  (mkAddr (netid_of_bytes n) p, b).

Definition WriteTCPHeader (h : TCPHeader) (b : Buffer.t) : Buffer.t :=
  Buffer.WriteUint32 (tcp_Length h) (Buffer.WriteUint16 (tcp_Reserved h) b).

Definition ReadTCPHeader (b : Buffer.t) : TCPHeader * Buffer.t :=
  let '(r, b) := Buffer.ReadUint16 b in
  let '(l, b) := Buffer.ReadUint32 b in
  (mkTCPHeader r l, b).

Definition WriteAMSHeader (h : AMSHeader) (b : Buffer.t) : Buffer.t :=
  let b := WriteAddr (Target h) b in
  let b := WriteAddr (Sender h) b in
  let b := Buffer.WriteUint16 (CmdID h) b in
  let b := Buffer.WriteUint16 (StateFlags h) b in
  let b := Buffer.WriteUint32 (Length h) b in
  let b := Buffer.WriteUint32 (ErrorCode h) b in
  Buffer.WriteUint32 (InvokeID h) b.

Definition ReadAMSHeader (b : Buffer.t) : AMSHeader * Buffer.t :=
  let '(t, b) := ReadAddr b in
  let '(s, b) := ReadAddr b in
  let '(c, b) := Buffer.ReadUint16 b in
  let '(f, b) := Buffer.ReadUint16 b in
  let '(l, b) := Buffer.ReadUint32 b in
  let '(e, b) := Buffer.ReadUint32 b in
  let '(i, b) := Buffer.ReadUint32 b in
  (mkAMSHeader t s c f l e i, b).

(** [HasState]: modelled from the spec ("a frame is a response when
    [Response] is set"): every bit of [s] is set in the flags. *)
Definition HasState (h : AMSHeader) (s : Z) : bool :=
  Z.land (StateFlags h) s =? s.

Definition wf_Addr (a : Addr) : Prop := is_u16 (Port a).

Definition wf_TCPHeader (h : TCPHeader) : Prop :=
  is_u16 (tcp_Reserved h) /\ is_u32 (tcp_Length h).

Definition wf_AMSHeader (h : AMSHeader) : Prop :=
  wf_Addr (Target h) /\ wf_Addr (Sender h) /\
  is_u16 (CmdID h) /\ is_u16 (StateFlags h) /\
  is_u32 (Length h) /\ is_u32 (ErrorCode h) /\ is_u32 (InvokeID h).

(** Sticky-error check of the decoders: [if b.Err() != nil { return b.Err() }]. *)
Definition check {A} (b : Buffer.t) (k : result A) : result A :=
  match Buffer.Err b with
  | Some e => Err e
  | None => k
  end.

(** [return b.Err()] at the end of a decoder that built [v]. *)
Definition finish {A} (b : Buffer.t) (v : A) : result A := check b (Ok v).

(** ** ams/notification.go: the DeviceNotification packet *)

Record NotificationSample : Type := mkSample {
  Handle : Z;          (* u32 *)
  Size : Z;            (* u32 *)
  Data : list byte
}.

Record NotificationStamp : Type := mkStamp {
  Timestamp : Z;       (* u64, Windows FILETIME *)
  SampleCount : Z;     (* u32 *)
  Samples : list NotificationSample
}.

Record DeviceNotificationRequest : Type := mkDeviceNotificationRequest {
  dn_tcpHeader : TCPHeader;
  dn_amsHeader : AMSHeader;
  dn_Length : Z;       (* u32 *)
  StampCount : Z;      (* u32 *)
  Stamps : list NotificationStamp
}.

Module DeviceNotification.

(** The inner loop of [Encode]: [for j := range r.Stamps[i].Samples]. *)
Fixpoint encode_samples (l : list NotificationSample) (b : Buffer.t) : Buffer.t :=
  match l with
  | [] => b
  | s :: tl =>
      let b := Buffer.WriteUint32 (Handle s) b in
      let b := Buffer.WriteUint32 (Size s) b in
      let b := Buffer.WriteN (Data s) (Size s) b in
      encode_samples tl b
  end.

(** The outer loop of [Encode]: [for i := range r.Stamps]. *)
Fixpoint encode_stamps (l : list NotificationStamp) (b : Buffer.t) : Buffer.t :=
  match l with
  | [] => b
  | st :: tl =>
      let b := Buffer.WriteUint32 (to_u32 (Timestamp st)) b in
      let b := Buffer.WriteUint32 (to_u32 (Z.shiftr (Timestamp st) 32)) b in
      let b := Buffer.WriteUint32 (SampleCount st) b in
      let b := encode_samples (Samples st) b in
      encode_stamps tl b
  end.

(** [Encode]; the error it returns is [Buffer.Err] of the result. *)
Definition Encode (r : DeviceNotificationRequest) (b : Buffer.t) : Buffer.t :=
  let b := WriteTCPHeader (dn_tcpHeader r) b in
  let b := WriteAMSHeader (dn_amsHeader r) b in
  let b := Buffer.WriteUint32 (dn_Length r) b in
  let b := Buffer.WriteUint32 (StampCount r) b in
  encode_stamps (Stamps r) b.

(** The inner loop of [Decode], [n] iterations left. *)
Fixpoint decode_samples (n : nat) (b : Buffer.t)
  : result (list NotificationSample * Buffer.t) :=
  match n with
  | O => Ok ([], b)
  | S k =>
      let '(h, b) := Buffer.ReadUint32 b in
      check b (
      let '(sz, b) := Buffer.ReadUint32 b in
      check b (
      let '(d, b) := Buffer.ReadN (Z.to_nat sz) b in
      check b (
      match decode_samples k b with
      | Err e => Err e
      | Ok (tl, b) => Ok (mkSample h sz d :: tl, b)
      end)))
  end.

(** The outer loop of [Decode], [n] iterations left. *)
Fixpoint decode_stamps (n : nat) (b : Buffer.t)
  : result (list NotificationStamp * Buffer.t) :=
  match n with
  | O => Ok ([], b)
  | S k =>
      let '(low, b) := Buffer.ReadUint32 b in
      let '(high, b) := Buffer.ReadUint32 b in
      let ts := Z.lor (to_u64 low) (to_u64 (Z.shiftl (to_u64 high) 32)) in
      check b (
      let '(cnt, b) := Buffer.ReadUint32 b in
      check b (
      match decode_samples (Z.to_nat cnt) b with
      | Err e => Err e
      | Ok (smps, b) =>
          match decode_stamps k b with
          | Err e => Err e
          | Ok (tl, b) => Ok (mkStamp ts cnt smps :: tl, b)
          end
      end))
  end.

Definition Decode (b : Buffer.t) : result DeviceNotificationRequest :=
  let '(tcp, b) := ReadTCPHeader b in
  let '(ams, b) := ReadAMSHeader b in
  check b (
  let '(len, b) := Buffer.ReadUint32 b in
  check b (
  let '(cnt, b) := Buffer.ReadUint32 b in
  check b (
  if cnt =? 0 then finish b (mkDeviceNotificationRequest tcp ams len cnt [])
  else
    match decode_stamps (Z.to_nat cnt) b with
    | Err e => Err e
    | Ok (stamps, b) =>
        finish b (mkDeviceNotificationRequest tcp ams len cnt stamps)
    end))).

Definition IsDeviceNotificationRequest (h : AMSHeader) : bool :=
  CmdID h =? CmdADSDeviceNotification.

(** The packets the round-trip property ranges over: every count
    field tells the length of the slice it counts, every [Size] the
    length of its [Data], and every integer fits its Go type. *)
Definition wf_sample (s : NotificationSample) : Prop :=
  is_u32 (Handle s) /\ is_u32 (Size s) /\ Size s = Z.of_nat (length (Data s)).

Definition wf_stamp (st : NotificationStamp) : Prop :=
  is_u64 (Timestamp st) /\ is_u32 (SampleCount st) /\
  SampleCount st = Z.of_nat (length (Samples st)) /\
  Forall wf_sample (Samples st).

Definition wf (r : DeviceNotificationRequest) : Prop :=
  wf_TCPHeader (dn_tcpHeader r) /\ wf_AMSHeader (dn_amsHeader r) /\
  is_u32 (dn_Length r) /\ is_u32 (StampCount r) /\
  StampCount r = Z.of_nat (length (Stamps r)) /\
  Forall wf_stamp (Stamps r).

End DeviceNotification.

(** ** The other packets of package ams *)

(** [ams.Header]: the two headers every frame starts with. *)
Record ams_Header : Type := mkHeader {
  hdr_TCPHeader : TCPHeader;
  hdr_AMSHeader : AMSHeader
}.

(** Modelled from the spec: [Header.Decode] is not among the sources; it
    reads the 38 header bytes and reports the buffer's error. *)
Definition Header_Decode (b : Buffer.t) : result ams_Header :=
  let '(tcp, b) := ReadTCPHeader b in
  let '(ams, b) := ReadAMSHeader b in
  finish b (mkHeader tcp ams).

Definition set_InvokeID (h : AMSHeader) (id : Z) : AMSHeader :=
  mkAMSHeader (Target h) (Sender h) (CmdID h) (StateFlags h) (Length h)
              (ErrorCode h) id.

Definition set_Length_CmdID (h : AMSHeader) (len cmd : Z) : AMSHeader :=
  mkAMSHeader (Target h) (Sender h) cmd (StateFlags h) len
              (ErrorCode h) (InvokeID h).

Definition or_StateFlags (h : AMSHeader) (s : Z) : AMSHeader :=
  mkAMSHeader (Target h) (Sender h) (CmdID h) (Z.lor (StateFlags h) s)
              (Length h) (ErrorCode h) (InvokeID h).

Definition set_tcp_Length (h : TCPHeader) (len : Z) : TCPHeader :=
  mkTCPHeader (tcp_Reserved h) len.

(** The [packet] interface of client.go: [Header], [Decode], [Encode].
    [Header()] returns a pointer, through which the client sets the
    invoke-id: [withHeader] is that store.  [Encode] may update the
    packet's own headers before it writes them. *)
Class Packet (P : Type) : Type := {
  Header : P -> AMSHeader;
  withHeader : P -> AMSHeader -> P;
  Encode : P -> Buffer.t -> P * Buffer.t;
  Decode : Buffer.t -> result P
}.

(** Read, Write and ReadWrite responses, and the ReadState pair.
    Modelled from the spec: their files are not among the sources.  The
    body layouts are those of the table of section 4.1; the decoders
    follow the shape of the decoders that are among the sources (read
    both headers, read the fields, return the buffer's error). *)
Record ReadResponse : Type := mkReadResponse {
  rr_tcpHeader : TCPHeader; rr_amsHeader : AMSHeader;
  rr_Result : Z; rr_Length : Z; rr_Data : list byte
}.

Record WriteResponse : Type := mkWriteResponse {
  wr_tcpHeader : TCPHeader; wr_amsHeader : AMSHeader;
  wr_Result : Z
}.

Record ReadWriteResponse : Type := mkReadWriteResponse {
  rw_tcpHeader : TCPHeader; rw_amsHeader : AMSHeader;
  rw_Result : Z; rw_Length : Z; rw_Data : list byte
}.

Record ReadStateRequest : Type := mkReadStateRequest {
  rsq_tcpHeader : TCPHeader; rsq_amsHeader : AMSHeader
}.

Record ReadStateResponse : Type := mkReadStateResponse {
  rsp_tcpHeader : TCPHeader; rsp_amsHeader : AMSHeader;
  rsp_Result : Z;        (* u32 *)
  rsp_ADSState : Z;      (* u16 *)
  rsp_DeviceState : Z    (* u16 *)
}.

Definition ReadResponse_Decode (b : Buffer.t) : result ReadResponse :=
  let '(tcp, b) := ReadTCPHeader b in
  let '(ams, b) := ReadAMSHeader b in
  let '(res, b) := Buffer.ReadUint32 b in
  let '(len, b) := Buffer.ReadUint32 b in
  let '(d, b) := Buffer.ReadN (Z.to_nat len) b in
  finish b (mkReadResponse tcp ams res len d).

Definition WriteResponse_Decode (b : Buffer.t) : result WriteResponse :=
  let '(tcp, b) := ReadTCPHeader b in
  let '(ams, b) := ReadAMSHeader b in
  let '(res, b) := Buffer.ReadUint32 b in
  finish b (mkWriteResponse tcp ams res).

Definition ReadWriteResponse_Decode (b : Buffer.t) : result ReadWriteResponse :=
  let '(tcp, b) := ReadTCPHeader b in
  let '(ams, b) := ReadAMSHeader b in
  let '(res, b) := Buffer.ReadUint32 b in
  let '(len, b) := Buffer.ReadUint32 b in
  let '(d, b) := Buffer.ReadN (Z.to_nat len) b in
  finish b (mkReadWriteResponse tcp ams res len d).

Definition ReadStateRequest_Decode (b : Buffer.t) : result ReadStateRequest :=
  let '(tcp, b) := ReadTCPHeader b in
  let '(ams, b) := ReadAMSHeader b in
  finish b (mkReadStateRequest tcp ams).

(** [NewReadStateResponse], after [NewReadDeviceInfoResponse] of
    ams/readdeviceinfo.go: a response frame whose body is 8 bytes. *)
Definition NewReadStateResponse (target sender : Addr)
    (result adsState deviceState : Z) : ReadStateResponse :=
  mkReadStateResponse
    (mkTCPHeader 0 (amsHeaderLen + 8))
    (mkAMSHeader target sender CmdADSReadState
                 (Z.lor StateADSCommand StateResponse) 8 0 0)
    result adsState deviceState.

Definition ReadStateResponse_Encode (r : ReadStateResponse) (b : Buffer.t)
  : ReadStateResponse * Buffer.t :=
  let b := WriteTCPHeader (rsp_tcpHeader r) b in
  let b := WriteAMSHeader (rsp_amsHeader r) b in
  let b := Buffer.WriteUint32 (rsp_Result r) b in
  let b := Buffer.WriteUint16 (rsp_ADSState r) b in
  let b := Buffer.WriteUint16 (rsp_DeviceState r) b in
  (r, b).

Definition ReadStateResponse_Decode (b : Buffer.t) : result ReadStateResponse :=
  let '(tcp, b) := ReadTCPHeader b in
  let '(ams, b) := ReadAMSHeader b in
  let '(res, b) := Buffer.ReadUint32 b in
  let '(a, b) := Buffer.ReadUint16 b in
  let '(d, b) := Buffer.ReadUint16 b in
  finish b (mkReadStateResponse tcp ams res a d).

#[export] Instance ReadStateResponse_Packet : Packet ReadStateResponse := {|
  Header := rsp_amsHeader;
  withHeader r h :=
    mkReadStateResponse (rsp_tcpHeader r) h (rsp_Result r)
                        (rsp_ADSState r) (rsp_DeviceState r);
  Encode := ReadStateResponse_Encode;
  Decode := ReadStateResponse_Decode
|}.

(** *** The notification packets of the add/delete file (among the sources) *)

Record AddDeviceNotificationRequest : Type := mkAddDeviceNotificationRequest {
  adq_tcpHeader : TCPHeader; adq_amsHeader : AMSHeader;
  adq_IndexGroup : Z; adq_IndexOff : Z; adq_Length : Z;
  adq_TransMode : Z; adq_MaxDelay : Z; adq_CycleTime : Z;
  adq_Reserved : list byte       (* [16]byte *)
}.

Record AddDeviceNotificationResponse : Type := mkAddDeviceNotificationResponse {
  adr_tcpHeader : TCPHeader; adr_amsHeader : AMSHeader;
  adr_Result : Z; NotificationHandle : Z
}.

Record DeleteDeviceNotificationRequest : Type := mkDeleteDeviceNotificationRequest {
  ddq_tcpHeader : TCPHeader; ddq_amsHeader : AMSHeader;
  ddq_NotificationHandle : Z
}.

Record DeleteDeviceNotificationResponse : Type := mkDeleteDeviceNotificationResponse {
  ddr_tcpHeader : TCPHeader; ddr_amsHeader : AMSHeader;
  ddr_Result : Z
}.

Definition zero_TCPHeader : TCPHeader := mkTCPHeader 0 0.

Definition NewAddDeviceNotificationRequest (target sender : Addr)
    (indexGroup indexOffset length transMode maxDelay cycleTime : Z)
  : AddDeviceNotificationRequest :=
  mkAddDeviceNotificationRequest zero_TCPHeader
    (mkAMSHeader target sender CmdADSAddDeviceNotification StateADSCommand 0 0 0)
    indexGroup indexOffset length transMode maxDelay cycleTime
    (replicate 16 x00).

Definition NewDeleteDeviceNotificationRequest (target sender : Addr)
    (notificationHandle : Z) : DeleteDeviceNotificationRequest :=
  mkDeleteDeviceNotificationRequest zero_TCPHeader
    (mkAMSHeader target sender CmdADSDeleteDeviceNotification StateADSCommand 0 0 0)
    notificationHandle.

Definition AddDeviceNotificationRequest_Encode
    (r : AddDeviceNotificationRequest) (b : Buffer.t)
  : AddDeviceNotificationRequest * Buffer.t :=
  let tcp := set_tcp_Length (adq_tcpHeader r) (to_u32 (amsHeaderLen + 40)) in
  let ams := set_Length_CmdID (adq_amsHeader r) 40 CmdADSAddDeviceNotification in
  let r := mkAddDeviceNotificationRequest tcp ams (adq_IndexGroup r)
             (adq_IndexOff r) (adq_Length r) (adq_TransMode r)
             (adq_MaxDelay r) (adq_CycleTime r) (adq_Reserved r) in
  let b := WriteTCPHeader tcp b in
  let b := WriteAMSHeader ams b in
  let b := Buffer.WriteUint32 (adq_IndexGroup r) b in
  let b := Buffer.WriteUint32 (adq_IndexOff r) b in
  let b := Buffer.WriteUint32 (adq_Length r) b in
  let b := Buffer.WriteUint32 (adq_TransMode r) b in
  let b := Buffer.WriteUint32 (adq_MaxDelay r) b in
  let b := Buffer.WriteUint32 (adq_CycleTime r) b in
  let b := Buffer.WriteN (adq_Reserved r) 16 b in
  (r, b).

Definition AddDeviceNotificationRequest_Decode (b : Buffer.t)
  : result AddDeviceNotificationRequest :=
  let '(tcp, b) := ReadTCPHeader b in
  let '(ams, b) := ReadAMSHeader b in
  let '(ig, b) := Buffer.ReadUint32 b in
  let '(io, b) := Buffer.ReadUint32 b in
  let '(len, b) := Buffer.ReadUint32 b in
  let '(tm, b) := Buffer.ReadUint32 b in
  let '(md, b) := Buffer.ReadUint32 b in
  let '(ct, b) := Buffer.ReadUint32 b in
  let '(rs, b) := Buffer.ReadN 16 b in
  (* copy(r.Reserved[:], ...) into the zeroed array *)
  finish b (mkAddDeviceNotificationRequest tcp ams ig io len tm md ct
              (rs ++ replicate (16 - length rs) x00)).

Definition AddDeviceNotificationResponse_Decode (b : Buffer.t)
  : result AddDeviceNotificationResponse :=
  let '(tcp, b) := ReadTCPHeader b in
  let '(ams, b) := ReadAMSHeader b in
  let '(res, b) := Buffer.ReadUint32 b in
  let '(h, b) := Buffer.ReadUint32 b in
  finish b (mkAddDeviceNotificationResponse tcp ams res h).

Definition DeleteDeviceNotificationRequest_Encode
    (r : DeleteDeviceNotificationRequest) (b : Buffer.t)
  : DeleteDeviceNotificationRequest * Buffer.t :=
  let tcp := set_tcp_Length (ddq_tcpHeader r) (to_u32 (amsHeaderLen + 4)) in
  let ams := set_Length_CmdID (ddq_amsHeader r) 4 CmdADSDeleteDeviceNotification in
  let r := mkDeleteDeviceNotificationRequest tcp ams (ddq_NotificationHandle r) in
  let b := WriteTCPHeader tcp b in
  let b := WriteAMSHeader ams b in
  let b := Buffer.WriteUint32 (ddq_NotificationHandle r) b in
  (r, b).

Definition DeleteDeviceNotificationRequest_Decode (b : Buffer.t)
  : result DeleteDeviceNotificationRequest :=
  let '(tcp, b) := ReadTCPHeader b in
  let '(ams, b) := ReadAMSHeader b in
  let '(h, b) := Buffer.ReadUint32 b in
  finish b (mkDeleteDeviceNotificationRequest tcp ams h).

Definition DeleteDeviceNotificationResponse_Decode (b : Buffer.t)
  : result DeleteDeviceNotificationResponse :=
  let '(tcp, b) := ReadTCPHeader b in
  let '(ams, b) := ReadAMSHeader b in
  let '(res, b) := Buffer.ReadUint32 b in
  finish b (mkDeleteDeviceNotificationResponse tcp ams res).

#[export] Instance AddDeviceNotificationRequest_Packet
  : Packet AddDeviceNotificationRequest := {|
  Header := adq_amsHeader;
  withHeader r h :=
    mkAddDeviceNotificationRequest (adq_tcpHeader r) h (adq_IndexGroup r)
      (adq_IndexOff r) (adq_Length r) (adq_TransMode r) (adq_MaxDelay r)
      (adq_CycleTime r) (adq_Reserved r);
  Encode := AddDeviceNotificationRequest_Encode;
  Decode := AddDeviceNotificationRequest_Decode
|}.

#[export] Instance DeleteDeviceNotificationRequest_Packet
  : Packet DeleteDeviceNotificationRequest := {|
  Header := ddq_amsHeader;
  withHeader r h :=
    mkDeleteDeviceNotificationRequest (ddq_tcpHeader r) h (ddq_NotificationHandle r);
  Encode := DeleteDeviceNotificationRequest_Encode;
  Decode := DeleteDeviceNotificationRequest_Decode
|}.

(** *** Routing predicates *)

Definition IsAddDeviceNotificationResponse (h : AMSHeader) : bool :=
  (CmdID h =? CmdADSAddDeviceNotification) && HasState h StateResponse.

Definition IsDeleteDeviceNotificationResponse (h : AMSHeader) : bool :=
  (CmdID h =? CmdADSDeleteDeviceNotification) && HasState h StateResponse.

(** Modelled from the spec: the predicates of the Read, Write, ReadWrite
    and ReadState files are not among the sources.  A frame is classified
    by (CmdID, Response bit); they are written after their siblings among
    the sources: a response as [IsAddDeviceNotificationResponse], the
    request as [IsReadDeviceInfoRequest] of ams/readdeviceinfo.go. *)
Definition IsReadResponse (h : AMSHeader) : bool :=
  (CmdID h =? CmdADSRead) && HasState h StateResponse.

Definition IsWriteResponse (h : AMSHeader) : bool :=
  (CmdID h =? CmdADSWrite) && HasState h StateResponse.

Definition IsReadWriteResponse (h : AMSHeader) : bool :=
  (CmdID h =? CmdADSReadWrite) && HasState h StateResponse.

Definition IsReadStateRequest (h : AMSHeader) : bool :=
  (CmdID h =? CmdADSReadState) && (StateFlags h =? StateADSCommand).

(** ** client.go: the transport *)

(** [ams.Response]: what a handler channel carries. *)
Inductive Response : Type :=
  | RespRead (r : ReadResponse)
  | RespWrite (r : WriteResponse)
  | RespReadWrite (r : ReadWriteResponse)
  | RespAddDeviceNotification (r : AddDeviceNotificationResponse)
  | RespDeleteDeviceNotification (r : DeleteDeviceNotificationResponse).

(** The packet value the pump allocates for a classified frame
    ([pkt = &ams.ReadResponse{}] and so on). *)
Inductive kind : Type :=
  | KReadResponse
  | KWriteResponse
  | KReadWriteResponse
  | KReadStateRequest
  | KDeviceNotificationRequest
  | KAddDeviceNotificationResponse
  | KDeleteDeviceNotificationResponse.

(** The packet after [pkt.Decode]: the three arms of the type switch. *)
Inductive inbound : Type :=
  | InReadStateRequest (r : ReadStateRequest)
  | InDeviceNotification (r : DeviceNotificationRequest)
  | InResponse (r : Response).

(** The [switch] that picks the packet type, in the order of the source. *)
Definition classify (h : AMSHeader) : option kind :=
  if IsReadResponse h then Some KReadResponse
  else if IsWriteResponse h then Some KWriteResponse
  else if IsReadWriteResponse h then Some KReadWriteResponse
  else if IsReadStateRequest h then Some KReadStateRequest
  else if DeviceNotification.IsDeviceNotificationRequest h
       then Some KDeviceNotificationRequest
  else if IsAddDeviceNotificationResponse h
       then Some KAddDeviceNotificationResponse
  else if IsDeleteDeviceNotificationResponse h
       then Some KDeleteDeviceNotificationResponse
  else None.

Definition rmap {A B} (f : A -> B) (r : result A) : result B :=
  match r with
  | Ok v => Ok (f v)
  | Err e => Err e
  end.

(** [pkt.Decode(ams.NewBuffer(data))], by dynamic type of [pkt]. *)
Definition decode_kind (k : kind) (b : Buffer.t) : result inbound :=
  match k with
  | KReadResponse => rmap (fun r => InResponse (RespRead r)) (ReadResponse_Decode b)
  | KWriteResponse => rmap (fun r => InResponse (RespWrite r)) (WriteResponse_Decode b)
  | KReadWriteResponse =>
      rmap (fun r => InResponse (RespReadWrite r)) (ReadWriteResponse_Decode b)
  | KReadStateRequest => rmap InReadStateRequest (ReadStateRequest_Decode b)
  | KDeviceNotificationRequest =>
      rmap InDeviceNotification (DeviceNotification.Decode b)
  | KAddDeviceNotificationResponse =>
      rmap (fun r => InResponse (RespAddDeviceNotification r))
           (AddDeviceNotificationResponse_Decode b)
  | KDeleteDeviceNotificationResponse =>
      rmap (fun r => InResponse (RespDeleteDeviceNotification r))
           (DeleteDeviceNotificationResponse_Decode b)
  end.

(** The kinds whose packet is forwarded to a handler channel. *)
Definition is_response_kind (k : kind) : bool :=
  match k with
  | KReadStateRequest | KDeviceNotificationRequest => false
  | _ => true
  end.

(** A [chan ams.Response] of capacity one. *)
Record chan : Type := mkChan { ch_buf : option Response; ch_closed : bool }.

(** What the transport does that the outside can see, oldest first. *)
Inductive event : Type :=
  | EvLog (msg : string)                       (* log.Printf *)
  | EvWrite (data : list byte)                 (* conn.Write that succeeded *)
  | EvWriteFailed (data : list byte)           (* conn.Write that failed *)
  | EvCallback (req : DeviceNotificationRequest). (* notification callback called *)

(** The notification callback: a user function; [Some v] is a panic
    with value [v]. *)
Definition notification_callback : Type :=
  DeviceNotificationRequest -> option string.

(** [Client].  Channels live in a store and are named by number, since
    a handler channel is shared by the sender that made it and the
    handler map. *)
Record Client : Type := mkClient {
  nextInvokeID : Z;                       (* u32, atomic *)
  handler : gmap Z nat;                   (* invoke-id -> channel *)
  chans : gmap nat chan;                  (* the channels made so far *)
  adsState : Z;                           (* u16 *)
  deviceState : Z;                        (* u16 *)
  notificationCallback : option notification_callback;
  events : list event
}.

Definition with_handler (c : Client) (h : gmap Z nat) : Client :=
  mkClient (nextInvokeID c) h (chans c) (adsState c) (deviceState c)
           (notificationCallback c) (events c).

Definition with_chans (c : Client) (m : gmap nat chan) : Client :=
  mkClient (nextInvokeID c) (handler c) m (adsState c) (deviceState c)
           (notificationCallback c) (events c).

Definition with_nextInvokeID (c : Client) (n : Z) : Client :=
  mkClient n (handler c) (chans c) (adsState c) (deviceState c)
           (notificationCallback c) (events c).

Definition emit (c : Client) (e : event) : Client :=
  mkClient (nextInvokeID c) (handler c) (chans c) (adsState c) (deviceState c)
           (notificationCallback c) (events c ++ [e]).

Definition ADSState (c : Client) : Z := adsState c.
Definition DeviceState (c : Client) : Z := deviceState c.

Definition SetADSState (s : Z) (c : Client) : Client :=
  mkClient (nextInvokeID c) (handler c) (chans c) s (deviceState c)
           (notificationCallback c) (events c).

Definition SetDeviceState (s : Z) (c : Client) : Client :=
  mkClient (nextInvokeID c) (handler c) (chans c) (adsState c) s
           (notificationCallback c) (events c).

Definition SetNotificationCallback (cb : option notification_callback)
    (c : Client) : Client :=
  mkClient (nextInvokeID c) (handler c) (chans c) (adsState c) (deviceState c)
           cb (events c).

(** [c.conn.Write(data)]; [ok] tells whether the connection took it. *)
Definition conn_Write (data : list byte) (ok : bool) (c : Client)
  : Client * option error :=
  if ok then (emit c (EvWrite data), None)
  else (emit c (EvWriteFailed data), Some ErrIO).

(** [sendResponse]: copy the request's invoke-id, encode, write. *)
Definition sendResponse {P} `{Packet P} (req_hdr : AMSHeader) (pkt : P)
    (write_ok : bool) (c : Client) : Client * option error :=
  let pkt := withHeader pkt (set_InvokeID (Header pkt) (InvokeID req_hdr)) in
  let '(_, b) := Encode pkt Buffer.empty in
  match Buffer.Err b with
  | Some e => (c, Some e)
  | None => conn_Write (Buffer.Bytes b) write_ok c
  end.

Definition handleReadStateRequest (req : ReadStateRequest) (write_ok : bool)
    (c : Client) : Client * option error :=
  let hdr := rsq_amsHeader req in
  let resp := NewReadStateResponse (Sender hdr) (Target hdr) NoError
                                   (ADSState c) (DeviceState c) in
  sendResponse hdr resp write_ok c.

(** What one turn of the receive loop meets from outside: the result of
    [conn.Read], whether a [conn.Write] would succeed, and whether the
    context is cancelled and the [select] takes that arm. *)
Record pump_in : Type := mkPumpIn {
  in_read : result (list byte);
  in_write_ok : bool;
  in_ctx_done : bool
}.

(** How one turn of the loop ends. *)
Inductive pump_out : Type :=
  | Continue                 (* next turn *)
  | Return (e : error)       (* the pump returns [e] *)
  | Blocked.                 (* a channel send that cannot proceed; never
                                met, a handler channel being fresh and
                                written once *)

Definition packetSize : nat := 1500.

(** The [default] arm: forward a response to its handler channel. *)
Definition forward (invokeID : Z) (pkt : Response) (ctx_done : bool)
    (c : Client) : Client * pump_out :=
  let h := handler c !! invokeID in
  let c := with_handler c (delete invokeID (handler c)) in
  match h with
  | None => (emit c (EvLog "client: no handler"), Continue)
  | Some ch =>
      if ctx_done then (c, Continue)
      else
        match chans c !! ch with
        | Some (mkChan None false) =>
            (with_chans c (<[ch := mkChan (Some pkt) true]> (chans c)), Continue)
        | _ => (c, Blocked)
        end
  end.

(** One turn of the [for] loop of [receive]. *)
Definition receive_iter (i : pump_in) (c : Client) : Client * pump_out :=
  match in_read i with
  | Err e => (c, Return e)
  | Ok bytes =>
      let data := take packetSize bytes in
      match Header_Decode (Buffer.NewBuffer data) with
      | Err e => (c, Return e)
      | Ok hdr =>
          match classify (hdr_AMSHeader hdr) with
          | None => (emit c (EvLog "client: unknown packet"), Continue)
          | Some k =>
              match decode_kind k (Buffer.NewBuffer data) with
              | Err e =>
                  match k with
                  | KDeviceNotificationRequest =>
                      match notificationCallback c with
                      | Some _ =>
                          (emit c (EvLog "client: failed to decode notification"),
                           Continue)
                      | None => (c, Continue)
                      end
                  | _ => (emit c (EvLog "client: failed to decode"), Return e)
                  end
              | Ok (InReadStateRequest req) =>
                  match handleReadStateRequest req (in_write_ok i) c with
                  | (c, Some e) => (c, Return e)
                  | (c, None) => (c, Continue)
                  end
              | Ok (InDeviceNotification req) =>
                  match notificationCallback c with
                  | Some callback =>
                      let c := emit c (EvCallback req) in
                      match callback req with
                      | Some _ =>
                          (emit c (EvLog "client: panic in notification callback"),
                           Continue)
                      | None => (c, Continue)
                      end
                  | None => (c, Continue)
                  end
              | Ok (InResponse pkt) =>
                  forward (InvokeID (hdr_AMSHeader hdr)) pkt (in_ctx_done i) c
              end
          end
      end
  end.

(** [receive]: set both states to Run, loop, and set both to Stop on the
    way out.  The loop runs over the inputs given; [None] when they run
    out with the pump still going. *)
Fixpoint receive_loop (ins : list pump_in) (c : Client) : Client * option pump_out :=
  match ins with
  | [] => (c, None)
  | i :: tl =>
      match receive_iter i c with
      | (c, Continue) => receive_loop tl c
      | (c, out) => (c, Some out)
      end
  end.

Definition receive (ins : list pump_in) (c : Client) : Client * option pump_out :=
  let c := SetDeviceState ADSStateRun (SetADSState ADSStateRun c) in
  match receive_loop ins c with
  | (c, Some (Return e)) =>
      (SetADSState ADSStateStop (SetDeviceState ADSStateStop c), Some (Return e))
  | r => r
  end.

(** [send], first half: take a fresh invoke-id, encode, make the handler
    channel and register it, write the request.  On success the sender
    holds the channel and goes on to wait. *)
Definition send_start {P} `{Packet P} (pkt : P) (write_ok : bool) (c : Client)
  : Client * result (Z * nat) :=
  let id := to_u32 (nextInvokeID c + 1) in
  let c := with_nextInvokeID c id in
  let pkt := withHeader pkt (set_InvokeID (Header pkt) id) in
  let '(pkt, b) := Encode pkt Buffer.empty in
  match Buffer.Err b with
  | Some e => (c, Err e)
  | None =>
      let ch := fresh (dom (chans c)) in
      let c := with_chans c (<[ch := mkChan None false]> (chans c)) in
      let c := with_handler c (<[InvokeID (Header pkt) := ch]> (handler c)) in
      match conn_Write (Buffer.Bytes b) write_ok c with
      | (c, Some e) =>
          (with_handler c (delete (InvokeID (Header pkt)) (handler c)), Err e)
      | (c, None) => (c, Ok (InvokeID (Header pkt), ch))
      end
  end.

(** The arm the final [select] of [send] takes. *)
Inductive wait_arm : Type :=
  | ArmCtxDone       (* <-ctx.Done() *)
  | ArmTimeout       (* <-time.After(c.ReadTimeout) *)
  | ArmResponse.     (* r := <-h *)

(** [send], second half: the [select].  [None] when the arm chosen
    cannot fire (nothing in the channel).  A sender receives from its
    channel once, so a closed and drained channel is never read. *)
Definition send_wait {A} (ch : nat) (arm : wait_arm)
    (cb : Response -> result A) (c : Client) : Client * option (result A) :=
  match arm with
  | ArmCtxDone => (c, Some (Err ErrCancelled))
  | ArmTimeout => (c, Some (Err ErrTimeout))
  | ArmResponse =>
      match chans c !! ch with
      | Some (mkChan (Some r) closed) =>
          (with_chans c (<[ch := mkChan None closed]> (chans c)), Some (cb r))
      | _ => (c, None)
      end
  end.

(** ** The symbol layer: struct fields and symbols *)

(** [StructField].  The [Value] field (an [interface{}] filled by the
    readers of values) plays no part in the functions below and is left
    out. *)
#[warnings="-register-all"]
Inductive StructField : Type := mkStructField {
  sf_Name : string;
  sf_DataType : string;
  sf_Offset : Z;        (* u32, relative to the parent *)
  sf_Size : Z;          (* u32 *)
  sf_Fields : list StructField
}.

Record Symbol : Type := mkSymbol {
  sym_Name : string;
  sym_DataType : string;
  sym_Size : Z;
  sym_Fields : list StructField
}.

Record SymbolInfo : Type := mkSymbolInfo {
  si_Name : string;
  si_DataType : string;
  si_Size : Z;          (* u32 *)
  IndexGroup : Z;       (* u32 *)
  IndexOffset : Z;      (* u32 *)
  si_Handle : Z;        (* u32, 0 = none *)
  si_Comment : string;
  si_Fields : list StructField
}.

Definition with_Handle (i : SymbolInfo) (h : Z) : SymbolInfo :=
  mkSymbolInfo (si_Name i) (si_DataType i) (si_Size i) (IndexGroup i)
               (IndexOffset i) h (si_Comment i) (si_Fields i).

Definition with_Fields (i : SymbolInfo) (f : list StructField) : SymbolInfo :=
  mkSymbolInfo (si_Name i) (si_DataType i) (si_Size i) (IndexGroup i)
               (IndexOffset i) (si_Handle i) (si_Comment i) f.

(** [FindFieldByPathWithOffset]: the first field named [path[0]] at each
    level; its offset is added to [baseOffset] in [uint32]. *)
Fixpoint FindFieldByPathWithOffset (fields : list StructField)
    (path : list string) (baseOffset : Z) {struct path}
  : result (StructField * Z) :=
  match path with
  | [] => Err (ErrMsg "empty path")
  | p :: rest =>
      match List.find (fun f => String.eqb (sf_Name f) p) fields with
      | Some f =>
          let currentOffset := to_u32 (baseOffset + sf_Offset f) in
          match rest with
          | [] => Ok (f, currentOffset)
          | _ :: _ => FindFieldByPathWithOffset (sf_Fields f) rest currentOffset
          end
      | None => Err (ErrMsg ("field " ++ p ++ " not found"))
      end
  end.

(** A Go slice expression [d[lo:hi]] with [lo <= hi <= len(d)]. *)
Definition slice (d : list byte) (lo hi : Z) : list byte :=
  take (Z.to_nat (hi - lo)) (drop (Z.to_nat lo) d).

Definition len (d : list byte) : Z := Z.of_nat (length d).

(** [copy(dst[lo:hi], src)] into the buffer [dst], for [lo <= hi <= len(dst)]:
    the first [min(hi-lo, len(src))] bytes of [src] land at [lo]. *)
Definition copy_into (dst : list byte) (lo hi : Z) (src : list byte) : list byte :=
  let n := Nat.min (Z.to_nat (hi - lo)) (length src) in
  take (Z.to_nat lo) dst ++ take n src ++ drop (Z.to_nat lo + n) dst.

(** The bytes of a string up to its first NUL. *)
Fixpoint until_NUL (d : list byte) : list byte :=
  match d with
  | [] => []
  | b :: tl => if Byte.eqb b x00 then [] else b :: until_NUL tl
  end.

(** ** The client as a session sees it *)

Record ReadRequest : Type := mkReadRequest {
  rq_target : Addr; rq_sender : Addr;
  rq_IndexGroup : Z; rq_IndexOffset : Z; rq_Length : Z
}.

Record WriteRequest : Type := mkWriteRequest {
  wq_target : Addr; wq_sender : Addr;
  wq_IndexGroup : Z; wq_IndexOffset : Z; wq_Data : list byte
}.

Record ReadWriteRequest : Type := mkReadWriteRequest {
  rwq_target : Addr; rwq_sender : Addr;
  rwq_IndexGroup : Z; rwq_IndexOffset : Z; rwq_ReadLength : Z;
  rwq_Data : list byte
}.

(** [ams.NewReadRequest], [ams.NewWriteRequest], [ams.NewReadWriteRequest]:
    their files are not among the sources; a request is kept as the
    arguments its constructor is called with. *)
Definition NewReadRequest := mkReadRequest.
Definition NewWriteRequest := mkWriteRequest.
Definition NewReadWriteRequest := mkReadWriteRequest.

Inductive Request : Type :=
  | ReqRead (r : ReadRequest)
  | ReqWrite (r : WriteRequest)
  | ReqReadWrite (r : ReadWriteRequest)
  | ReqAddDeviceNotification (r : AddDeviceNotificationRequest)
  | ReqDeleteDeviceNotification (r : DeleteDeviceNotificationRequest).

(** A session and the client under it.  [sent] lists the requests handed
    to [Client.send], oldest first.  [replies] is what each [send] to come
    will return, in order: [Err] for a failed write, a timeout or a
    cancellation, [Ok r] for the response delivered; a [send] past the
    end of the list meets a server that never answers. *)
Record Session : Type := mkSession {
  targetAddr : Addr;
  senderAddr : Addr;
  registry : gmap string SymbolInfo;
  sent : list Request;
  replies : list (result Response)
}.

Definition with_registry (s : Session) (r : gmap string SymbolInfo) : Session :=
  mkSession (targetAddr s) (senderAddr s) r (sent s) (replies s).

(** Stateful, fallible code: a state and error monad. *)
Definition M (S A : Type) : Type := S -> result A * S.

Definition ret {S A} (v : A) : M S A := fun s => (Ok v, s).
Definition fail {S A} (e : error) : M S A := fun s => (Err e, s).
Definition bind {S A B} (m : M S A) (k : A -> M S B) : M S B :=
  fun s => match m s with
           | (Ok v, s') => k v s'
           | (Err e, s') => (Err e, s')
           end.
(** [if err != nil { return wrap(err) }] *)
Definition on_error {S A} (m : M S A) (w : error -> error) : M S A :=
  fun s => match m s with
           | (Ok v, s') => (Ok v, s')
           | (Err e, s') => (Err (w e), s')
           end.
Definition get {S} : M S S := fun s => (Ok s, s).
Definition modify {S} (f : S -> S) : M S unit := fun s => (Ok tt, f s).

Notation "x <- m ;; k" := (bind m (fun x => k))
  (at level 100, m at next level, right associativity).
Notation "m ;;; k" := (bind m (fun _ => k))
  (at level 100, right associativity).

(** [Client.send] seen from above. *)
Definition client_send (req : Request) : M Session Response :=
  fun s =>
    match replies s with
    | [] =>
        (Err ErrTimeout,
         mkSession (targetAddr s) (senderAddr s) (registry s) (sent s ++ [req]) [])
    | r :: tl =>
        (r, mkSession (targetAddr s) (senderAddr s) (registry s) (sent s ++ [req]) tl)
    end.

Definition type_mismatch : error := ErrMsg "got %T want %T".

Definition Client_Read (r : ReadRequest) : M Session ReadResponse :=
  x <- client_send (ReqRead r) ;;
  match x with RespRead x => ret x | _ => fail type_mismatch end.

Definition Client_ReadWrite (r : ReadWriteRequest) : M Session ReadWriteResponse :=
  x <- client_send (ReqReadWrite r) ;;
  match x with RespReadWrite x => ret x | _ => fail type_mismatch end.

Definition Client_Write (r : WriteRequest) : M Session WriteResponse :=
  x <- client_send (ReqWrite r) ;;
  match x with RespWrite x => ret x | _ => fail type_mismatch end.

Definition Client_AddDeviceNotification (r : AddDeviceNotificationRequest)
  : M Session AddDeviceNotificationResponse :=
  x <- client_send (ReqAddDeviceNotification r) ;;
  match x with RespAddDeviceNotification x => ret x | _ => fail type_mismatch end.

Definition Client_DeleteDeviceNotification (r : DeleteDeviceNotificationRequest)
  : M Session DeleteDeviceNotificationResponse :=
  x <- client_send (ReqDeleteDeviceNotification r) ;;
  match x with RespDeleteDeviceNotification x => ret x | _ => fail type_mismatch end.

(** [ams.IdxGetSymHandleByName]: the constant's file is not among the
    sources; it is the ADS index group "handle by name". *)
Definition IdxGetSymHandleByName : Z := 0xF003.

(** The part of [GetSymHandleByName] after the round trip. *)
Definition handle_of_response (res : ReadWriteResponse) : result Z :=
  if negb (ErrorCode (rw_amsHeader res) =? NoError)
  then Err (ErrCode "failed ReadWrite" (ErrorCode (rw_amsHeader res)))
  else if len (rw_Data res) <? 4
  then Err (ErrCode "not enough data" (len (rw_Data res)))
  else Ok (le_value (slice (rw_Data res) 0 4)).

Definition GetSymHandleByName (targetID senderID : Addr) (name : string)
  : M Session Z :=
  let req := NewReadWriteRequest targetID senderID IdxGetSymHandleByName 0 4
                                 (list_byte_of_string name) in
  res <- on_error (Client_ReadWrite req)
                  (fun _ => ErrMsg ("failed GetSymHandleByName " ++ name)) ;;
  match handle_of_response res with
  | Ok h => ret h
  | Err e => fail e
  end.

(** [Client.GetSymbol]: the part after the round trip. *)
Definition symbol_of_response (name : string) (data : list byte) : result Symbol :=
  if len data <? 32
  then Err (ErrCode "invalid symbol info response" (len data))
  else
    let size := le_value (slice data 12 16) in
    let nameLength := le_value (slice data 24 26) in
    let typeLength := le_value (slice data 26 28) in
    let typeStart := 30 + nameLength + 1 in
    let typeEnd := typeStart + typeLength in
    let dataType :=
      if typeEnd <=? len data then
        let dataType := slice data typeStart typeEnd in
        match dataType with
        | b :: _ => if Byte.eqb b x00 then [] else until_NUL dataType
        | [] => until_NUL dataType
        end
      else list_byte_of_string "UNKNOWN" in
    Ok (mkSymbol name (string_of_list_byte dataType) size []).

Definition Client_GetSymbol (targetAddr senderAddr : Addr) (name : string)
  : M Session Symbol :=
  let nameBytes := list_byte_of_string name ++ [x00] in
  let req := NewReadWriteRequest targetAddr senderAddr 0xF009 0 0xFFFF nameBytes in
  resp <- on_error (Client_ReadWrite req) (ErrWrap "failed to get symbol info") ;;
  match symbol_of_response name (rw_Data resp) with
  | Ok sym => ret sym
  | Err e => fail e
  end.

(** [Client.GetDataTypeInfo]: the loop over the sub-items, [n] turns
    left, the next entry at [offset]. *)
Fixpoint parse_subitems (data : list byte) (n : nat) (offset : Z)
  : list StructField :=
  match n with
  | O => []
  | S k =>
      if negb (offset <? len data) then []
      else if offset + 42 >? len data then []
      else
        let fieldSize := le_value (slice data (offset + 16) (offset + 20)) in
        let fieldOffset := le_value (slice data (offset + 20) (offset + 24)) in
        let fieldNameLen := le_value (slice data (offset + 32) (offset + 34)) in
        let fieldTypeLen := le_value (slice data (offset + 34) (offset + 36)) in
        let fieldNameStart := offset + 42 in
        let fieldNameEnd := fieldNameStart + fieldNameLen in
        if fieldNameEnd >? len data then []
        else
          let fieldName := until_NUL (slice data fieldNameStart fieldNameEnd) in
          let fieldTypeStart := fieldNameEnd + 1 in
          let fieldTypeEnd := fieldTypeStart + fieldTypeLen in
          if fieldTypeEnd >? len data then []
          else
            let fieldType := until_NUL (slice data fieldTypeStart fieldTypeEnd) in
            let entryLength := le_value (slice data offset (offset + 4)) in
            mkStructField (string_of_list_byte fieldName)
                          (string_of_list_byte fieldType)
                          fieldOffset fieldSize []
            :: parse_subitems data k (offset + entryLength)
  end.

Definition fields_of_response (data : list byte) : result (list StructField) :=
  if len data <? 32 then Err (ErrMsg "invalid data type info response")
  else if len data <? 42 then Err (ErrMsg "response too short for data type info")
  else
    let subItems := le_value (slice data 40 42) in
    if subItems =? 0 then Ok []
    else
      let nameLength := le_value (slice data 32 34) in
      let typeLength := le_value (slice data 34 36) in
      let commentLength := le_value (slice data 36 38) in
      let offset := 42 + nameLength + 1 + typeLength + 1 + commentLength + 1 in
      Ok (parse_subitems data (Z.to_nat subItems) offset).

Definition Client_GetDataTypeInfo (targetAddr senderAddr : Addr)
    (typeName : string) : M Session (list StructField) :=
  let typeBytes := list_byte_of_string typeName ++ [x00] in
  let req := NewReadWriteRequest targetAddr senderAddr 0xF011 0 0xFFFF typeBytes in
  resp <- on_error (Client_ReadWrite req) (ErrWrap "failed to get data type info") ;;
  match fields_of_response (rw_Data resp) with
  | Ok f => ret f
  | Err e => fail e
  end.

(** ** session.go *)

Definition registry_Get (name : string) : M Session (option SymbolInfo) :=
  fun s => (Ok (registry s !! name), s).

Definition registry_Set (name : string) (info : SymbolInfo) : M Session unit :=
  modify (fun s => with_registry s (<[name := info]> (registry s))).

(** [Session.GetSymbol] *)
Definition GetSymbol (name : string) : M Session SymbolInfo :=
  cached <- registry_Get name ;;
  match cached with
  | Some info => ret info
  | None =>
      s <- get ;;
      symbol <- Client_GetSymbol (targetAddr s) (senderAddr s) name ;;
      let info := mkSymbolInfo (sym_Name symbol) (sym_DataType symbol)
                               (sym_Size symbol) 0 0 0 "" (sym_Fields symbol) in
      registry_Set name info ;;;
      ret info
  end.

(** [Session.getOrCreateHandle]: the cached handle when there is one
    ([ok && info.Handle != 0]), else [acquire]: ask the PLC and store. *)
Definition getOrCreateHandle (name : string) : M Session Z :=
  let acquire : M Session Z :=
    s <- get ;;
    handle <- GetSymHandleByName (targetAddr s) (senderAddr s) name ;;
    now <- registry_Get name ;;
    match now with
    | Some info =>
        (* [info.Handle = handle] through the pointer, then [Set] *)
        registry_Set name (with_Handle info handle) ;;;
        ret handle
    | None =>
        registry_Set name (mkSymbolInfo name "" 0 0 0 handle "" []) ;;;
        ret handle
    end in
  cached <- registry_Get name ;;
  match cached with
  | Some info =>
      if negb (si_Handle info =? 0) then ret (si_Handle info) else acquire
  | None => acquire
  end.

(** The registry holds pointers, and [GetSymbol] returns the very
    pointer stored under the name: what the caller reads through it
    later is the entry as it then is. *)
Definition through (name : string) (info : SymbolInfo) : M Session SymbolInfo :=
  now <- registry_Get name ;;
  ret (default info now).

(** [Session.Read] *)
Definition Session_Read (name : string) : M Session (list byte * SymbolInfo) :=
  info <- on_error (GetSymbol name) (ErrWrap "failed to get symbol info") ;;
  handle <- on_error (getOrCreateHandle name) (ErrWrap "failed to get handle") ;;
  info <- through name info ;;
  s <- get ;;
  let req := NewReadRequest (targetAddr s) (senderAddr s) 0xF005 handle (si_Size info) in
  resp <- on_error (Client_Read req) (ErrWrap ("failed to read " ++ name)) ;;
  ret (rr_Data resp, info).

(** [Session.Write] *)
Definition Session_Write (name : string) (data : list byte) : M Session unit :=
  handle <- on_error (getOrCreateHandle name) (ErrWrap "failed to get handle") ;;
  s <- get ;;
  let req := NewWriteRequest (targetAddr s) (senderAddr s) 0xF005 handle data in
  on_error (Client_Write req) (ErrWrap ("failed to write " ++ name)) ;;;
  ret tt.

Definition size_mismatch : error := ErrMsg "field data size mismatch".

(** [Session.WriteNestedField] *)
Definition WriteNestedField (rootVar : string) (fieldPath : list string)
    (fieldData : list byte) : M Session unit :=
  info <- on_error (GetSymbol rootVar) (ErrWrap "failed to get symbol info") ;;
  handle <- on_error (getOrCreateHandle rootVar) (ErrWrap "failed to get handle") ;;
  info <- through rootVar info ;;
  s <- get ;;
  let req := NewReadRequest (targetAddr s) (senderAddr s) 0xF005 handle (si_Size info) in
  resp <- on_error (Client_Read req) (ErrWrap "failed to read struct") ;;
  info <- (if (length (si_Fields info) =? 0)%nat then
             fields <- on_error (Client_GetDataTypeInfo (targetAddr s) (senderAddr s)
                                                        (si_DataType info))
                                (ErrWrap "failed to get data type info") ;;
             let info := with_Fields info fields in
             registry_Set rootVar info ;;;
             ret info
           else ret info) ;;
  match FindFieldByPathWithOffset (si_Fields info) fieldPath 0 with
  | Err e => fail (ErrWrap "field not found" e)
  | Ok (field, absoluteOffset) =>
      let fieldEnd := absoluteOffset + sf_Size field in
      if (fieldEnd >? len (rr_Data resp))
         || negb (len fieldData =? sf_Size field)
      then fail size_mismatch
      else
        let data := copy_into (rr_Data resp) absoluteOffset fieldEnd fieldData in
        let writeReq := NewWriteRequest (targetAddr s) (senderAddr s) 0xF005 handle data in
        Client_Write writeReq ;;;
        ret tt
  end.

(** [Session.ReleaseHandle] *)
Definition ReleaseHandle (handle : Z) : M Session unit :=
  let data := le_bytes 4 handle in
  s <- get ;;
  let req := NewWriteRequest (targetAddr s) (senderAddr s) 0xF006 0 data in
  Client_Write req ;;;
  ret tt.

(** ** The notification manager *)

Definition TransModeServerCycle : Z := 3.
Definition TransModeServerOnChange : Z := 4.
Definition TransModeCyclic : Z := 10.

(** [time.Time] as [time.Unix] builds it: seconds since 1970-01-01T00:00:00Z
    and nanoseconds within the second.  [time.Unix] belongs to Go's
    library; it brings [nsec] into [0, 1e9) and carries into [sec]. *)
Record Time : Type := mkTime { unix_sec : Z; unix_nsec : Z }.


(** Days from 1970-01-01 to a date of the proleptic Gregorian calendar,
    and the instant of a UTC date and time of day: what a timestamp
    written as [2021-01-01T00:00:00Z] denotes. *)
Definition days_from_civil (y m d : Z) : Z :=
  let y := if m <=? 2 then y - 1 else y in
  let era := y / 400 in
  let yoe := y - era * 400 in
  let mp := if m >? 2 then m - 3 else m + 9 in
  let doy := (153 * mp + 2) / 5 + d - 1 in
  let doe := yoe * 365 + yoe / 4 - yoe / 100 + doy in
  era * 146097 + doe - 719468.

Definition utc (y m d hh mm ss : Z) : Time :=
  mkTime (days_from_civil y m d * 86400 + hh * 3600 + mm * 60 + ss) 0.


(** A user callback is a Go function value; it is known here by a
    number, and calling it is recorded. *)
Definition NotificationCallback : Type := nat.

Record notificationHandler : Type := mkNotificationHandler {
  nh_handle : Z;
  nh_varName : string;
  nh_varHandle : Z;
  nh_callback : option NotificationCallback;   (* [None] is a nil func *)
  nh_symbolInfo : SymbolInfo
}.

(** [NotificationManager].  [stopCh] names the channel made last;
    [closed] the channels closed so far; [launched] counts the
    [processNotifications] goroutines started. *)
Record NotificationManager : Type := mkNotificationManager {
  session : Session;
  handlers : gmap Z notificationHandler;
  stopCh : nat;
  closed : gset nat;
  running : bool;
  launched : nat
}.

Definition NewNotificationManager (s : Session) : NotificationManager :=
  mkNotificationManager s ∅ 0 ∅ false 0.

Definition with_session (nm : NotificationManager) (s : Session) : NotificationManager :=
  mkNotificationManager s (handlers nm) (stopCh nm) (closed nm) (running nm)
                        (launched nm).

Definition with_handlers (nm : NotificationManager)
    (h : gmap Z notificationHandler) : NotificationManager :=
  mkNotificationManager (session nm) h (stopCh nm) (closed nm) (running nm)
                        (launched nm).

(** Run a session operation on the manager's session. *)
Definition in_session {A} (m : M Session A) : M NotificationManager A :=
  fun nm => let '(r, s) := m (session nm) in (r, with_session nm s).

(** [Subscribe]; [cycleTime] is a [time.Duration], in nanoseconds. *)
Definition Subscribe (varName : string) (cycleTime : Z)
    (callback : option NotificationCallback) : M NotificationManager Z :=
  handle <- on_error (in_session (getOrCreateHandle varName))
                     (ErrWrap ("failed to get handle for " ++ varName)) ;;
  cached <- in_session (registry_Get varName) ;;
  match cached with
  | None => fail (ErrMsg ("symbol " ++ varName ++ " not found in registry"))
  | Some symbolInfo =>
      let attribs_Length := si_Size symbolInfo in
      let attribs_MaxDelay := to_u32 (Z.quot cycleTime 100) in
      let attribs_CycleTime := to_u32 (Z.quot cycleTime 100) in
      nm <- get ;;
      let req := NewAddDeviceNotificationRequest
                   (targetAddr (session nm)) (senderAddr (session nm))
                   (IndexGroup symbolInfo) (IndexOffset symbolInfo)
                   attribs_Length TransModeServerOnChange
                   attribs_MaxDelay attribs_CycleTime in
      resp <- on_error (in_session (Client_AddDeviceNotification req))
                       (ErrWrap "failed to add notification") ;;
      if negb (adr_Result resp =? NoError)
      then fail (ErrCode "add notification error" (adr_Result resp))
      else
        let notificationHandle := NotificationHandle resp in
        modify (fun nm =>
          with_handlers nm
            (<[notificationHandle :=
                 mkNotificationHandler notificationHandle varName handle
                                       callback symbolInfo]> (handlers nm))) ;;;
        ret notificationHandle
  end.

(** [Unsubscribe] *)
Definition Unsubscribe (notificationHandle : Z) : M NotificationManager unit :=
  nm <- get ;;
  match handlers nm !! notificationHandle with
  | None => fail (ErrCode "notification handle not found" notificationHandle)
  | Some handler =>
      modify (fun nm => with_handlers nm (delete notificationHandle (handlers nm))) ;;;
      let req := NewDeleteDeviceNotificationRequest
                   (targetAddr (session nm)) (senderAddr (session nm))
                   notificationHandle in
      resp <- on_error (in_session (Client_DeleteDeviceNotification req))
                       (ErrWrap "failed to delete notification") ;;
      if negb (ddr_Result resp =? NoError)
      then fail (ErrCode "delete notification error" (ddr_Result resp))
      else ret tt
  end.

Definition already_running : error := ErrMsg "notification manager already running".

(** [Start] *)
Definition Start : M NotificationManager unit :=
  fun nm =>
    if running nm then (Err already_running, nm)
    else
      (Ok tt,
       mkNotificationManager (session nm) (handlers nm)
                             (S (launched nm))           (* make(chan struct{}) *)
                             (closed nm) true
                             (S (launched nm))).         (* go processNotifications() *)

(** [Stop]; it returns nothing. *)
Definition Stop (nm : NotificationManager) : NotificationManager :=
  if negb (running nm) then nm
  else mkNotificationManager (session nm) (handlers nm) (stopCh nm)
                             ({[stopCh nm]} ∪ closed nm) false (launched nm).

Definition epochDiff : Z := 11644473600.




(** ** Wire images, used to state what the encoders write *)

(** A writer that only appends to a healthy buffer. *)
Definition appends (f : Buffer.t -> Buffer.t) (bs : list byte) : Prop :=
  forall p, f (Buffer.mk p None) = Buffer.mk (p ++ bs) None.

Definition addr_bytes (a : Addr) : list byte :=
  netid_bytes (NetId a) ++ le_bytes 2 (Port a).

Definition tcp_bytes (h : TCPHeader) : list byte :=
  le_bytes 2 (tcp_Reserved h) ++ le_bytes 4 (tcp_Length h).

Definition ams_bytes (h : AMSHeader) : list byte :=
  addr_bytes (Target h) ++ addr_bytes (Sender h) ++
  le_bytes 2 (CmdID h) ++ le_bytes 2 (StateFlags h) ++
  le_bytes 4 (Length h) ++ le_bytes 4 (ErrorCode h) ++ le_bytes 4 (InvokeID h).

Definition sample_bytes (s : NotificationSample) : list byte :=
  le_bytes 4 (Handle s) ++ le_bytes 4 (Size s) ++ Data s.

Definition samples_bytes (l : list NotificationSample) : list byte :=
  concat (map sample_bytes l).

Definition stamp_bytes (st : NotificationStamp) : list byte :=
  le_bytes 4 (to_u32 (Timestamp st)) ++
  le_bytes 4 (to_u32 (Z.shiftr (Timestamp st) 32)) ++
  le_bytes 4 (SampleCount st) ++ samples_bytes (Samples st).

Definition stamps_bytes (l : list NotificationStamp) : list byte :=
  concat (map stamp_bytes l).

(** The wire image of a well-formed packet. *)
Definition request_bytes (r : DeviceNotificationRequest) : list byte :=
  tcp_bytes (dn_tcpHeader r) ++ ams_bytes (dn_amsHeader r) ++
  le_bytes 4 (dn_Length r) ++ le_bytes 4 (StampCount r) ++
  stamps_bytes (Stamps r).


(** ** Example values *)

Definition example_addr : Addr := mkAddr (x05, x01, x02, x03, x01, x01) 851.

Definition example_session : Session :=
  mkSession example_addr example_addr ∅ [] [].

(** The notification scenario: a subscription to [MAIN.b] under the
    notification handle 7, and a frame with one stamp and one sample. *)
Definition example_handler : notificationHandler :=
  mkNotificationHandler 7 "MAIN.b" 1 (Some 0%nat)
    (mkSymbolInfo "MAIN.b" "BOOL" 1 0 0 1 "" []).

Definition example_notification : DeviceNotificationRequest :=
  mkDeviceNotificationRequest
    (mkTCPHeader 0 57)
    (mkAMSHeader example_addr example_addr CmdADSDeviceNotification
                 StateADSCommand 25 0 0)
    21 1
    [mkStamp 132580694400000000 1 [mkSample 7 1 [x01]]].

(** The wire image of a ReadState response. *)
Definition read_state_response_bytes (r : ReadStateResponse) : list byte :=
  tcp_bytes (rsp_tcpHeader r) ++ ams_bytes (rsp_amsHeader r) ++
  le_bytes 4 (rsp_Result r) ++ le_bytes 2 (rsp_ADSState r) ++
  le_bytes 2 (rsp_DeviceState r).

(** The answer [handleReadStateRequest] builds to a request with header
    [hdr], by a client whose cached states are [ads] and [dev]. *)
Definition read_state_answer (hdr : AMSHeader) (ads dev : Z) : ReadStateResponse :=
  mkReadStateResponse
    (mkTCPHeader 0 (amsHeaderLen + 8))
    (mkAMSHeader (Sender hdr) (Target hdr) CmdADSReadState
                 (Z.lor StateADSCommand StateResponse) 8 0 (InvokeID hdr))
    NoError ads dev.

(** The session after one more [send] of [req]. *)
Definition after_send (req : Request) (s : Session) : Session :=
  mkSession (targetAddr s) (senderAddr s) (registry s) (sent s ++ [req])
            (tl (replies s)).

(** What [getOrCreateHandle] leaves of an entry that is present: all but
    the handle. *)
Definition same_but_handle (a b : SymbolInfo) : Prop :=
  b = with_Handle a (si_Handle b).


(** ** Field paths, as the specification speaks of them *)

(** [resolves fields path chain]: walking [path] from [fields] meets the
    fields of [chain], one per name, each the first of that name at its
    level; the last of [chain] is the field the path resolves to. *)
Inductive resolves : list StructField -> list string -> list StructField -> Prop :=
  | resolves_last fields p f :
      List.find (fun f => String.eqb (sf_Name f) p) fields = Some f ->
      resolves fields [p] [f]
  | resolves_step fields p q rest f chain :
      List.find (fun f => String.eqb (sf_Name f) p) fields = Some f ->
      resolves (sf_Fields f) (q :: rest) chain ->
      resolves fields (p :: q :: rest) (f :: chain).

(** The sum of the relative offsets along a path. *)
Definition sum_offsets (chain : list StructField) : Z :=
  fold_right (fun f acc => sf_Offset f + acc) 0 chain.

(** [d] put over the bytes of [data] from position [o] on. *)
Definition splice (data : list byte) (o : nat) (d : list byte) : list byte :=
  take o data ++ d ++ drop (o + length d) data.

(** A ReadWrite response as [GetSymHandleByName] of "MAIN.x" receives it in
    the handle-acquisition scenario. *)
Definition example_header (cmd flags invokeID : Z) : AMSHeader :=
  mkAMSHeader example_addr example_addr cmd flags 0 0 invokeID.

Definition example_handle_response : ReadWriteResponse :=
  mkReadWriteResponse (mkTCPHeader 0 44) (example_header CmdADSReadWrite 5 1)
                      0 4 [x78; x56; x34; x12].

Definition example_handle_session : Session :=
  mkSession example_addr example_addr ∅ []
            [Ok (RespReadWrite example_handle_response)].

(** Frames that are cut after the 38 header bytes: a Read response, a
    DeviceNotification, and a ReadState request (whose body is empty). *)
Definition header_frame (cmd flags invokeID : Z) : list byte :=
  tcp_bytes (mkTCPHeader 0 32) ++ ams_bytes (example_header cmd flags invokeID).

Definition example_in (frame : list byte) : pump_in :=
  mkPumpIn (Ok frame) true false.

Definition example_client : Client :=
  mkClient 0 ∅ ∅ ADSStateRun ADSStateRun None [].

Definition example_client_with_callback : Client :=
  SetNotificationCallback (Some (fun _ => None)) example_client.

(** The nested-write scenario: the layout
    [{a: INT@0, b: {c: DINT@0, d: REAL@4}@2}] of a 10-byte struct, cached
    with its handle. *)
Definition example_layout : list StructField :=
  [ mkStructField "a" "INT" 0 2 [];
    mkStructField "b" "ST_B" 2 8
      [ mkStructField "c" "DINT" 0 4 [];
        mkStructField "d" "REAL" 4 4 [] ] ].

Definition example_root : SymbolInfo :=
  mkSymbolInfo "root" "ST_ROOT" 10 0 0 9 "" example_layout.

Definition example_read (data : list byte) : result Response :=
  Ok (RespRead (mkReadResponse (mkTCPHeader 0 (40 + len data))
                               (example_header CmdADSRead 5 1)
                               0 (len data) data)).

Definition example_write_ok : result Response :=
  Ok (RespWrite (mkWriteResponse (mkTCPHeader 0 36)
                                 (example_header CmdADSWrite 5 2) 0)).

Definition example_nested_session (data : list byte) : Session :=
  mkSession example_addr example_addr {["root" := example_root]} []
            [example_read data; example_write_ok].

(** 1.5 as a REAL, little-endian. *)
Definition example_real : list byte := [x00; x00; xc0; x3f].

(** A symbol-entry response of 32 zero bytes, then a handle, then the
    answer to AddDeviceNotification. *)
Definition example_miss_session : Session :=
  mkSession example_addr example_addr ∅ []
    [ Ok (RespReadWrite
            (mkReadWriteResponse (mkTCPHeader 0 72)
               (example_header CmdADSReadWrite 5 1) 0 32 (replicate 32 x00)));
      Ok (RespReadWrite example_handle_response);
      Ok (RespAddDeviceNotification
            (mkAddDeviceNotificationResponse (mkTCPHeader 0 40)
               (example_header CmdADSAddDeviceNotification 5 3) 0 7)) ].

Definition example_manager : NotificationManager :=
  with_handlers (NewNotificationManager example_session) {[7 := example_handler]}.

(** ** The primitive value codec (typed encoders and decoders) *)

(** Conversions of Go between integer types of one width. *)
Definition to_u8 (z : Z) : Z := z mod 2 ^ 8.
Definition to_u16 (z : Z) : Z := z mod 2 ^ 16.
Definition to_signed (bits : Z) (z : Z) : Z :=
  let m := z mod 2 ^ bits in
  if m <? 2 ^ (bits - 1) then m else m - 2 ^ bits.
Definition to_i8 : Z -> Z := to_signed 8.
Definition to_i16 : Z -> Z := to_signed 16.
Definition to_i32 : Z -> Z := to_signed 32.

Definition is_u8 (z : Z) : Prop := 0 <= z < 2 ^ 8.
Definition is_signed (bits : Z) (z : Z) : Prop :=
  - 2 ^ (bits - 1) <= z < 2 ^ (bits - 1).

(** [data[i]], for [i] within the slice. *)
Definition byte_at (data : list byte) (i : nat) : Z := Z_of_byte (nth i data x00).

(** [make([]byte, n)] followed by [copy(buf, src)]. *)
Definition make_copy (n : nat) (src : list byte) : list byte :=
  take n src ++ replicate (n - length src) x00.

(** A [float32] or [float64] is known here by its IEEE 754 bits, the
    value [math.Float32bits] and [math.Float64bits] return and
    [math.Float32frombits] and [math.Float64frombits] take back. *)
Definition float_bits : Type := Z.

Definition EncodeBool (value : bool) : list byte :=
  if value then [x01] else [x00].
Definition EncodeByte (value : Z) : list byte := [byte_of_Z value].
Definition EncodeSInt (value : Z) : list byte := [byte_of_Z (to_u8 value)].
Definition EncodeInt16 (value : Z) : list byte := le_bytes 2 (to_u16 value).
Definition EncodeUInt16 (value : Z) : list byte := le_bytes 2 value.
Definition EncodeInt32 (value : Z) : list byte := le_bytes 4 (to_u32 value).
Definition EncodeUInt32 (value : Z) : list byte := le_bytes 4 value.
Definition EncodeInt64 (value : Z) : list byte := le_bytes 8 (to_u64 value).
Definition EncodeUInt64 (value : Z) : list byte := le_bytes 8 value.
Definition EncodeFloat32 (value : float_bits) : list byte := le_bytes 4 value.
Definition EncodeFloat64 (value : float_bits) : list byte := le_bytes 8 value.

(** [EncodeString]; [maxLen] is not negative ([make] panics otherwise). *)
Definition EncodeString (value : string) (maxLen : Z) : list byte :=
  make_copy (Z.to_nat maxLen) (list_byte_of_string value).

Definition DecodeBool (data : list byte) : result bool :=
  if len data <? 1 then Err (ErrMsg "insufficient data for BOOL")
  else Ok (negb (byte_at data 0 =? 0)).

Definition DecodeByte (data : list byte) : result Z :=
  if len data <? 1 then Err (ErrMsg "insufficient data for BYTE")
  else Ok (byte_at data 0).

Definition DecodeSInt (data : list byte) : result Z :=
  if len data <? 1 then Err (ErrMsg "insufficient data for SINT")
  else Ok (to_i8 (byte_at data 0)).

Definition DecodeInt16 (data : list byte) : result Z :=
  if len data <? 2 then Err (ErrMsg "insufficient data for INT")
  else Ok (to_i16 (le_value (slice data 0 2))).

Definition DecodeUInt16 (data : list byte) : result Z :=
  if len data <? 2 then Err (ErrMsg "insufficient data for UINT")
  else Ok (le_value (slice data 0 2)).

Definition DecodeInt32 (data : list byte) : result Z :=
  if len data <? 4 then Err (ErrMsg "insufficient data for DINT")
  else Ok (to_i32 (le_value (slice data 0 4))).

Definition DecodeUInt32 (data : list byte) : result Z :=
  if len data <? 4 then Err (ErrMsg "insufficient data for UDINT")
  else Ok (le_value (slice data 0 4)).

Definition DecodeInt64 (data : list byte) : result Z :=
  if len data <? 8 then Err (ErrMsg "insufficient data for LINT")
  else Ok (to_i64 (le_value (slice data 0 8))).

Definition DecodeUInt64 (data : list byte) : result Z :=
  if len data <? 8 then Err (ErrMsg "insufficient data for ULINT")
  else Ok (le_value (slice data 0 8)).

Definition DecodeFloat32 (data : list byte) : result float_bits :=
  if len data <? 4 then Err (ErrMsg "insufficient data for REAL")
  else Ok (le_value (slice data 0 4)).

Definition DecodeFloat64 (data : list byte) : result float_bits :=
  if len data <? 8 then Err (ErrMsg "insufficient data for LREAL")
  else Ok (le_value (slice data 0 8)).

(** [DecodeString]: the bytes before the first NUL, all of them when there
    is none. *)
Definition DecodeString (data : list byte) : result string :=
  if len data =? 0 then Ok ""
  else Ok (string_of_list_byte (until_NUL data)).

(** [nullTerminatedString] of session.go. *)
Definition nullTerminatedString (data : list byte) : string :=
  string_of_list_byte (until_NUL data).

(** ** DecodeFieldValue *)

(** The [interface{}] that [DecodeFieldValue] returns, by dynamic type. *)
Inductive Value : Type :=
  | VNil
  | VBool (b : bool)
  | VInt8 (z : Z) | VUint8 (z : Z)
  | VInt16 (z : Z) | VUint16 (z : Z)
  | VInt32 (z : Z) | VUint32 (z : Z)
  | VInt64 (z : Z) | VUint64 (z : Z)
  | VFloat32 (bits : float_bits) | VFloat64 (bits : float_bits)
  | VString (s : string).

Definition hex_digit (n : Z) : ascii :=
  ascii_of_nat (Z.to_nat (if n <? 10 then 48 + n else 55 + n)).

(** [fmt.Sprintf("%X", data)]: two upper-case hex digits a byte. *)
Fixpoint hex_upper (data : list byte) : string :=
  match data with
  | [] => EmptyString
  | b :: tl =>
      String (hex_digit (Z_of_byte b / 16))
             (String (hex_digit (Z_of_byte b mod 16)) (hex_upper tl))
  end.

(** [len(dataType) >= 6 && dataType[:6] == "STRING"] *)
Definition is_STRING (dataType : string) : bool := String.prefix "STRING" dataType.

Definition DecodeFieldValue (data : list byte) (dataType : string) : Value :=
  if len data =? 0 then VNil
  else
    let fallback := VString (hex_upper data) in
    if String.eqb dataType "BOOL" then
      if len data >=? 1 then VBool (negb (byte_at data 0 =? 0)) else fallback
    else if String.eqb dataType "SINT" || String.eqb dataType "USINT"
            || String.eqb dataType "BYTE" then
      if len data >=? 1 then
        if String.eqb dataType "SINT" then VInt8 (to_i8 (byte_at data 0))
        else VUint8 (byte_at data 0)
      else fallback
    else if String.eqb dataType "INT" then
      if len data >=? 2 then VInt16 (to_i16 (le_value (slice data 0 2)))
      else fallback
    else if String.eqb dataType "UINT" || String.eqb dataType "WORD" then
      if len data >=? 2 then VUint16 (le_value (slice data 0 2)) else fallback
    else if String.eqb dataType "DINT" then
      if len data >=? 4 then VInt32 (to_i32 (le_value (slice data 0 4)))
      else fallback
    else if String.eqb dataType "UDINT" || String.eqb dataType "DWORD" then
      if len data >=? 4 then VUint32 (le_value (slice data 0 4)) else fallback
    else if String.eqb dataType "LINT" then
      if len data >=? 8 then VInt64 (to_i64 (le_value (slice data 0 8)))
      else fallback
    else if String.eqb dataType "ULINT" || String.eqb dataType "LWORD" then
      if len data >=? 8 then VUint64 (le_value (slice data 0 8)) else fallback
    else if String.eqb dataType "REAL" then
      if len data >=? 4 then VFloat32 (le_value (slice data 0 4)) else fallback
    else if String.eqb dataType "LREAL" then
      if len data >=? 8 then VFloat64 (le_value (slice data 0 8)) else fallback
    else if is_STRING dataType then VString (string_of_list_byte (until_NUL data))
    else fallback.

(** ** EncodeValue *)

Section EncodeValue.

(** [fmt.Sscanf(value, "%d", &val)] and [fmt.Sscanf(value, "%f", &val)]
    belong to Go's library.  [scan_int signed bits value] stands for the
    first, into an integer variable of that signedness and width;
    [scan_float bits value] for the second, giving the bits of the
    float scanned. *)
Variable scan_int : bool -> Z -> string -> result Z.
Variable scan_float : Z -> string -> result float_bits.

Definition EncodeValue (value dataType : string) (size : Z)
  : result (list byte) :=
  let scanned (r : result Z) (what : string) (enc : Z -> list byte) :=
    match r with
    | Ok val => Ok (enc val)
    | Err e => Err (ErrWrap ("invalid " ++ what ++ " value") e)
    end in
  if String.eqb dataType "BOOL" then
    let boolVal := String.eqb value "true" || String.eqb value "1" in
    Ok (if boolVal then [x01] else [x00])
  else if String.eqb dataType "SINT" then
    scanned (scan_int true 8 value) "SINT" (fun val => [byte_of_Z (to_u8 val)])
  else if String.eqb dataType "USINT" || String.eqb dataType "BYTE" then
    scanned (scan_int false 8 value) "USINT/BYTE" (fun val => [byte_of_Z val])
  else if String.eqb dataType "INT" then
    scanned (scan_int true 16 value) "INT" (fun val => le_bytes 2 (to_u16 val))
  else if String.eqb dataType "UINT" || String.eqb dataType "WORD" then
    scanned (scan_int false 16 value) "UINT/WORD" (le_bytes 2)
  else if String.eqb dataType "DINT" then
    scanned (scan_int true 32 value) "DINT" (fun val => le_bytes 4 (to_u32 val))
  else if String.eqb dataType "UDINT" || String.eqb dataType "DWORD" then
    scanned (scan_int false 32 value) "UDINT/DWORD" (le_bytes 4)
  else if String.eqb dataType "LINT" then
    scanned (scan_int true 64 value) "LINT" (fun val => le_bytes 8 (to_u64 val))
  else if String.eqb dataType "ULINT" || String.eqb dataType "LWORD" then
    scanned (scan_int false 64 value) "ULINT/LWORD" (le_bytes 8)
  else if String.eqb dataType "REAL" then
    scanned (scan_float 32 value) "REAL" (le_bytes 4)
  else if String.eqb dataType "LREAL" then
    scanned (scan_float 64 value) "LREAL" (le_bytes 8)
  else if is_STRING dataType then
    (* the store of the terminating NUL writes a zero over a zero *)
    Ok (make_copy (Z.to_nat size) (list_byte_of_string value))
  else Err (ErrMsg ("unsupported data type: " ++ dataType)).

End EncodeValue.

(** What the scanner is known to do: a value it returns fits the
    variable it was scanned into. *)
Definition scan_int_fits (scan_int : bool -> Z -> string -> result Z) : Prop :=
  forall signed bits value v,
    scan_int signed bits value = Ok v ->
    if signed then is_signed bits v else 0 <= v < 2 ^ bits.

Definition scan_float_fits (scan_float : Z -> string -> result float_bits) : Prop :=
  forall bits value v, scan_float bits value = Ok v -> 0 <= v < 2 ^ bits.

(** A byte string without a NUL byte. *)
Definition NUL_free (d : list byte) : Prop := ~ In x00 d.

(** What [DecodeFieldValue] makes of a typed decoder's result: the value,
    or the hex string when the data is too short. *)
Definition decoded_or_hex {A} (data : list byte) (wrap : A -> Value)
    (r : result A) : Value :=
  match r with
  | Ok v => wrap v
  | Err _ => VString (hex_upper data)
  end.

(** The type names [EncodeValue] and [DecodeFieldValue] know, besides the
    names that begin with STRING. *)
Definition basic_types : list string :=
  ["BOOL"; "SINT"; "USINT"; "BYTE"; "INT"; "UINT"; "WORD"; "DINT"; "UDINT";
   "DWORD"; "LINT"; "ULINT"; "LWORD"; "REAL"; "LREAL"].

(** A buffer whose sticky error is the short-stream error. *)
Definition failed (b : Buffer.t) : Prop := Buffer.err b = Some ErrUnexpectedEOF.

(** The first [n] bytes of a stream, as a fresh read buffer. *)
Definition cut (n : nat) (stream : list byte) : Buffer.t :=
  Buffer.mk (take n stream) None.

(** [sticky R]: the reader [R] leaves a failed buffer failed. *)
Definition sticky {A} (R : Buffer.t -> A * Buffer.t) : Prop :=
  forall b, failed b -> failed (snd (R b)).

(** [reads R image v]: on a stream that begins with [image], the reader [R]
    yields [v] and consumes [image] when the stream is cut at or after its
    end, and fails when the stream is cut inside it. *)
Definition reads {A} (R : Buffer.t -> A * Buffer.t) (image : list byte) (v : A)
  : Prop :=
  sticky R /\
  forall rest n,
    ((length image <= n)%nat ->
     R (cut n (image ++ rest)) = (v, cut (n - length image) rest)) /\
    ((n < length image)%nat -> failed (snd (R (cut n (image ++ rest))))).

(** The same for a decoder with early returns. *)
Definition decodes {A} (D : Buffer.t -> result (A * Buffer.t))
    (image : list byte) (v : A) : Prop :=
  forall rest n,
    ((length image <= n)%nat ->
     D (cut n (image ++ rest)) = Ok (v, cut (n - length image) rest)) /\
    ((n < length image)%nat ->
     D (cut n (image ++ rest)) = Err ErrUnexpectedEOF).

(** One reader after another. *)
Definition then_read {A B} (R1 : Buffer.t -> A * Buffer.t)
    (R2 : A -> Buffer.t -> B * Buffer.t) : Buffer.t -> B * Buffer.t :=
  fun b => let '(x, b') := R1 b in R2 x b'.

(** A scanner for the examples: it knows the text "42". *)
Definition example_scan_int (signed : bool) (bits : Z) (s : string) : result Z :=
  if String.eqb s "42" && (8 <=? bits) then Ok 42 else Err (ErrMsg "expected integer").

Definition example_scan_float (bits : Z) (s : string) : result float_bits :=
  Err (ErrMsg "expected float").

(** ** The transport: what holds of the handler map *)

(** Every registered channel exists, is empty and open, and is
    registered under one invoke-id only. *)
Definition handlers_ok (c : Client) : Prop :=
  (forall id ch, handler c !! id = Some ch ->
                 chans c !! ch = Some (mkChan None false)) /\
  (forall id1 id2 ch, handler c !! id1 = Some ch -> handler c !! id2 = Some ch ->
                      id1 = id2).

(** The laws of a packet type that [send] relies on: the header stored
    is the header read, and encoding keeps the invoke-id. *)
Definition packet_laws (P : Type) `{Packet P} : Prop :=
  (forall (p : P) h, Header (withHeader p h) = h) /\
  (forall (p : P) b, InvokeID (Header (fst (Encode p b))) = InvokeID (Header p)) /\
  (forall (p : P), Buffer.Err (snd (Encode p Buffer.empty)) = None).

(** *** The responses of the add/delete file: [Encode] *)

Definition AddDeviceNotificationResponse_Encode
    (r : AddDeviceNotificationResponse) (b : Buffer.t)
  : AddDeviceNotificationResponse * Buffer.t :=
  let tcp := set_tcp_Length (adr_tcpHeader r) (to_u32 (amsHeaderLen + 8)) in
  let ams := or_StateFlags
               (set_Length_CmdID (adr_amsHeader r) 8 CmdADSAddDeviceNotification)
               StateResponse in
  let r := mkAddDeviceNotificationResponse tcp ams (adr_Result r)
                                           (NotificationHandle r) in
  let b := WriteTCPHeader tcp b in
  let b := WriteAMSHeader ams b in
  let b := Buffer.WriteUint32 (adr_Result r) b in
  let b := Buffer.WriteUint32 (NotificationHandle r) b in
  (r, b).

Definition DeleteDeviceNotificationResponse_Encode
    (r : DeleteDeviceNotificationResponse) (b : Buffer.t)
  : DeleteDeviceNotificationResponse * Buffer.t :=
  let tcp := set_tcp_Length (ddr_tcpHeader r) (to_u32 (amsHeaderLen + 4)) in
  let ams := or_StateFlags
               (set_Length_CmdID (ddr_amsHeader r) 4 CmdADSDeleteDeviceNotification)
               StateResponse in
  let r := mkDeleteDeviceNotificationResponse tcp ams (ddr_Result r) in
  let b := WriteTCPHeader tcp b in
  let b := WriteAMSHeader ams b in
  let b := Buffer.WriteUint32 (ddr_Result r) b in
  (r, b).

(** The fields of the four packets fit their Go types. *)
Definition wf_AddRequest (r : AddDeviceNotificationRequest) : Prop :=
  wf_TCPHeader (adq_tcpHeader r) /\ wf_AMSHeader (adq_amsHeader r) /\
  is_u32 (adq_IndexGroup r) /\ is_u32 (adq_IndexOff r) /\ is_u32 (adq_Length r) /\
  is_u32 (adq_TransMode r) /\ is_u32 (adq_MaxDelay r) /\ is_u32 (adq_CycleTime r) /\
  length (adq_Reserved r) = 16%nat.

Definition wf_AddResponse (r : AddDeviceNotificationResponse) : Prop :=
  wf_TCPHeader (adr_tcpHeader r) /\ wf_AMSHeader (adr_amsHeader r) /\
  is_u32 (adr_Result r) /\ is_u32 (NotificationHandle r).

Definition wf_DeleteRequest (r : DeleteDeviceNotificationRequest) : Prop :=
  wf_TCPHeader (ddq_tcpHeader r) /\ wf_AMSHeader (ddq_amsHeader r) /\
  is_u32 (ddq_NotificationHandle r).

Definition wf_DeleteResponse (r : DeleteDeviceNotificationResponse) : Prop :=
  wf_TCPHeader (ddr_tcpHeader r) /\ wf_AMSHeader (ddr_amsHeader r) /\
  is_u32 (ddr_Result r).

(** The framing rule of the wire: the TCP header's length is the AMS
    header's length plus the 32 bytes of the AMS header, and the frame is
    6 bytes longer still. *)
Definition framed (tcp : TCPHeader) (ams : AMSHeader) (frame : list byte) : Prop :=
  tcp_Length tcp = Length ams + amsHeaderLen /\
  len frame = tcp_Length tcp + 6.

(** * Properties *)

(** ** Little-endian integers *)

Lemma Z_of_byte_range b : 0 <= Z_of_byte b < 256.
Proof.
  unfold Z_of_byte. pose proof (Byte.to_N_bounded b). lia.
Qed.

Lemma Z_of_byte_of_Z z : Z_of_byte (byte_of_Z z) = z mod 256.
Proof.
  unfold byte_of_Z, Z_of_byte.
  assert (Hr : 0 <= z mod 256 < 256) by (apply Z.mod_pos_bound; lia).
  destruct (Byte.of_N (Z.to_N (z mod 256))) as [b|] eqn:E.
  - apply Byte.to_of_N in E. rewrite E. lia.
  - apply Byte.of_N_None_iff in E. lia.
Qed.

Lemma byte_of_Z_of_byte b : byte_of_Z (Z_of_byte b) = b.
Proof.
  unfold byte_of_Z, Z_of_byte.
  pose proof (Byte.to_N_bounded b) as Hb.
  rewrite Z.mod_small by lia.
  rewrite N2Z.id, Byte.of_to_N. reflexivity.
Qed.

Lemma length_le_bytes n z : length (le_bytes n z) = n.
Proof. revert z. induction n; intros; simpl; [reflexivity | now rewrite IHn]. Qed.

Lemma lor_shiftl_add a x n :
  0 <= n -> 0 <= a < 2 ^ n -> Z.lor a (Z.shiftl x n) = a + x * 2 ^ n.
Proof.
  intros Hn Ha.
  rewrite <- Z.shiftl_mul_pow2 by lia.
  symmetry. apply Z.add_nocarry_lor.
  apply Z.bits_inj'. intros k Hk.
  rewrite Z.land_spec, Z.bits_0.
  destruct (Z.lt_ge_cases k n) as [Hlt|Hge].
  - rewrite (Z.shiftl_spec_low x n k Hlt). apply andb_false_r.
  - rewrite <- (Z.mod_small a (2 ^ n)) by lia.
    rewrite Z.mod_pow2_bits_high by lia. reflexivity.
Qed.

Lemma le_value_range bs : 0 <= le_value bs < 2 ^ (8 * Z.of_nat (length bs)).
Proof.
  induction bs as [|b tl IH].
  - simpl. lia.
  - cbn [le_value length].
    pose proof (Z_of_byte_range b) as Hb.
    replace (8 * Z.of_nat (S (length tl))) with (8 + 8 * Z.of_nat (length tl)) by lia.
    rewrite Z.pow_add_r by lia.
    rewrite lor_shiftl_add by lia. lia.
Qed.

Lemma le_value_le_bytes n z :
  0 <= z < 2 ^ (8 * Z.of_nat n) -> le_value (le_bytes n z) = z.
Proof.
  revert z. induction n as [|n IH]; intros z Hz.
  - simpl in *. lia.
  - cbn [le_bytes le_value].
    replace (8 * Z.of_nat (S n)) with (8 + 8 * Z.of_nat n) in Hz by lia.
    rewrite Z.pow_add_r in Hz by lia.
    rewrite Z.shiftr_div_pow2 by lia.
    rewrite IH.
    + rewrite lor_shiftl_add by (rewrite ?Z_of_byte_of_Z; try apply Z.mod_pos_bound; lia).
      rewrite Z_of_byte_of_Z. change (2 ^ 8) with 256.
      pose proof (Z.div_mod z 256). lia.
    + change (2 ^ 8) with 256 in *. split.
      * apply Z.div_pos; lia.
      * apply Z.div_lt_upper_bound; lia.
Qed.

Lemma le_bytes_le_value bs : le_bytes (length bs) (le_value bs) = bs.
Proof.
  induction bs as [|b tl IH]; [reflexivity|].
  cbn [length le_bytes le_value].
  pose proof (Z_of_byte_range b) as Hb.
  pose proof (le_value_range tl) as Ht.
  rewrite lor_shiftl_add by lia.
  rewrite Z.shiftr_div_pow2 by lia. change (2 ^ 8) with 256.
  f_equal.
  - rewrite <- (byte_of_Z_of_byte b) at 2.
    unfold byte_of_Z. rewrite Z.mod_add by lia. reflexivity.
  - rewrite Z.div_add by lia. rewrite Z.div_small by lia. simpl. exact IH.
Qed.

(** ** The Buffer: writes append, reads consume *)

Lemma appends_Write d : appends (Buffer.Write d) d.
Proof. intros p. reflexivity. Qed.

Lemma appends_id : appends (fun b => b) [].
Proof. intros p. now rewrite app_nil_r. Qed.

Lemma appends_comp f g bf bg :
  appends f bf -> appends g bg -> appends (fun b => g (f b)) (bf ++ bg).
Proof. intros Hf Hg p. now rewrite Hf, Hg, app_assoc. Qed.

Lemma appends_WriteN d n :
  n = Z.of_nat (length d) -> appends (Buffer.WriteN d n) d.
Proof.
  intros -> p. unfold Buffer.WriteN. rewrite Nat2Z.id.
  rewrite firstn_all, Nat.sub_diag. simpl. now rewrite app_nil_r.
Qed.

Lemma ReadN_app d rest :
  Buffer.ReadN (length d) (Buffer.mk (d ++ rest) None) = (d, Buffer.mk rest None).
Proof.
  unfold Buffer.ReadN. simpl.
  destruct (Nat.ltb_spec (length (d ++ rest)) (length d)) as [H|H].
  - rewrite length_app in H. lia.
  - now rewrite take_app_length, drop_app_length.
Qed.

Lemma ReadN_short n l :
  (length l < n)%nat ->
  Buffer.ReadN n (Buffer.mk l None) = ([], Buffer.mk l (Some ErrUnexpectedEOF)).
Proof.
  intros H. unfold Buffer.ReadN. simpl.
  destruct (Nat.ltb_spec (length l) n); [reflexivity | lia].
Qed.

Lemma ReadUint_app w z rest :
  0 <= z < 2 ^ (8 * Z.of_nat w) ->
  Buffer.ReadUint w (Buffer.mk (le_bytes w z ++ rest) None) = (z, Buffer.mk rest None).
Proof.
  intros Hz. unfold Buffer.ReadUint.
  rewrite <- (length_le_bytes w z) at 1.
  rewrite ReadN_app. simpl. now rewrite le_value_le_bytes.
Qed.

Lemma ReadUint32_app z rest :
  is_u32 z ->
  Buffer.ReadUint32 (Buffer.mk (le_bytes 4 z ++ rest) None) = (z, Buffer.mk rest None).
Proof. intros Hz. apply ReadUint_app. exact Hz. Qed.

Lemma ReadUint16_app z rest :
  is_u16 z ->
  Buffer.ReadUint16 (Buffer.mk (le_bytes 2 z ++ rest) None) = (z, Buffer.mk rest None).
Proof. intros Hz. apply ReadUint_app. exact Hz. Qed.

(** ** Headers round-trip *)

Lemma appends_WriteAddr a : appends (WriteAddr a) (addr_bytes a).
Proof.
  intros p. unfold WriteAddr, addr_bytes, Buffer.WriteUint16.
  cbn [Buffer.Write Buffer.err Buffer.buf]. now rewrite <- !app_assoc.
Qed.

Lemma appends_WriteTCPHeader h : appends (WriteTCPHeader h) (tcp_bytes h).
Proof.
  intros p. unfold WriteTCPHeader, tcp_bytes, Buffer.WriteUint32, Buffer.WriteUint16.
  cbn [Buffer.Write Buffer.err Buffer.buf]. now rewrite <- !app_assoc.
Qed.

Lemma appends_WriteAMSHeader h : appends (WriteAMSHeader h) (ams_bytes h).
Proof.
  intros p. unfold WriteAMSHeader, ams_bytes.
  rewrite !(appends_WriteAddr _ _).
  unfold Buffer.WriteUint32, Buffer.WriteUint16.
  cbn [Buffer.Write Buffer.err Buffer.buf]. now rewrite <- !app_assoc.
Qed.

Lemma length_tcp_bytes h : length (tcp_bytes h) = 6%nat.
Proof. reflexivity. Qed.

Lemma length_ams_bytes h : length (ams_bytes h) = 32%nat.
Proof.
  unfold ams_bytes, addr_bytes.
  destruct (NetId (Target h)) as [[[[[? ?] ?] ?] ?] ?].
  destruct (NetId (Sender h)) as [[[[[? ?] ?] ?] ?] ?].
  reflexivity.
Qed.

Lemma ReadAddr_app a rest :
  wf_Addr a ->
  ReadAddr (Buffer.mk (addr_bytes a ++ rest) None) = (a, Buffer.mk rest None).
Proof.
  intros Hp. unfold ReadAddr, addr_bytes. destruct a as [n p].
  destruct n as [[[[[a b] c] d] e] f]. cbn [NetId Port netid_bytes].
  rewrite <- app_assoc.
  change 6%nat with (length [a; b; c; d; e; f]).
  rewrite ReadN_app, ReadUint16_app by exact Hp. reflexivity.
Qed.

Lemma ReadTCPHeader_app h rest :
  wf_TCPHeader h ->
  ReadTCPHeader (Buffer.mk (tcp_bytes h ++ rest) None) = (h, Buffer.mk rest None).
Proof.
  intros [Hr Hl]. unfold ReadTCPHeader, tcp_bytes. rewrite <- app_assoc.
  rewrite ReadUint16_app by exact Hr. rewrite ReadUint32_app by exact Hl.
  now destruct h.
Qed.

Lemma ReadAMSHeader_app h rest :
  wf_AMSHeader h ->
  ReadAMSHeader (Buffer.mk (ams_bytes h ++ rest) None) = (h, Buffer.mk rest None).
Proof.
  intros (Ht & Hs & Hc & Hf & Hl & He & Hi). unfold ReadAMSHeader, ams_bytes.
  rewrite <- !app_assoc.
  rewrite ReadAddr_app by exact Ht. rewrite ReadAddr_app by exact Hs.
  rewrite ReadUint16_app by exact Hc. rewrite ReadUint16_app by exact Hf.
  rewrite ReadUint32_app by exact Hl. rewrite ReadUint32_app by exact He.
  rewrite ReadUint32_app by exact Hi.
  now destruct h.
Qed.

(** ** DeviceNotification: decoding an encoding *)

Section NotificationRoundTrip.
Import DeviceNotification.

Lemma timestamp_halves ts :
  is_u64 ts ->
  is_u32 (to_u32 ts) /\ is_u32 (to_u32 (Z.shiftr ts 32)) /\
  Z.lor (to_u64 (to_u32 ts))
        (to_u64 (Z.shiftl (to_u64 (to_u32 (Z.shiftr ts 32))) 32)) = ts.
Proof.
  unfold is_u64, is_u32, to_u32, to_u64, u64_max, u32_max. intros Hts.
  rewrite Z.shiftr_div_pow2 by lia.
  assert (Hhi : 0 <= ts / 2 ^ 32 < 2 ^ 32).
  { split; [apply Z.div_pos; lia | apply Z.div_lt_upper_bound; lia]. }
  assert (Hlo : 0 <= ts mod 2 ^ 32 < 2 ^ 32) by (apply Z.mod_pos_bound; lia).
  rewrite (Z.mod_small (ts / 2 ^ 32) (2 ^ 32)) by lia.
  repeat split; try lia.
  rewrite (Z.mod_small (ts / 2 ^ 32) (2 ^ 64)) by lia.
  rewrite (Z.mod_small (ts mod 2 ^ 32) (2 ^ 64)) by lia.
  rewrite Z.shiftl_mul_pow2 by lia.
  rewrite (Z.mod_small (ts / 2 ^ 32 * 2 ^ 32) (2 ^ 64)) by lia.
  rewrite <- Z.shiftl_mul_pow2 by lia.
  rewrite lor_shiftl_add by lia.
  pose proof (Z.div_mod ts (2 ^ 32)). lia.
Qed.

Lemma appends_encode_samples l :
  Forall wf_sample l -> appends (encode_samples l) (samples_bytes l).
Proof.
  induction 1 as [|s tl (Hh & Hs & Hlen) _ IH]; intros p.
  - simpl. now rewrite app_nil_r.
  - cbn [encode_samples samples_bytes map concat].
    unfold Buffer.WriteUint32. cbn [Buffer.Write Buffer.err Buffer.buf].
    rewrite (appends_WriteN _ _ Hlen), IH.
    fold (samples_bytes tl). unfold sample_bytes. now rewrite <- !app_assoc.
Qed.

Lemma appends_encode_stamps l :
  Forall wf_stamp l -> appends (encode_stamps l) (stamps_bytes l).
Proof.
  induction 1 as [|st tl (Ht & Hc & Hlen & Hsm) _ IH]; intros p.
  - simpl. now rewrite app_nil_r.
  - cbn [encode_stamps stamps_bytes map concat].
    unfold Buffer.WriteUint32. cbn [Buffer.Write Buffer.err Buffer.buf].
    rewrite (appends_encode_samples _ Hsm), IH.
    fold (stamps_bytes tl). unfold stamp_bytes. now rewrite <- !app_assoc.
Qed.

Lemma decode_samples_app l rest :
  Forall wf_sample l ->
  decode_samples (length l) (Buffer.mk (samples_bytes l ++ rest) None)
  = Ok (l, Buffer.mk rest None).
Proof.
  induction 1 as [|s tl (Hh & Hs & Hlen) _ IH].
  - reflexivity.
  - cbn [length decode_samples samples_bytes map concat].
    fold (samples_bytes tl). unfold sample_bytes. rewrite <- !app_assoc.
    rewrite ReadUint32_app by exact Hh. cbn [check Buffer.Err Buffer.err].
    rewrite ReadUint32_app by exact Hs. cbn [check Buffer.Err Buffer.err].
    rewrite Hlen, Nat2Z.id, ReadN_app. cbn [check Buffer.Err Buffer.err].
    rewrite IH.
    destruct s as [h sz d]. cbn in Hlen |- *. now rewrite Hlen.
Qed.

Lemma decode_stamps_app l rest :
  Forall wf_stamp l ->
  decode_stamps (length l) (Buffer.mk (stamps_bytes l ++ rest) None)
  = Ok (l, Buffer.mk rest None).
Proof.
  induction 1 as [|st tl (Ht & Hc & Hlen & Hsm) _ IH].
  - reflexivity.
  - cbn [length decode_stamps stamps_bytes map concat].
    fold (stamps_bytes tl). unfold stamp_bytes. rewrite <- !app_assoc.
    destruct (timestamp_halves _ Ht) as (Hlo & Hhi & Hts).
    rewrite ReadUint32_app by exact Hlo.
    rewrite ReadUint32_app by exact Hhi. cbn [check Buffer.Err Buffer.err].
    rewrite ReadUint32_app by exact Hc. cbn [check Buffer.Err Buffer.err].
    rewrite Hlen, Nat2Z.id, (decode_samples_app _ _ Hsm).
    rewrite IH, Hts.
    destruct st as [ts c sm]. cbn in Hlen |- *. now rewrite Hlen.
Qed.

Lemma appends_Encode r : wf r -> appends (Encode r) (request_bytes r).
Proof.
  intros (Htcp & Hams & Hl & Hc & Hlen & Hst) p. unfold Encode.
  rewrite (appends_WriteTCPHeader _ _), (appends_WriteAMSHeader _ _).
  unfold Buffer.WriteUint32. cbn [Buffer.Write Buffer.err Buffer.buf].
  rewrite (appends_encode_stamps _ Hst).
  unfold request_bytes. now rewrite <- !app_assoc.
Qed.

Lemma Decode_request_bytes r rest :
  wf r -> Decode (Buffer.mk (request_bytes r ++ rest) None) = Ok r.
Proof.
  intros (Htcp & Hams & Hl & Hc & Hlen & Hst). unfold Decode, request_bytes.
  rewrite <- !app_assoc.
  rewrite ReadTCPHeader_app by exact Htcp.
  rewrite ReadAMSHeader_app by exact Hams. cbn [check Buffer.Err Buffer.err].
  rewrite ReadUint32_app by exact Hl. cbn [check Buffer.Err Buffer.err].
  rewrite ReadUint32_app by exact Hc. cbn [check Buffer.Err Buffer.err].
  destruct r as [tcp ams len cnt stamps]. cbn in *.
  destruct (Z.eqb_spec cnt 0) as [H0|H0].
  - destruct stamps; [reflexivity | cbn in Hlen; lia].
  - rewrite Hlen, Nat2Z.id, (decode_stamps_app _ _ Hst). reflexivity.
Qed.

End NotificationRoundTrip.

(** C5. For every well-formed DeviceNotification packet [x] (StampCount
    equal to the number of stamps, each SampleCount equal to the number
    of samples, each Size equal to the length of its Data, every field
    within its integer type), encoding [x] into a fresh buffer raises no
    error, and decoding the bytes produced yields [x], every field
    preserved. *)
Theorem notification_decode_encode (x : DeviceNotificationRequest) :
  DeviceNotification.wf x ->
  let b := DeviceNotification.Encode x Buffer.empty in
  Buffer.Err b = None /\
  DeviceNotification.Decode (Buffer.NewBuffer (Buffer.Bytes b)) = Ok x.
Proof.
  intros Hwf b. subst b. unfold Buffer.empty.
  rewrite (appends_Encode x Hwf). cbn [Buffer.Err Buffer.err Buffer.Bytes Buffer.buf app].
  split; [reflexivity|]. unfold Buffer.NewBuffer.
  rewrite <- (app_nil_r (request_bytes x)).
  now apply Decode_request_bytes.
Qed.

(** ** The state and error monad *)

Lemma bind_Ok {S A B} (m : M S A) (k : A -> M S B) s v s' :
  m s = (Ok v, s') -> bind m k s = k v s'.
Proof. intros H. unfold bind. now rewrite H. Qed.

Lemma bind_Err {S A B} (m : M S A) (k : A -> M S B) s e s' :
  m s = (Err e, s') -> bind m k s = (Err e, s').
Proof. intros H. unfold bind. now rewrite H. Qed.

Lemma on_error_Ok {S A} (m : M S A) w s v s' :
  m s = (Ok v, s') -> on_error m w s = (Ok v, s').
Proof. intros H. unfold on_error. now rewrite H. Qed.

Lemma on_error_Err {S A} (m : M S A) w s e s' :
  m s = (Err e, s') -> on_error m w s = (Err (w e), s').
Proof. intros H. unfold on_error. now rewrite H. Qed.

(** What a [send] does to the session, whatever comes back. *)
Lemma client_send_spec req s :
  exists r, client_send req s =
    (r, mkSession (targetAddr s) (senderAddr s) (registry s)
                  (sent s ++ [req]) (tl (replies s))).
Proof.
  unfold client_send. destruct (replies s) as [|r rest]; eauto.
Qed.

Lemma client_send_reply req s r rest :
  replies s = r :: rest ->
  client_send req s =
    (r, mkSession (targetAddr s) (senderAddr s) (registry s) (sent s ++ [req]) rest).
Proof. intros H. unfold client_send. now rewrite H. Qed.

(** ** GetSymHandleByName *)

Lemma le_value_4 b0 b1 b2 b3 :
  le_value [b0; b1; b2; b3]
  = Z_of_byte b0 + 2 ^ 8 * Z_of_byte b1 + 2 ^ 16 * Z_of_byte b2
    + 2 ^ 24 * Z_of_byte b3.
Proof.
  pose proof (Z_of_byte_range b0). pose proof (Z_of_byte_range b1).
  pose proof (Z_of_byte_range b2). pose proof (Z_of_byte_range b3).
  cbn [le_value]. rewrite Z.shiftl_0_l, Z.lor_0_r.
  rewrite !lor_shiftl_add by lia. lia.
Qed.

(** C7. [GetSymHandleByName]: when the round trip delivers a ReadWrite
    response with error code zero and at least four data bytes, the
    handle returned is the little-endian uint32 of the first four bytes
    (data 78 56 34 12 gives 0x12345678); when it delivers a response with
    fewer than four data bytes, the call returns an error. *)
Theorem GetSymHandleByName_little_endian
    (target sender : Addr) (name : string) (s : Session)
    (res : ReadWriteResponse) (rest : list (result Response)) :
  replies s = Ok (RespReadWrite res) :: rest ->
  (forall b0 b1 b2 b3 more,
      ErrorCode (rw_amsHeader res) = NoError ->
      rw_Data res = b0 :: b1 :: b2 :: b3 :: more ->
      fst (GetSymHandleByName target sender name s)
      = Ok (Z_of_byte b0 + 2 ^ 8 * Z_of_byte b1 + 2 ^ 16 * Z_of_byte b2
            + 2 ^ 24 * Z_of_byte b3)) /\
  (ErrorCode (rw_amsHeader res) = NoError ->
   rw_Data res = [x78; x56; x34; x12] ->
   fst (GetSymHandleByName target sender name s) = Ok 0x12345678) /\
  (len (rw_Data res) < 4 ->
   exists e, fst (GetSymHandleByName target sender name s) = Err e).
Proof.
  intros Hrep.
  assert (Hrt : forall w,
    on_error (Client_ReadWrite
      (NewReadWriteRequest target sender IdxGetSymHandleByName 0 4
                           (list_byte_of_string name))) w s
    = (Ok res, mkSession (targetAddr s) (senderAddr s) (registry s)
         (sent s ++ [ReqReadWrite (NewReadWriteRequest target sender
            IdxGetSymHandleByName 0 4 (list_byte_of_string name))]) rest)).
  { intros w. apply on_error_Ok. unfold Client_ReadWrite.
    erewrite bind_Ok by (apply client_send_reply; exact Hrep). reflexivity. }
  assert (Hgen : forall b0 b1 b2 b3 more,
      ErrorCode (rw_amsHeader res) = NoError ->
      rw_Data res = b0 :: b1 :: b2 :: b3 :: more ->
      fst (GetSymHandleByName target sender name s)
      = Ok (Z_of_byte b0 + 2 ^ 8 * Z_of_byte b1 + 2 ^ 16 * Z_of_byte b2
            + 2 ^ 24 * Z_of_byte b3)).
  { intros b0 b1 b2 b3 more Hcode Hdata. unfold GetSymHandleByName.
    erewrite bind_Ok by apply Hrt.
    unfold handle_of_response. rewrite Hcode, Hdata. cbn [negb Z.eqb NoError].
    unfold len. cbn [length].
    destruct (Z.ltb_spec (Z.of_nat (S (S (S (S (length more)))))) 4); [lia|].
    change (slice (b0 :: b1 :: b2 :: b3 :: more) 0 4) with [b0; b1; b2; b3].
    now rewrite le_value_4. }
  split; [exact Hgen|]. split.
  - intros Hcode Hdata. rewrite (Hgen _ _ _ _ _ Hcode Hdata). reflexivity.
  - intros Hshort. unfold GetSymHandleByName.
    erewrite bind_Ok by apply Hrt.
    unfold handle_of_response.
    destruct (negb (ErrorCode (rw_amsHeader res) =? NoError)); [eauto|].
    destruct (Z.ltb_spec (len (rw_Data res)) 4); [eauto | lia].
Qed.

(** ** The notification dispatcher: FILETIME to wall-clock time *)

(** The calendar arithmetic, checked on dates whose Unix time is known. *)
Lemma utc_known_dates :
  utc 1970 1 1 0 0 0 = mkTime 0 0 /\
  utc 2000 3 1 0 0 0 = mkTime 951868800 0 /\
  utc 2021 1 1 0 0 0 = mkTime 1609459200 0 /\
  utc 2021 2 17 21 4 0 = mkTime 1613595840 0.
Proof. repeat split; reflexivity. Qed.

(** The epoch difference is the time from 1601-01-01 to 1970-01-01. *)
Lemma epochDiff_is_1601 : utc 1601 1 1 0 0 0 = mkTime (- epochDiff) 0.
Proof. reflexivity. Qed.






(** ** Start and Stop *)

(** C8, as the code has it.  [Start] on a manager that is running
    returns the error "notification manager already running" and leaves
    the manager as it is, so the state after a second [Start] is the state
    after one; [Stop] on a manager that is not running leaves it
    unchanged, and [Stop] twice is [Stop] once. *)
Theorem Start_Stop_repeated (nm : NotificationManager) :
  (running nm = true -> Start nm = (Err already_running, nm)) /\
  (running nm = false ->
   Start (snd (Start nm)) = (Err already_running, snd (Start nm)) /\
   running (snd (Start nm)) = true) /\
  (running nm = false -> Stop nm = nm) /\
  Stop (Stop nm) = Stop nm.
Proof.
  repeat split.
  - intros H. unfold Start. now rewrite H.
  - unfold Start. rewrite H. reflexivity.
  - unfold Start. rewrite H. reflexivity.
  - intros H. unfold Stop. now rewrite H.
  - unfold Stop. destruct (running nm) eqn:E; cbn; [reflexivity | now rewrite E].
Qed.

(** C8, the claim as written, refuted: a [Start] on a running manager
    does not succeed. *)
Lemma Start_twice_fails :
  let nm := snd (Start (NewNotificationManager example_session)) in
  running nm = true /\ is_ok (fst (Start nm)) = false.
Proof. split; reflexivity. Qed.

(** ** Unsubscribe *)

Lemma in_session_handlers {A} (m : M Session A) nm :
  handlers (snd (in_session m nm)) = handlers nm.
Proof. unfold in_session. destruct (m (session nm)). reflexivity. Qed.

(** C10. [Unsubscribe h] on a registered handle removes the entry
    before the DeleteDeviceNotification request is sent: the request goes
    out from the manager that no longer has the entry, it is the one
    request sent, and whatever the round trip yields (a transport error,
    a non-zero result, success) the entry is absent afterwards and the
    other entries are as before.  On a handle that is not registered,
    [Unsubscribe] returns an error and changes nothing. *)
Theorem Unsubscribe_removes_first (h : Z) (nm : NotificationManager) :
  (forall handler, handlers nm !! h = Some handler ->
     let nm1 := with_handlers nm (delete h (handlers nm)) in
     let req := NewDeleteDeviceNotificationRequest
                  (targetAddr (session nm)) (senderAddr (session nm)) h in
     let '(r, nm2) := in_session (Client_DeleteDeviceNotification req) nm1 in
     snd (Unsubscribe h nm) = nm2 /\
     handlers nm2 = delete h (handlers nm) /\
     handlers nm2 !! h = None /\
     sent (session nm2) = sent (session nm) ++ [ReqDeleteDeviceNotification req] /\
     (is_ok (fst (Unsubscribe h nm)) = true <->
      exists resp, r = Ok resp /\ ddr_Result resp = NoError)) /\
  (handlers nm !! h = None ->
   exists e, Unsubscribe h nm = (Err e, nm)).
Proof.
  split.
  - intros handler Hh nm1 req.
    destruct (in_session (Client_DeleteDeviceNotification req) nm1) as [r nm2] eqn:E.
    assert (Hhs : handlers nm2 = delete h (handlers nm)).
    { change nm2 with (snd (r, nm2)). rewrite <- E.
      now rewrite in_session_handlers. }
    assert (Hsent : sent (session nm2)
                    = sent (session nm) ++ [ReqDeleteDeviceNotification req]).
    { revert E. unfold in_session, Client_DeleteDeviceNotification, bind.
      destruct (client_send_spec (ReqDeleteDeviceNotification req) (session nm1))
        as [x ->].
      destruct x as [[]|]; cbn; intros [= <- <-]; reflexivity. }
    assert (Hrun : Unsubscribe h nm
      = match r with
        | Ok resp =>
            if negb (ddr_Result resp =? NoError)
            then (Err (ErrCode "delete notification error" (ddr_Result resp)), nm2)
            else (Ok tt, nm2)
        | Err e => (Err (ErrWrap "failed to delete notification" e), nm2)
        end).
    { unfold Unsubscribe, bind at 1, get. cbn [fst snd]. rewrite Hh.
      unfold bind at 1, modify. fold nm1. fold req.
      unfold bind, on_error. rewrite E.
      destruct r as [resp|e]; [|reflexivity].
      destruct (negb (ddr_Result resp =? NoError)); reflexivity. }
    repeat split.
    + rewrite Hrun. destruct r as [resp|e]; [|reflexivity].
      destruct (negb (ddr_Result resp =? NoError)); reflexivity.
    + exact Hhs.
    + rewrite Hhs. apply lookup_delete_eq.
    + exact Hsent.
    + rewrite Hrun. destruct r as [resp|e]; [|discriminate].
      destruct (Z.eqb_spec (ddr_Result resp) NoError) as [H0|H0]; cbn.
      * eauto.
      * discriminate.
    + rewrite Hrun. intros (resp & -> & H0). rewrite H0. reflexivity.
  - intros Hh. unfold Unsubscribe, bind, get. rewrite Hh. cbn. eauto.
Qed.

(** ** What a decoded header is known to satisfy *)

Lemma ReadN_err_or_length n b d b' :
  Buffer.ReadN n b = (d, b') ->
  Buffer.err b' = None -> Buffer.err b = None /\ length d = n.
Proof.
  unfold Buffer.ReadN. destruct (Buffer.err b) eqn:E.
  - intros [= <- <-]. congruence.
  - destruct (Nat.ltb_spec (length (Buffer.buf b)) n).
    + intros [= <- <-]. discriminate.
    + intros [= <- <-] _. split; [reflexivity|]. rewrite length_take. lia.
Qed.

Lemma ReadN_sticky n b e :
  Buffer.err b = Some e -> Buffer.ReadN n b = ([], b).
Proof. intros H. unfold Buffer.ReadN. now rewrite H. Qed.

Lemma ReadUint_range w b z b' :
  Buffer.ReadUint w b = (z, b') -> 0 <= z < 2 ^ (8 * Z.of_nat w).
Proof.
  unfold Buffer.ReadUint. destruct (Buffer.ReadN w b) as [d b1] eqn:E.
  destruct (Buffer.err b1) eqn:E1; intros [= <- <-].
  - split; [lia | apply Z.pow_pos_nonneg; lia].
  - destruct (ReadN_err_or_length _ _ _ _ E E1) as [_ Hl].
    rewrite <- Hl. apply le_value_range.
Qed.

Lemma ReadAddr_wf b a b' : ReadAddr b = (a, b') -> wf_Addr a.
Proof.
  unfold ReadAddr. destruct (Buffer.ReadN 6 b) as [n b1].
  destruct (Buffer.ReadUint16 b1) as [p b2] eqn:E. intros [= <- <-].
  exact (ReadUint_range 2 _ _ _ E).
Qed.

Lemma ReadAMSHeader_wf b h b' : ReadAMSHeader b = (h, b') -> wf_AMSHeader h.
Proof.
  unfold ReadAMSHeader.
  destruct (ReadAddr b) as [t b1] eqn:Et.
  destruct (ReadAddr b1) as [s b2] eqn:Es.
  destruct (Buffer.ReadUint16 b2) as [c b3] eqn:Ec.
  destruct (Buffer.ReadUint16 b3) as [f b4] eqn:Ef.
  destruct (Buffer.ReadUint32 b4) as [l b5] eqn:El.
  destruct (Buffer.ReadUint32 b5) as [e b6] eqn:Ee.
  destruct (Buffer.ReadUint32 b6) as [i b7] eqn:Ei.
  intros [= <- <-]. unfold wf_AMSHeader. cbn.
  repeat split;
    first [ eapply ReadAddr_wf; eassumption
          | eapply (ReadUint_range 2); eassumption
          | eapply (ReadUint_range 4); eassumption ].
Qed.

Lemma Header_Decode_Ok b hdr :
  Header_Decode b = Ok hdr ->
  exists b1 b2,
    ReadTCPHeader b = (hdr_TCPHeader hdr, b1) /\
    ReadAMSHeader b1 = (hdr_AMSHeader hdr, b2) /\
    Buffer.err b2 = None /\ wf_AMSHeader (hdr_AMSHeader hdr).
Proof.
  unfold Header_Decode.
  destruct (ReadTCPHeader b) as [tcp b1].
  destruct (ReadAMSHeader b1) as [ams b2] eqn:E.
  unfold finish, check, Buffer.Err. destruct (Buffer.err b2) eqn:E2; [discriminate|].
  intros [= <-]. exists b1, b2. cbn. repeat split; try assumption.
  all: eapply ReadAMSHeader_wf; eassumption.
Qed.

(** ** The receive pump: a body that fails to decode *)

(** C3. An inbound frame whose header decodes, whose header the pump
    recognises, and whose body then fails to decode: if the frame is one
    of the responses (Read, Write, ReadWrite, AddDeviceNotification,
    DeleteDeviceNotification; the Response bit is then set), the pump
    returns the decode error, that is, it terminates; if it is a
    DeviceNotification, the pump goes on to its next turn, having logged
    one line when a notification callback is registered and nothing when
    none is, and having changed nothing else. *)
Theorem receive_decode_failure
    (i : pump_in) (c : Client) (bytes : list byte) (hdr : ams_Header)
    (k : kind) (e : error) :
  in_read i = Ok bytes ->
  Header_Decode (Buffer.NewBuffer (take packetSize bytes)) = Ok hdr ->
  classify (hdr_AMSHeader hdr) = Some k ->
  decode_kind k (Buffer.NewBuffer (take packetSize bytes)) = Err e ->
  (is_response_kind k = true ->
   HasState (hdr_AMSHeader hdr) StateResponse = true /\
   snd (receive_iter i c) = Return e) /\
  (k = KDeviceNotificationRequest ->
   snd (receive_iter i c) = Continue /\
   fst (receive_iter i c)
   = match notificationCallback c with
     | Some _ => emit c (EvLog "client: failed to decode notification")
     | None => c
     end).
Proof.
  intros Hread Hhdr Hcls Hdec.
  assert (Hiter : receive_iter i c
    = match k with
      | KDeviceNotificationRequest =>
          match notificationCallback c with
          | Some _ =>
              (emit c (EvLog "client: failed to decode notification"), Continue)
          | None => (c, Continue)
          end
      | _ => (emit c (EvLog "client: failed to decode"), Return e)
      end).
  { unfold receive_iter. rewrite Hread, Hhdr, Hcls, Hdec. reflexivity. }
  split.
  - intros Hk. split.
    + revert Hcls. unfold classify, IsReadResponse, IsWriteResponse,
        IsReadWriteResponse, IsAddDeviceNotificationResponse,
        IsDeleteDeviceNotificationResponse.
      repeat match goal with
      | |- context [if ?x && ?y then _ else _] =>
          destruct x; cbn [andb]; [destruct y eqn:?; [intros _; reflexivity|]|]
      | |- context [if ?x then _ else _] => destruct x
      end; intros [= <-]; discriminate.
    + rewrite Hiter. destruct k; try reflexivity; discriminate.
  - intros ->. rewrite Hiter.
    destruct (notificationCallback c); split; reflexivity.
Qed.

(** ** The receive pump: an inbound ReadState request *)

Lemma ReadStateResponse_Encode_bytes r :
  snd (ReadStateResponse_Encode r Buffer.empty)
  = Buffer.mk (read_state_response_bytes r) None.
Proof.
  unfold ReadStateResponse_Encode, Buffer.empty. cbn [snd].
  rewrite (appends_WriteTCPHeader _ _), (appends_WriteAMSHeader _ _).
  unfold Buffer.WriteUint32, Buffer.WriteUint16.
  cbn [Buffer.Write Buffer.err Buffer.buf app].
  unfold read_state_response_bytes. now rewrite <- !app_assoc.
Qed.

Lemma ReadStateResponse_Decode_bytes r :
  wf_TCPHeader (rsp_tcpHeader r) -> wf_AMSHeader (rsp_amsHeader r) ->
  is_u32 (rsp_Result r) -> is_u16 (rsp_ADSState r) -> is_u16 (rsp_DeviceState r) ->
  ReadStateResponse_Decode (Buffer.NewBuffer (read_state_response_bytes r)) = Ok r.
Proof.
  intros Htcp Hams Hr Ha Hd.
  unfold ReadStateResponse_Decode, read_state_response_bytes, Buffer.NewBuffer.
  rewrite ReadTCPHeader_app by exact Htcp.
  rewrite ReadAMSHeader_app by exact Hams.
  rewrite ReadUint32_app by exact Hr.
  rewrite ReadUint16_app by exact Ha.
  rewrite <- (app_nil_r (le_bytes 2 (rsp_DeviceState r))).
  rewrite ReadUint16_app by exact Hd.
  now destruct r.
Qed.

Lemma ReadStateRequest_Decode_header b hdr :
  Header_Decode b = Ok hdr ->
  ReadStateRequest_Decode b
  = Ok (mkReadStateRequest (hdr_TCPHeader hdr) (hdr_AMSHeader hdr)).
Proof.
  unfold Header_Decode, ReadStateRequest_Decode.
  destruct (ReadTCPHeader b) as [tcp b1].
  destruct (ReadAMSHeader b1) as [ams b2].
  unfold finish, check. destruct (Buffer.Err b2); [discriminate|].
  now intros [= <-].
Qed.

(** C4. For an inbound frame the pump classifies as a ReadState request,
    the pump makes exactly one write to the connection.  The bytes
    written are a ReadStateResponse: decoded, its result is 0, its
    adsState and deviceState are the client's cached values, its
    invoke-id is the one of the request, it is addressed to the request's
    sender, and it has the Response bit.  The pump goes on when the
    connection takes the write, and returns the error when it does not. *)
Theorem receive_ReadState_request
    (i : pump_in) (c : Client) (bytes : list byte) (hdr : ams_Header) :
  in_read i = Ok bytes ->
  Header_Decode (Buffer.NewBuffer (take packetSize bytes)) = Ok hdr ->
  classify (hdr_AMSHeader hdr) = Some KReadStateRequest ->
  is_u16 (adsState c) -> is_u16 (deviceState c) ->
  exists (data : list byte) (resp : ReadStateResponse),
    events (fst (receive_iter i c))
    = events c ++ [if in_write_ok i then EvWrite data else EvWriteFailed data] /\
    snd (receive_iter i c)
    = (if in_write_ok i then Continue else Return ErrIO) /\
    ReadStateResponse_Decode (Buffer.NewBuffer data) = Ok resp /\
    rsp_Result resp = 0 /\
    rsp_ADSState resp = ADSState c /\
    rsp_DeviceState resp = DeviceState c /\
    InvokeID (rsp_amsHeader resp) = InvokeID (hdr_AMSHeader hdr) /\
    Target (rsp_amsHeader resp) = Sender (hdr_AMSHeader hdr) /\
    CmdID (rsp_amsHeader resp) = CmdADSReadState /\
    HasState (rsp_amsHeader resp) StateResponse = true.
Proof.
  intros Hread Hhdr Hcls Hads Hdev.
  destruct (Header_Decode_Ok _ _ Hhdr) as (b1 & b2 & _ & _ & _ & Hwf).
  set (resp := read_state_answer (hdr_AMSHeader hdr) (adsState c) (deviceState c)).
  exists (read_state_response_bytes resp), resp.
  assert (Hiter : receive_iter i c
    = match conn_Write (read_state_response_bytes resp) (in_write_ok i) c with
      | (c', Some e) => (c', Return e)
      | (c', None) => (c', Continue)
      end).
  { unfold receive_iter. rewrite Hread, Hhdr, Hcls.
    cbn [decode_kind]. rewrite (ReadStateRequest_Decode_header _ _ Hhdr).
    cbn [rmap]. unfold handleReadStateRequest, sendResponse.
    cbn [rsq_amsHeader Header withHeader Encode ReadStateResponse_Packet].
    match goal with
    | |- context [ReadStateResponse_Encode ?r Buffer.empty] =>
        change r with resp;
        pose proof (ReadStateResponse_Encode_bytes resp) as Henc;
        destruct (ReadStateResponse_Encode resp Buffer.empty) as [r' b] eqn:E
    end.
    cbn [snd] in Henc. subst b. reflexivity. }
  rewrite Hiter. unfold conn_Write.
  destruct Hwf as (Ht & Hs & _ & _ & _ & _ & Hi).
  repeat split.
  - destruct (in_write_ok i); reflexivity.
  - destruct (in_write_ok i); reflexivity.
  - apply ReadStateResponse_Decode_bytes; subst resp; cbn;
      unfold wf_TCPHeader, wf_AMSHeader, wf_Addr, is_u16, is_u32, u16_max,
             u32_max, amsHeaderLen, CmdADSReadState, NoError,
             StateADSCommand, StateResponse in *;
      cbn; repeat split; try lia; try assumption.
    change (Z.lor 4 1) with 5. lia.
Qed.

(** ** send: registration, and what becomes of it *)

Lemma send_start_registered {P} `{Packet P} (pkt : P) (c c1 : Client) id ch :
  send_start pkt true c = (c1, Ok (id, ch)) ->
  handler c1 !! id = Some ch /\ chans c1 !! ch = Some (mkChan None false).
Proof.
  unfold send_start.
  destruct (Encode _ Buffer.empty) as [pkt' b].
  destruct (Buffer.Err b); [discriminate|].
  cbn [conn_Write]. intros [= <- <- <-]. cbn.
  split; apply lookup_insert_eq.
Qed.

(** The sibling path: when the write of the request fails, [send] takes the
    registration back before it returns. *)
Lemma send_start_write_failure_unregisters {P} `{Packet P} (pkt : P) (c : Client) :
  let pkt0 := withHeader pkt (set_InvokeID (Header pkt) (to_u32 (nextInvokeID c + 1))) in
  Buffer.Err (snd (Encode pkt0 Buffer.empty)) = None ->
  is_ok (snd (send_start pkt false c)) = false /\
  handler (fst (send_start pkt false c))
    !! InvokeID (Header (fst (Encode pkt0 Buffer.empty))) = None.
Proof.
  intros pkt0. unfold send_start. fold pkt0.
  destruct (Encode pkt0 Buffer.empty) as [pkt' b]. cbn [fst snd].
  intros ->. cbn. split; [reflexivity | apply lookup_delete_eq].
Qed.

(** C1, what the code does.  A [send] whose request was written and
    whose wait ends by timeout or by cancellation returns that error and
    leaves the client as it was: the handler channel is still registered
    under the request's invoke-id.  A response with that invoke-id that
    arrives later is therefore not dropped: the pump finds the channel,
    logs nothing, puts the response into the channel nobody reads any
    more, closes it, and only then is the registration gone. *)
Theorem send_timeout_keeps_registration {P} `{Packet P} {A}
    (pkt : P) (c c1 : Client) (id : Z) (ch : nat)
    (cb : Response -> result A) (arm : wait_arm) (late : Response) :
  send_start pkt true c = (c1, Ok (id, ch)) ->
  arm = ArmTimeout \/ arm = ArmCtxDone ->
  let '(c2, r) := send_wait ch arm cb c1 in
  (r = Some (Err ErrTimeout) \/ r = Some (Err ErrCancelled)) /\
  c2 = c1 /\
  handler c2 !! id = Some ch /\
  let '(c3, out) := forward id late false c2 in
  out = Continue /\
  events c3 = events c2 /\
  chans c3 !! ch = Some (mkChan (Some late) true) /\
  handler c3 !! id = None.
Proof.
  intros Hstart Harm.
  destruct (send_start_registered _ _ _ _ _ Hstart) as [Hh Hc].
  assert (Hwait : send_wait ch arm cb c1
                  = (c1, Some (Err (match arm with
                                    | ArmTimeout => ErrTimeout
                                    | _ => ErrCancelled
                                    end)))).
  { destruct Harm as [-> | ->]; reflexivity. }
  rewrite Hwait.
  split; [destruct Harm as [-> | ->]; auto|].
  split; [reflexivity|]. split; [exact Hh|].
  unfold forward. rewrite Hh. cbn [chans with_handler]. rewrite Hc. cbn.
  repeat split.
  - apply lookup_insert_eq.
  - apply lookup_delete_eq.
Qed.

(** ** Round trips leave the registry alone *)

Lemma snd_on_error {S A} (m : M S A) w s : snd (on_error m w s) = snd (m s).
Proof. unfold on_error. destruct (m s) as [[v|e] s']; reflexivity. Qed.

Lemma Client_ReadWrite_frame req s :
  snd (Client_ReadWrite req s) = after_send (ReqReadWrite req) s.
Proof.
  unfold Client_ReadWrite, bind.
  destruct (client_send_spec (ReqReadWrite req) s) as [r ->].
  destruct r as [[]|]; reflexivity.
Qed.

Lemma Client_Read_frame req s :
  snd (Client_Read req s) = after_send (ReqRead req) s.
Proof.
  unfold Client_Read, bind.
  destruct (client_send_spec (ReqRead req) s) as [r ->].
  destruct r as [[]|]; reflexivity.
Qed.

Lemma Client_Write_frame req s :
  snd (Client_Write req s) = after_send (ReqWrite req) s.
Proof.
  unfold Client_Write, bind.
  destruct (client_send_spec (ReqWrite req) s) as [r ->].
  destruct r as [[]|]; reflexivity.
Qed.

Lemma Client_AddDeviceNotification_frame req s :
  snd (Client_AddDeviceNotification req s)
  = after_send (ReqAddDeviceNotification req) s.
Proof.
  unfold Client_AddDeviceNotification, bind.
  destruct (client_send_spec (ReqAddDeviceNotification req) s) as [r ->].
  destruct r as [[]|]; reflexivity.
Qed.

Lemma GetSymHandleByName_frame t sd name s :
  snd (GetSymHandleByName t sd name s)
  = after_send (ReqReadWrite (NewReadWriteRequest t sd IdxGetSymHandleByName 0 4
                                (list_byte_of_string name))) s.
Proof.
  unfold GetSymHandleByName, bind.
  match goal with |- context [on_error ?m ?w s] =>
    pose proof (snd_on_error m w s) as Hs;
    rewrite Client_ReadWrite_frame in Hs;
    destruct (on_error m w s) as [[res|e] s']
  end; cbn [snd] in Hs; subst s'; [|reflexivity].
  destruct (handle_of_response res); reflexivity.
Qed.

Lemma getOrCreateHandle_entry name s info r s' :
  registry s !! name = Some info ->
  getOrCreateHandle name s = (r, s') ->
  targetAddr s' = targetAddr s /\ senderAddr s' = senderAddr s /\
  (exists k, sent s' = sent s ++ k /\
             forall q, In q k -> exists x, q = ReqReadWrite x) /\
  match r with
  | Ok h => exists info', registry s' !! name = Some info' /\
                          same_but_handle info info' /\ si_Handle info' = h
  | Err _ => registry s' = registry s
  end.
Proof.
  intros Hin. unfold getOrCreateHandle, bind at 1, registry_Get. rewrite Hin.
  destruct (Z.eqb_spec (si_Handle info) 0) as [H0|H0]; cbn [negb].
  - unfold bind at 1, get.
    unfold bind at 1.
    pose proof (GetSymHandleByName_frame (targetAddr s) (senderAddr s) name s) as Hf.
    destruct (GetSymHandleByName (targetAddr s) (senderAddr s) name s)
      as [[h|e] s1]; cbn [snd] in Hf; subst s1.
    + unfold bind at 1. cbn [registry after_send]. rewrite Hin.
      unfold bind, registry_Set, modify, ret. intros [= <- <-]. cbn.
      repeat split.
      * eexists. split; [reflexivity|]. intros q [<-|[]]. eauto.
      * eexists. split; [apply lookup_insert_eq|]. split; [|reflexivity].
        unfold same_but_handle. reflexivity.
    + intros [= <- <-]. cbn. repeat split.
      eexists. split; [reflexivity|]. intros q [<-|[]]. eauto.
  - unfold ret. intros [= <- <-]. repeat split.
    + exists []. split; [now rewrite app_nil_r | intros q []].
    + exists info. repeat split; [assumption|].
      unfold same_but_handle. now destruct info.
Qed.

(** ** A symbol fetched on a cache miss *)

Lemma GetSymbol_miss name s info s1 :
  registry s !! name = None ->
  GetSymbol name s = (Ok info, s1) ->
  (exists dt sz, info = mkSymbolInfo name dt sz 0 0 0 "" []) /\
  registry s1 = <[name := info]> (registry s) /\
  targetAddr s1 = targetAddr s /\ senderAddr s1 = senderAddr s.
Proof.
  intros Hmiss. unfold GetSymbol, bind at 1, registry_Get. rewrite Hmiss.
  unfold bind at 1, get. unfold bind at 1.
  unfold Client_GetSymbol at 1, bind at 1.
  match goal with |- context [on_error ?m ?w s] =>
    pose proof (snd_on_error m w s) as Hs;
    rewrite Client_ReadWrite_frame in Hs;
    destruct (on_error m w s) as [[res|e] s']
  end; cbn [snd] in Hs; subst s'; [|discriminate].
  unfold symbol_of_response.
  destruct (len (rw_Data res) <? 32); [discriminate|].
  unfold ret at 1. unfold bind, registry_Set, modify, ret. cbn.
  intros [= <- <-]. cbn. repeat split. eauto.
Qed.

(** C9. A symbol that [Session.GetSymbol] fetches on a cache miss is
    cached with IndexGroup 0 and IndexOffset 0 (the single-symbol fetch
    reads the size and the type only).  A [Subscribe] for that symbol, once
    its handle is obtained, sends an AddDeviceNotification request with
    indexGroup 0 and indexOffset 0, and with the symbol's size as
    length. *)
Theorem GetSymbol_miss_Subscribe_zero_index
    (name : string) (s s1 : Session) (info : SymbolInfo) :
  registry s !! name = None ->
  GetSymbol name s = (Ok info, s1) ->
  IndexGroup info = 0 /\ IndexOffset info = 0 /\
  registry s1 !! name = Some info /\
  forall (nm : NotificationManager) (cycleTime : Z)
         (callback : option NotificationCallback) (h : Z) (s2 : Session),
    session nm = s1 ->
    getOrCreateHandle name s1 = (Ok h, s2) ->
    exists req,
      sent (session (snd (Subscribe name cycleTime callback nm)))
      = sent s2 ++ [ReqAddDeviceNotification req] /\
      adq_IndexGroup req = 0 /\ adq_IndexOff req = 0 /\
      adq_Length req = si_Size info.
Proof.
  intros Hmiss Hget.
  destruct (GetSymbol_miss _ _ _ _ Hmiss Hget) as ((dt & sz & Hinfo) & Hreg & _ & _).
  assert (Hin : registry s1 !! name = Some info).
  { rewrite Hreg. apply lookup_insert_eq. }
  split; [now subst info|]. split; [now subst info|]. split; [exact Hin|].
  intros nm cycleTime callback h s2 Hnm Hh.
  destruct (getOrCreateHandle_entry _ _ _ _ _ Hin Hh)
    as (Ht & Hs & _ & info' & Hin' & Hsame & _).
  set (req := NewAddDeviceNotificationRequest (targetAddr s2) (senderAddr s2)
                (IndexGroup info') (IndexOffset info') (si_Size info')
                TransModeServerOnChange (to_u32 (Z.quot cycleTime 100))
                (to_u32 (Z.quot cycleTime 100))).
  exists req.
  assert (Hfields : IndexGroup info' = 0 /\ IndexOffset info' = 0
                    /\ si_Size info' = si_Size info).
  { rewrite Hsame. subst info. cbn. auto. }
  destruct Hfields as (Hg & Ho & Hsz).
  split; [|subst req; cbn; auto].
  unfold Subscribe, bind at 1, on_error, in_session at 1. rewrite Hnm, Hh.
  unfold bind at 1, in_session at 1, registry_Get.
  cbn [session with_session]. rewrite Hin'.
  unfold bind at 1, get. cbn [session with_session]. fold req.
  unfold bind at 1, in_session.
  cbn [session with_session].
  pose proof (Client_AddDeviceNotification_frame req s2) as Hf.
  destruct (Client_AddDeviceNotification req s2) as [[resp|e] s3];
    cbn [snd] in Hf; subst s3; [|reflexivity].
  destruct (negb (adr_Result resp =? NoError)); reflexivity.
Qed.

(** ** Field paths and absolute offsets *)

Lemma to_u32_add_l a b : to_u32 (to_u32 a + b) = to_u32 (a + b).
Proof. unfold to_u32, u32_max. now rewrite Z.add_mod_idemp_l by lia. Qed.

Lemma FindFieldByPathWithOffset_cons fields p rest base :
  FindFieldByPathWithOffset fields (p :: rest) base
  = match List.find (fun f => String.eqb (sf_Name f) p) fields with
    | Some f =>
        match rest with
        | [] => Ok (f, to_u32 (base + sf_Offset f))
        | _ :: _ =>
            FindFieldByPathWithOffset (sf_Fields f) rest
                                      (to_u32 (base + sf_Offset f))
        end
    | None => Err (ErrMsg ("field " ++ p ++ " not found"))
    end.
Proof. destruct rest; reflexivity. Qed.

Lemma FindFieldByPathWithOffset_resolves fields path chain :
  resolves fields path chain ->
  forall base,
    exists f, last chain = Some f /\
      FindFieldByPathWithOffset fields path base
      = Ok (f, to_u32 (base + sum_offsets chain)).
Proof.
  induction 1 as [fields p f Hf | fields p q rest f chain Hf Hres IH]; intros base.
  - exists f. split; [reflexivity|].
    rewrite FindFieldByPathWithOffset_cons, Hf. cbn.
    now rewrite Z.add_0_r.
  - destruct (IH (to_u32 (base + sf_Offset f))) as (g & Hlast & Hfind).
    exists g. split.
    + inversion Hres; subst; cbn in *; assumption.
    + rewrite FindFieldByPathWithOffset_cons, Hf, Hfind.
      cbn [sum_offsets fold_right]. fold (sum_offsets chain).
      now rewrite to_u32_add_l, Z.add_assoc.
Qed.

Lemma FindFieldByPathWithOffset_Ok path :
  forall fields base f off,
    FindFieldByPathWithOffset fields path base = Ok (f, off) ->
    exists chain,
      resolves fields path chain /\ last chain = Some f /\
      off = to_u32 (base + sum_offsets chain).
Proof.
  induction path as [|p rest IH]; intros fields base f off; [discriminate|].
  rewrite FindFieldByPathWithOffset_cons.
  destruct (List.find _ fields) as [g|] eqn:Hg; [|discriminate].
  destruct rest as [|q rest].
  - intros [= <- <-]. exists [g]. repeat split.
    + now constructor.
    + cbn. now rewrite Z.add_0_r.
  - intros Hrec. apply IH in Hrec. destruct Hrec as (chain & Hres & Hlast & ->).
    exists (g :: chain). repeat split.
    + now constructor.
    + inversion Hres; subst; cbn in *; assumption.
    + cbn [sum_offsets fold_right]. fold (sum_offsets chain).
      now rewrite to_u32_add_l, Z.add_assoc.
Qed.

(** ** Splicing *)

Lemma copy_into_splice data off size d :
  0 <= off -> len d = size ->
  copy_into data off (off + size) d = splice data (Z.to_nat off) d.
Proof.
  intros Hoff Hlen. unfold copy_into, splice, len in *.
  replace (Z.to_nat (off + size - off)) with (length d) by lia.
  rewrite Nat.min_id, firstn_all. reflexivity.
Qed.

Lemma length_splice data o d :
  (o + length d <= length data)%nat -> length (splice data o d) = length data.
Proof.
  intros H. unfold splice. rewrite !length_app, length_take, length_drop. lia.
Qed.

Lemma lookup_splice data o d (i : nat) :
  (o + length d <= length data)%nat ->
  splice data o d !! i
  = if decide (o <= i < o + length d)%nat then d !! (i - o)%nat else data !! i.
Proof.
  intros H. unfold splice.
  assert (Hto : length (take o data) = o) by (rewrite length_take; lia).
  destruct (decide (o <= i < o + length d)%nat) as [Hin|Hout].
  - rewrite lookup_app_r by lia. rewrite Hto.
    rewrite lookup_app_l by lia. reflexivity.
  - destruct (Nat.lt_ge_cases i o) as [Hlt|Hge].
    + rewrite lookup_app_l by lia. apply lookup_take_lt. lia.
    + rewrite lookup_app_r by lia. rewrite Hto.
      rewrite lookup_app_r by lia. rewrite lookup_drop. f_equal. lia.
Qed.

(** ** WriteNestedField *)

Lemma GetSymbol_hit name s info :
  registry s !! name = Some info -> GetSymbol name s = (Ok info, s).
Proof.
  intros H. unfold GetSymbol, bind, registry_Get. now rewrite H.
Qed.

(** C2, as the code has it.  Let the root symbol be cached with its field
    layout, let the path resolve to the field [f], and let the handle be
    obtained and the struct be read.  The absolute offset the code uses is
    the sum of the relative offsets along the path, in 32-bit arithmetic.
    If the data has the declared size of [f] and the field, at that
    offset, ends within the bytes read, then exactly one Write request
    follows the read, and its payload is the bytes read with the data put
    over them at the absolute offset: same length, the data inside that
    range, the bytes read outside it.  If the data has another size, or
    the field ends beyond the bytes read, the call returns the
    size-mismatch error, and the read was the last request sent. *)
Theorem WriteNestedField_read_modify_write
    (root : string) (path : list string) (d : list byte)
    (s s1 s2 : Session) (info : SymbolInfo) (f : StructField)
    (off h : Z) (resp : ReadResponse) :
  registry s !! root = Some info ->
  si_Fields info <> [] ->
  FindFieldByPathWithOffset (si_Fields info) path 0 = Ok (f, off) ->
  getOrCreateHandle root s = (Ok h, s1) ->
  Client_Read (NewReadRequest (targetAddr s) (senderAddr s) 0xF005 h
                              (si_Size info)) s1 = (Ok resp, s2) ->
  let data := rr_Data resp in
  (exists chain,
      resolves (si_Fields info) path chain /\ last chain = Some f /\
      off = to_u32 (sum_offsets chain)) /\
  (len d = sf_Size f -> off + sf_Size f <= len data ->
   let written := splice data (Z.to_nat off) d in
   let wreq := NewWriteRequest (targetAddr s) (senderAddr s) 0xF005 h written in
   sent (snd (WriteNestedField root path d s)) = sent s2 ++ [ReqWrite wreq] /\
   fst (WriteNestedField root path d s)
   = rmap (fun _ => tt) (fst (Client_Write wreq s2)) /\
   length written = length data /\
   forall i : nat,
     written !! i
     = if decide (Z.to_nat off <= i < Z.to_nat off + length d)%nat
       then d !! (i - Z.to_nat off)%nat else data !! i) /\
  (len d <> sf_Size f \/ off + sf_Size f > len data ->
   WriteNestedField root path d s = (Err size_mismatch, s2)).
Proof.
  intros Hin Hfields Hfind Hh Hread data.
  destruct (FindFieldByPathWithOffset_Ok _ _ _ _ _ Hfind)
    as (chain & Hres & Hlast & Hoff).
  rewrite Z.add_0_l in Hoff.
  assert (Hoff0 : 0 <= off).
  { rewrite Hoff. unfold to_u32, u32_max. apply Z.mod_pos_bound. lia. }
  split; [eauto|].
  destruct (getOrCreateHandle_entry _ _ _ _ _ Hin Hh)
    as (Ht & Hs & _ & info' & Hin' & Hsame & _).
  assert (Hinfo' : si_Size info' = si_Size info /\ si_Fields info' = si_Fields info).
  { rewrite Hsame. split; reflexivity. }
  destruct Hinfo' as [Hsz Hfl].
  assert (Ht2 : targetAddr s2 = targetAddr s /\ senderAddr s2 = senderAddr s).
  { pose proof (Client_Read_frame
      (NewReadRequest (targetAddr s) (senderAddr s) 0xF005 h (si_Size info)) s1) as Hf.
    rewrite Hread in Hf. cbn [snd] in Hf. subst s2. cbn. auto. }
  destruct Ht2 as [Ht2 Hs2].
  assert (Hrun : WriteNestedField root path d s
    = if (off + sf_Size f >? len data) || negb (len d =? sf_Size f)
      then (Err size_mismatch, s2)
      else
        (bind (Client_Write
                 (NewWriteRequest (targetAddr s) (senderAddr s) 0xF005 h
                    (copy_into data off (off + sf_Size f) d)))
              (fun _ => ret tt)) s2).
  { unfold WriteNestedField.
    unfold bind at 1. rewrite (on_error_Ok _ _ _ _ _ (GetSymbol_hit _ _ _ Hin)).
    unfold bind at 1. rewrite (on_error_Ok _ _ _ _ _ Hh).
    unfold bind at 1, through, bind at 1, registry_Get. rewrite Hin'.
    cbn [default ret]. unfold id, bind at 1, get.
    rewrite Ht, Hs, Hsz.
    unfold bind at 1. rewrite (on_error_Ok _ _ _ _ _ Hread).
    unfold bind at 1. rewrite Hfl.
    destruct (si_Fields info) as [|f0 fl] eqn:Efl; [congruence|].
    cbn [length Nat.eqb ret]. rewrite Hfl, Hfind.
    fold data.
    destruct ((off + sf_Size f >? len data) || negb (len d =? sf_Size f));
      reflexivity. }
  split.
  - intros Hlen Hfit written wreq.
    assert (Hguard : (off + sf_Size f >? len data) || negb (len d =? sf_Size f)
                     = false).
    { apply orb_false_intro.
      - destruct (Z.gtb_spec (off + sf_Size f) (len data)); [lia | reflexivity].
      - rewrite (proj2 (Z.eqb_eq _ _) Hlen). reflexivity. }
    rewrite Hrun, Hguard.
    rewrite (copy_into_splice _ _ _ _ Hoff0 Hlen). fold written. fold wreq.
    assert (Hnat : (Z.to_nat off + length d <= length data)%nat).
    { unfold len in *. lia. }
    pose proof (Client_Write_frame wreq s2) as Hf.
    unfold bind. destruct (Client_Write wreq s2) as [[w|e] s3];
      cbn [snd fst rmap ret] in *; subst s3; cbn [sent after_send].
    + repeat split.
      * now apply length_splice.
      * intros i. now apply lookup_splice.
    + repeat split.
      * now apply length_splice.
      * intros i. now apply lookup_splice.
  - intros Hbad. rewrite Hrun.
    assert (Hguard : (off + sf_Size f >? len data) || negb (len d =? sf_Size f)
                     = true).
    { apply orb_true_iff. destruct Hbad as [Hne|Hgt].
      - right. apply negb_true_iff. now apply Z.eqb_neq.
      - left. destruct (Z.gtb_spec (off + sf_Size f) (len data)); [reflexivity | lia]. }
    now rewrite Hguard.
Qed.

(** ** The theorems at work on concrete inputs *)

Lemma example_notification_wf : DeviceNotification.wf example_notification.
Proof.
  unfold DeviceNotification.wf, wf_TCPHeader, wf_AMSHeader, wf_Addr,
    is_u16, is_u32, u16_max, u32_max, example_notification, example_addr,
    CmdADSDeviceNotification, StateADSCommand.
  cbn. repeat match goal with |- _ /\ _ => split end; try lia.
  constructor; [|constructor].
  unfold DeviceNotification.wf_stamp, is_u64, is_u32, u64_max, u32_max. cbn.
  repeat match goal with |- _ /\ _ => split end; try lia.
  constructor; [|constructor].
  unfold DeviceNotification.wf_sample, is_u32, u32_max. cbn.
  repeat match goal with |- _ /\ _ => split end; lia.
Defined.

(** The notification of the scenario survives encoding and decoding. *)
Lemma notification_decode_encode_witness :
  DeviceNotification.wf example_notification /\
  DeviceNotification.Decode
    (Buffer.NewBuffer
       (Buffer.Bytes (DeviceNotification.Encode example_notification Buffer.empty)))
  = Ok example_notification.
Proof.
  split.
  - exact example_notification_wf.
  - exact (proj2 (notification_decode_encode example_notification
                    example_notification_wf)).
Defined.

(** The handle-acquisition scenario: data 78 56 34 12 is 0x12345678. *)
Lemma GetSymHandleByName_witness :
  replies example_handle_session = [Ok (RespReadWrite example_handle_response)] /\
  fst (GetSymHandleByName example_addr example_addr "MAIN.x" example_handle_session)
  = Ok 0x12345678.
Proof.
  split; [reflexivity|].
  apply (proj1 (proj2 (GetSymHandleByName_little_endian
                         example_addr example_addr "MAIN.x"
                         example_handle_session example_handle_response []
                         eq_refl)));
    reflexivity.
Defined.


(** A manager started once: a second [Start] is refused and changes
    nothing; a fresh manager is not changed by [Stop]. *)
Lemma Start_Stop_repeated_witness :
  let nm := snd (Start (NewNotificationManager example_session)) in
  running nm = true /\ Start nm = (Err already_running, nm) /\
  Stop (NewNotificationManager example_session)
  = NewNotificationManager example_session.
Proof.
  intros nm. split; [reflexivity|]. split.
  - apply (proj1 (Start_Stop_repeated nm)). reflexivity.
  - apply (proj1 (proj2 (proj2
             (Start_Stop_repeated (NewNotificationManager example_session))))).
    reflexivity.
Defined.

(** A server that never answers: the entry is gone all the same. *)
Lemma Unsubscribe_removes_first_witness :
  handlers example_manager !! 7 = Some example_handler /\
  is_ok (fst (Unsubscribe 7 example_manager)) = false /\
  handlers (snd (Unsubscribe 7 example_manager)) !! 7 = None.
Proof.
  split; [reflexivity|].
  pose proof (proj1 (Unsubscribe_removes_first 7 example_manager)
                example_handler eq_refl) as H.
  cbv zeta in H.
  destruct (in_session _ _) as [r nm2] in H.
  destruct H as (Hsnd & _ & Hgone & _ & _).
  split; [reflexivity|]. rewrite Hsnd. exact Hgone.
Defined.

(** A Read response and a DeviceNotification, both cut after the header:
    the first ends the pump, the second is logged (a callback being
    registered) and skipped. *)
Lemma receive_decode_failure_witness :
  snd (receive_iter (example_in (header_frame CmdADSRead 5 1)) example_client)
  = Return ErrUnexpectedEOF /\
  receive_iter (example_in (header_frame CmdADSDeviceNotification 4 0))
               example_client_with_callback
  = (emit example_client_with_callback
          (EvLog "client: failed to decode notification"), Continue).
Proof.
  split.
  - refine (proj2 (proj1 (receive_decode_failure
        (example_in (header_frame CmdADSRead 5 1)) example_client
        (header_frame CmdADSRead 5 1)
        (mkHeader (mkTCPHeader 0 32) (example_header CmdADSRead 5 1))
        KReadResponse ErrUnexpectedEOF eq_refl _ _ _) eq_refl));
      vm_compute; reflexivity.
  - pose proof (proj2 (receive_decode_failure
        (example_in (header_frame CmdADSDeviceNotification 4 0))
        example_client_with_callback
        (header_frame CmdADSDeviceNotification 4 0)
        (mkHeader (mkTCPHeader 0 32) (example_header CmdADSDeviceNotification 4 0))
        KDeviceNotificationRequest ErrUnexpectedEOF eq_refl
        ltac:(vm_compute; reflexivity) ltac:(vm_compute; reflexivity)
        ltac:(vm_compute; reflexivity)) eq_refl) as [Hs Hf].
    rewrite (surjective_pairing (receive_iter _ _)), Hs, Hf. reflexivity.
Defined.

(** The unsolicited ReadState scenario: invoke-id 77, both states Run. *)
Lemma receive_ReadState_request_witness :
  exists (data : list byte) (resp : ReadStateResponse),
    events (fst (receive_iter (example_in (header_frame CmdADSReadState 4 77))
                              example_client))
    = [EvWrite data] /\
    ReadStateResponse_Decode (Buffer.NewBuffer data) = Ok resp /\
    rsp_ADSState resp = ADSStateRun /\ rsp_DeviceState resp = ADSStateRun /\
    InvokeID (rsp_amsHeader resp) = 77.
Proof.
  destruct (receive_ReadState_request
              (example_in (header_frame CmdADSReadState 4 77)) example_client
              (header_frame CmdADSReadState 4 77)
              (mkHeader (mkTCPHeader 0 32) (example_header CmdADSReadState 4 77))
              eq_refl
              ltac:(vm_compute; reflexivity) ltac:(vm_compute; reflexivity)
              ltac:(vm_compute; split; [discriminate | reflexivity])
              ltac:(vm_compute; split; [discriminate | reflexivity]))
    as (data & resp & Hev & _ & Hdec & _ & Hads & Hdev & Hid & _).
  exists data, resp. repeat split; assumption.
Defined.

(** A DeleteDeviceNotification request is written, the wait times out, and
    the answer comes late: the registration outlives the [send], and the
    late answer is put into the abandoned channel. *)
Lemma send_timeout_keeps_registration_witness :
  let pkt := NewDeleteDeviceNotificationRequest example_addr example_addr 7 in
  let late := RespDeleteDeviceNotification
                (mkDeleteDeviceNotificationResponse (mkTCPHeader 0 36)
                   (example_header CmdADSDeleteDeviceNotification 5 1) 0) in
  let c1 := fst (send_start pkt true example_client) in
  snd (send_start pkt true example_client) = Ok (1, 0%nat) /\
  snd (send_wait (A := unit) 0 ArmTimeout (fun _ => Ok tt) c1)
  = Some (Err ErrTimeout) /\
  handler (fst (send_wait (A := unit) 0 ArmTimeout (fun _ => Ok tt) c1)) !! 1
  = Some 0%nat /\
  events (fst (forward 1 late false c1)) = events c1 /\
  chans (fst (forward 1 late false c1)) !! 0%nat = Some (mkChan (Some late) true).
Proof.
  intros pkt late c1.
  assert (Hstart : send_start pkt true example_client = (c1, Ok (1, 0%nat))).
  { vm_compute. reflexivity. }
  pose proof (send_timeout_keeps_registration (A := unit) pkt example_client c1
                1 0%nat (fun _ => Ok tt) ArmTimeout late Hstart
                (or_introl eq_refl)) as H.
  change (send_wait 0 ArmTimeout (fun _ : Response => Ok ()) c1)
    with (c1, @Some (result unit) (Err ErrTimeout)) in *.
  cbv iota beta in H. destruct H as (_ & _ & Hreg & Hlate).
  destruct (forward 1 late false c1) as [c3 out].
  destruct Hlate as (_ & Hev & Hch & _).
  split; [now rewrite Hstart|]. split; [reflexivity|].
  split; [exact Hreg|]. split; [exact Hev | exact Hch].
Defined.

(** The nested-write scenario: bytes 6..10 of the 10-byte struct take the
    encoded 1.5, and the 10 bytes are written back. *)
Lemma WriteNestedField_read_modify_write_witness :
  let s := example_nested_session (replicate 10 x00) in
  FindFieldByPathWithOffset example_layout ["b"; "d"] 0
  = Ok (mkStructField "d" "REAL" 4 4 [], 6) /\
  sent (snd (WriteNestedField "root" ["b"; "d"] example_real s))
  = [ReqRead (NewReadRequest example_addr example_addr 0xF005 9 10);
     ReqWrite (NewWriteRequest example_addr example_addr 0xF005 9
                 [x00; x00; x00; x00; x00; x00; x00; x00; xc0; x3f])] /\
  WriteNestedField "root" ["b"; "d"] [x01] s
  = (Err size_mismatch, after_send
       (ReqRead (NewReadRequest example_addr example_addr 0xF005 9 10)) s).
Proof.
  intros s.
  pose proof (WriteNestedField_read_modify_write "root" ["b"; "d"] example_real
    s s (after_send (ReqRead (NewReadRequest example_addr example_addr 0xF005 9 10)) s)
    example_root (mkStructField "d" "REAL" 4 4 []) 6 9
    (mkReadResponse (mkTCPHeader 0 50) (example_header CmdADSRead 5 1) 0 10
                    (replicate 10 x00))
    eq_refl ltac:(discriminate) eq_refl eq_refl eq_refl) as Hgood.
  pose proof (WriteNestedField_read_modify_write "root" ["b"; "d"] [x01]
    s s (after_send (ReqRead (NewReadRequest example_addr example_addr 0xF005 9 10)) s)
    example_root (mkStructField "d" "REAL" 4 4 []) 6 9
    (mkReadResponse (mkTCPHeader 0 50) (example_header CmdADSRead 5 1) 0 10
                    (replicate 10 x00))
    eq_refl ltac:(discriminate) eq_refl eq_refl eq_refl) as Hbad.
  cbv zeta in Hgood, Hbad.
  destruct Hgood as (_ & Hgood & _). destruct Hbad as (_ & _ & Hbad).
  split; [reflexivity|]. split.
  - destruct (Hgood eq_refl ltac:(vm_compute; discriminate)) as (Hsent & _).
    rewrite Hsent. reflexivity.
  - apply Hbad. left. vm_compute. discriminate.
Defined.

(** C2, the claim as written, refuted: the data has the declared size of
    the field, yet the PLC answered the read with 8 of the 10 bytes, the
    field [b.d] ends beyond them, and the call returns the size-mismatch
    error without a write. *)
Lemma WriteNestedField_short_read_no_write :
  let s := example_nested_session (replicate 8 x00) in
  FindFieldByPathWithOffset example_layout ["b"; "d"] 0
  = Ok (mkStructField "d" "REAL" 4 4 [], 6) /\
  len example_real = 4 /\
  fst (WriteNestedField "root" ["b"; "d"] example_real s) = Err size_mismatch /\
  sent (snd (WriteNestedField "root" ["b"; "d"] example_real s))
  = [ReqRead (NewReadRequest example_addr example_addr 0xF005 9 10)].
Proof. vm_compute. repeat split; reflexivity. Qed.

(** A symbol fetched on a miss, then subscribed to: the request carries
    index group 0 and index offset 0. *)
Lemma GetSymbol_miss_Subscribe_zero_index_witness :
  let s1 := snd (GetSymbol "MAIN.x" example_miss_session) in
  let nm := NewNotificationManager s1 in
  registry example_miss_session !! "MAIN.x" = None /\
  exists req,
    sent (session (snd (Subscribe "MAIN.x" 1000000 (Some 0%nat) nm)))
    = sent (snd (getOrCreateHandle "MAIN.x" s1)) ++ [ReqAddDeviceNotification req] /\
    adq_IndexGroup req = 0 /\ adq_IndexOff req = 0.
Proof.
  intros s1 nm. split; [reflexivity|].
  destruct (GetSymbol_miss_Subscribe_zero_index "MAIN.x" example_miss_session s1
              (mkSymbolInfo "MAIN.x" "" 0 0 0 0 "" [])
              eq_refl ltac:(vm_compute; reflexivity))
    as (_ & _ & _ & Hsub).
  destruct (Hsub nm 1000000 (Some 0%nat) 0x12345678
              (snd (getOrCreateHandle "MAIN.x" s1)) eq_refl
              ltac:(vm_compute; reflexivity))
    as (req & Hsent & Hg & Ho & _).
  exists req. repeat split; assumption.
Defined.

(** * Further properties of the code *)

(** ** The primitive value codec *)

Lemma slice_prefix (a extra : list byte) (n : Z) :
  n = Z.of_nat (length a) -> slice (a ++ extra) 0 n = a.
Proof.
  intros ->. unfold slice. rewrite Z.sub_0_r, Nat2Z.id.
  change (Z.to_nat 0) with 0%nat. rewrite drop_0. apply take_app_length.
Qed.

Lemma len_app (a b : list byte) : len (a ++ b) = len a + len b.
Proof. unfold len. rewrite length_app. lia. Qed.

Lemma len_le_bytes n z : len (le_bytes n z) = Z.of_nat n.
Proof. unfold len. now rewrite length_le_bytes. Qed.

Lemma len_nonneg (d : list byte) : 0 <= len d.
Proof. unfold len. lia. Qed.

Lemma to_signed_mod bits v :
  0 < bits -> is_signed bits v -> to_signed bits (v mod 2 ^ bits) = v.
Proof.
  intros Hb [Hlo Hhi]. unfold to_signed.
  assert (Hp : 2 ^ bits = 2 * 2 ^ (bits - 1)).
  { replace bits with (1 + (bits - 1)) at 1 by lia.
    rewrite Z.pow_add_r by lia. reflexivity. }
  assert (Hpos : 0 < 2 ^ (bits - 1)) by (apply Z.pow_pos_nonneg; lia).
  rewrite Z.mod_mod by lia.
  destruct (Z.neg_nonneg_cases v) as [Hneg|Hnn].
  - replace (v mod 2 ^ bits) with (v + 2 ^ bits).
    + destruct (Z.ltb_spec (v + 2 ^ bits) (2 ^ (bits - 1))); lia.
    + symmetry. rewrite <- (Z.mod_add v 1 (2 ^ bits)) by lia.
      rewrite Z.mul_1_l. apply Z.mod_small. lia.
  - rewrite Z.mod_small by lia.
    destruct (Z.ltb_spec v (2 ^ (bits - 1))); lia.
Qed.

Lemma to_i64_mod v : is_signed 64 v -> to_i64 (v mod u64_max) = v.
Proof.
  intros H. pose proof (to_signed_mod 64 v ltac:(lia) H) as Hs.
  unfold to_signed in Hs. unfold to_i64, u64_max.
  change (64 - 1) with 63 in Hs. exact Hs.
Qed.

Lemma byte_at_0 b tl : byte_at (b :: tl) 0 = Z_of_byte b.
Proof. reflexivity. Qed.

Ltac use_width H :=
  let H1 := fresh in let H2 := fresh in
  destruct H as [H1 H2];
  change (Z.of_nat 2) with 2 in H1, H2; change (Z.of_nat 4) with 4 in H1, H2;
  change (Z.of_nat 8) with 8 in H1, H2;
  rewrite H1, H2.

(** X1. The unsigned typed codec: decoding what the encoder wrote gives
    the value back, whatever bytes follow (the decoders look at the first
    1, 2, 4 or 8 bytes only). *)
Theorem typed_unsigned_round_trip (v : Z) (extra : list byte) :
  (is_u8 v -> DecodeByte (EncodeByte v ++ extra) = Ok v) /\
  (is_u16 v -> DecodeUInt16 (EncodeUInt16 v ++ extra) = Ok v) /\
  (is_u32 v -> DecodeUInt32 (EncodeUInt32 v ++ extra) = Ok v) /\
  (is_u64 v -> DecodeUInt64 (EncodeUInt64 v ++ extra) = Ok v).
Proof.
  assert (Hw : forall w, 0 <= v < 2 ^ (8 * Z.of_nat w) ->
            (len (le_bytes w v ++ extra) <? Z.of_nat w) = false /\
            le_value (slice (le_bytes w v ++ extra) 0 (Z.of_nat w)) = v).
  { intros w Hv. split.
    - rewrite len_app, len_le_bytes. pose proof (len_nonneg extra).
      destruct (Z.ltb_spec (Z.of_nat w + len extra) (Z.of_nat w)); [lia | reflexivity].
    - rewrite slice_prefix by now rewrite length_le_bytes.
      now apply le_value_le_bytes. }
  repeat split.
  - intros Hv. unfold DecodeByte, EncodeByte. cbn [app].
    unfold len. cbn [length]. rewrite byte_at_0, Z_of_byte_of_Z.
    unfold is_u8 in Hv. rewrite Z.mod_small by lia.
    destruct (Z.ltb_spec (Z.of_nat (S (length extra))) 1); [lia | reflexivity].
  - intros Hv. unfold DecodeUInt16, EncodeUInt16.
    use_width (Hw 2%nat Hv). reflexivity.
  - intros Hv. unfold DecodeUInt32, EncodeUInt32.
    use_width (Hw 4%nat Hv). reflexivity.
  - intros Hv. unfold DecodeUInt64, EncodeUInt64.
    use_width (Hw 8%nat Hv). reflexivity.
Qed.

(** X2. The signed typed codec: decoding what the encoder wrote gives the
    value back, negative values included, whatever bytes follow. *)
Theorem typed_signed_round_trip (v : Z) (extra : list byte) :
  (is_signed 8 v -> DecodeSInt (EncodeSInt v ++ extra) = Ok v) /\
  (is_signed 16 v -> DecodeInt16 (EncodeInt16 v ++ extra) = Ok v) /\
  (is_signed 32 v -> DecodeInt32 (EncodeInt32 v ++ extra) = Ok v) /\
  (is_signed 64 v -> DecodeInt64 (EncodeInt64 v ++ extra) = Ok v).
Proof.
  assert (Hw : forall (w : nat) u, 0 <= u < 2 ^ (8 * Z.of_nat w) ->
            (len (le_bytes w u ++ extra) <? Z.of_nat w) = false /\
            le_value (slice (le_bytes w u ++ extra) 0 (Z.of_nat w)) = u).
  { intros w u Hu. split.
    - rewrite len_app, len_le_bytes. pose proof (len_nonneg extra).
      destruct (Z.ltb_spec (Z.of_nat w + len extra) (Z.of_nat w)); [lia | reflexivity].
    - rewrite slice_prefix by now rewrite length_le_bytes.
      now apply le_value_le_bytes. }
  repeat split.
  - intros Hv. unfold DecodeSInt, EncodeSInt, to_u8, to_i8. cbn [app].
    unfold len. cbn [length]. rewrite byte_at_0, Z_of_byte_of_Z.
    change 256 with (2 ^ 8). rewrite Z.mod_mod by lia.
    rewrite (to_signed_mod 8 v) by (lia || exact Hv).
    destruct (Z.ltb_spec (Z.of_nat (S (length extra))) 1); [lia | reflexivity].
  - intros Hv. unfold DecodeInt16, EncodeInt16, to_u16, to_i16.
    use_width (Hw 2%nat (v mod 2 ^ 16) ltac:(apply Z.mod_pos_bound; lia)).
    now rewrite (to_signed_mod 16 v) by (lia || exact Hv).
  - intros Hv. unfold DecodeInt32, EncodeInt32, to_u32, u32_max, to_i32.
    use_width (Hw 4%nat (v mod 2 ^ 32) ltac:(apply Z.mod_pos_bound; lia)).
    now rewrite (to_signed_mod 32 v) by (lia || exact Hv).
  - intros Hv. unfold DecodeInt64, EncodeInt64, to_u64.
    use_width (Hw 8%nat (v mod u64_max)
                 ltac:(unfold u64_max; apply Z.mod_pos_bound; lia)).
    now rewrite to_i64_mod.
Qed.

Lemma until_NUL_zeros k : until_NUL (replicate k x00) = [].
Proof. destruct k; reflexivity. Qed.

Lemma until_NUL_app_zeros l k :
  NUL_free l -> until_NUL (l ++ replicate k x00) = l.
Proof.
  unfold NUL_free. induction l as [|b tl IH]; intros Hfree.
  - apply until_NUL_zeros.
  - cbn [app until_NUL]. destruct (Byte.eqb b x00) eqn:E.
    + apply Byte.byte_dec_bl in E. subst b. exfalso. apply Hfree. now left.
    + f_equal. apply IH. intros Hin. apply Hfree. now right.
Qed.

Lemma NUL_free_take n l : NUL_free l -> NUL_free (take n l).
Proof.
  unfold NUL_free. intros Hfree Hin. apply Hfree.
  rewrite <- (take_drop n l). apply in_or_app. now left.
Qed.

Lemma length_make_copy n src : length (make_copy n src) = n.
Proof.
  unfold make_copy. rewrite length_app, length_take, length_replicate. lia.
Qed.

Lemma make_copy_fits n src :
  (length src <= n)%nat -> make_copy n src = src ++ replicate (n - length src) x00.
Proof. intros H. unfold make_copy. now rewrite take_ge by lia. Qed.

Lemma DecodeString_nullTerminatedString data :
  DecodeString data = Ok (nullTerminatedString data).
Proof.
  unfold DecodeString, nullTerminatedString, len.
  destruct data; reflexivity.
Qed.

(** X3. The string codec.  [EncodeString] always yields [maxLen] bytes.  For
    a value without NUL bytes, [DecodeString] of the encoding is the value
    cut to its first [maxLen] bytes: the whole value when it fits, a silent
    truncation when it does not. *)
Theorem EncodeString_DecodeString (value : string) (maxLen : Z) :
  0 <= maxLen ->
  NUL_free (list_byte_of_string value) ->
  len (EncodeString value maxLen) = maxLen /\
  DecodeString (EncodeString value maxLen)
  = Ok (string_of_list_byte (take (Z.to_nat maxLen) (list_byte_of_string value))) /\
  (len (list_byte_of_string value) <= maxLen ->
   DecodeString (EncodeString value maxLen) = Ok value).
Proof.
  intros Hn Hfree.
  assert (Hdec : DecodeString (EncodeString value maxLen)
    = Ok (string_of_list_byte (take (Z.to_nat maxLen) (list_byte_of_string value)))).
  { rewrite DecodeString_nullTerminatedString.
    unfold nullTerminatedString, EncodeString, make_copy.
    rewrite until_NUL_app_zeros by now apply NUL_free_take. reflexivity. }
  split; [|split].
  - unfold len, EncodeString. rewrite length_make_copy. lia.
  - exact Hdec.
  - intros Hfit. rewrite Hdec. unfold len in Hfit.
    rewrite take_ge by lia. now rewrite string_of_list_byte_of_string.
Qed.

(** ** DecodeFieldValue *)

Ltac decide_len :=
  repeat match goal with
  | |- context [?a <? ?b] => destruct (Z.ltb_spec a b)
  | |- context [?a >=? ?b] => destruct (Z.geb_spec a b)
  | |- context [?a =? 0] =>
      match a with len _ => destruct (Z.eqb_spec a 0) end
  end; try reflexivity; try lia.

Lemma is_STRING_not_basic dataType :
  is_STRING dataType = true -> ~ In dataType basic_types.
Proof.
  intros H Hin. cbn in Hin.
  repeat (destruct Hin as [<-|Hin]; [discriminate H|]). exact Hin.
Qed.

Ltac not_basic H :=
  repeat match goal with
  | |- context [String.eqb ?dt ?s] =>
      rewrite (proj2 (String.eqb_neq dt s))
        by (intros ->; apply H; cbn; tauto)
  end.

Lemma DecodeFieldValue_not_basic data dataType :
  ~ In dataType basic_types ->
  DecodeFieldValue data dataType
  = if len data =? 0 then VNil
    else if is_STRING dataType
         then VString (string_of_list_byte (until_NUL data))
         else VString (hex_upper data).
Proof.
  intros Hnot. unfold DecodeFieldValue. not_basic Hnot. reflexivity.
Qed.

(** X4. [DecodeFieldValue] on data that is not empty gives, for each basic
    type name, exactly what the typed decoder of that type gives, and the
    upper-case hex string of the data when the data is too short for the
    type; for a type name beginning with STRING it gives what
    [DecodeString] gives; for any other type name it gives the hex string.
    On empty data it gives nil, whatever the type. *)
Theorem DecodeFieldValue_typed (data : list byte) :
  (forall dataType, data = [] -> DecodeFieldValue data dataType = VNil) /\
  (data <> [] ->
   DecodeFieldValue data "BOOL" = decoded_or_hex data VBool (DecodeBool data) /\
   DecodeFieldValue data "SINT" = decoded_or_hex data VInt8 (DecodeSInt data) /\
   DecodeFieldValue data "USINT" = decoded_or_hex data VUint8 (DecodeByte data) /\
   DecodeFieldValue data "BYTE" = decoded_or_hex data VUint8 (DecodeByte data) /\
   DecodeFieldValue data "INT" = decoded_or_hex data VInt16 (DecodeInt16 data) /\
   DecodeFieldValue data "UINT" = decoded_or_hex data VUint16 (DecodeUInt16 data) /\
   DecodeFieldValue data "WORD" = decoded_or_hex data VUint16 (DecodeUInt16 data) /\
   DecodeFieldValue data "DINT" = decoded_or_hex data VInt32 (DecodeInt32 data) /\
   DecodeFieldValue data "UDINT" = decoded_or_hex data VUint32 (DecodeUInt32 data) /\
   DecodeFieldValue data "DWORD" = decoded_or_hex data VUint32 (DecodeUInt32 data) /\
   DecodeFieldValue data "LINT" = decoded_or_hex data VInt64 (DecodeInt64 data) /\
   DecodeFieldValue data "ULINT" = decoded_or_hex data VUint64 (DecodeUInt64 data) /\
   DecodeFieldValue data "LWORD" = decoded_or_hex data VUint64 (DecodeUInt64 data) /\
   DecodeFieldValue data "REAL" = decoded_or_hex data VFloat32 (DecodeFloat32 data) /\
   DecodeFieldValue data "LREAL" = decoded_or_hex data VFloat64 (DecodeFloat64 data) /\
   (forall dataType, is_STRING dataType = true ->
      DecodeFieldValue data dataType
      = decoded_or_hex data VString (DecodeString data)) /\
   (forall dataType, ~ In dataType basic_types -> is_STRING dataType = false ->
      DecodeFieldValue data dataType = VString (hex_upper data))).
Proof.
  split.
  - intros dataType ->. reflexivity.
  - intros Hne.
    assert (Hlen : 0 < len data).
    { unfold len. destruct data; [congruence | cbn; lia]. }
    assert (Hstr : forall dataType, is_STRING dataType = true ->
      DecodeFieldValue data dataType
      = decoded_or_hex data VString (DecodeString data)).
    { intros dataType Hs.
      rewrite (DecodeFieldValue_not_basic _ _ (is_STRING_not_basic _ Hs)), Hs.
      unfold DecodeString, decoded_or_hex.
      destruct (Z.eqb_spec (len data) 0); [lia | reflexivity]. }
    assert (Hunk : forall dataType,
      ~ In dataType basic_types -> is_STRING dataType = false ->
      DecodeFieldValue data dataType = VString (hex_upper data)).
    { intros dataType Hnot Hs. rewrite (DecodeFieldValue_not_basic _ _ Hnot), Hs.
      destruct (Z.eqb_spec (len data) 0); [lia | reflexivity]. }
    repeat match goal with |- _ /\ _ => split end;
      first
        [ exact Hstr | exact Hunk
        | unfold DecodeFieldValue, decoded_or_hex, DecodeBool, DecodeSInt,
            DecodeByte, DecodeInt16, DecodeUInt16, DecodeInt32, DecodeUInt32,
            DecodeInt64, DecodeUInt64, DecodeFloat32, DecodeFloat64;
          cbn [String.eqb Ascii.eqb Bool.eqb orb andb];
          destruct (Z.eqb_spec (len data) 0); [lia|]; decide_len ].
Qed.

(** ** EncodeValue and DecodeFieldValue *)

Lemma le_bytes_slice (w : nat) v :
  0 <= v < 2 ^ (8 * Z.of_nat w) ->
  le_value (slice (le_bytes w v) 0 (Z.of_nat w)) = v.
Proof.
  intros Hv. rewrite <- (app_nil_r (le_bytes w v)).
  rewrite slice_prefix by now rewrite length_le_bytes.
  now apply le_value_le_bytes.
Qed.

Lemma byte_at_byte_of_Z v : 0 <= v < 2 ^ 8 -> byte_at [byte_of_Z v] 0 = v.
Proof.
  intros Hv. rewrite byte_at_0, Z_of_byte_of_Z. apply Z.mod_small. lia.
Qed.

Lemma DecodeFieldValue_ints v :
  (is_signed 8 v -> DecodeFieldValue [byte_of_Z (to_u8 v)] "SINT" = VInt8 v) /\
  (is_u8 v -> DecodeFieldValue [byte_of_Z v] "USINT" = VUint8 v) /\
  (is_u8 v -> DecodeFieldValue [byte_of_Z v] "BYTE" = VUint8 v) /\
  (is_signed 16 v -> DecodeFieldValue (le_bytes 2 (to_u16 v)) "INT" = VInt16 v) /\
  (is_u16 v -> DecodeFieldValue (le_bytes 2 v) "UINT" = VUint16 v) /\
  (is_u16 v -> DecodeFieldValue (le_bytes 2 v) "WORD" = VUint16 v) /\
  (is_signed 32 v -> DecodeFieldValue (le_bytes 4 (to_u32 v)) "DINT" = VInt32 v) /\
  (is_u32 v -> DecodeFieldValue (le_bytes 4 v) "UDINT" = VUint32 v) /\
  (is_u32 v -> DecodeFieldValue (le_bytes 4 v) "DWORD" = VUint32 v) /\
  (is_signed 64 v -> DecodeFieldValue (le_bytes 8 (to_u64 v)) "LINT" = VInt64 v) /\
  (is_u64 v -> DecodeFieldValue (le_bytes 8 v) "ULINT" = VUint64 v) /\
  (is_u64 v -> DecodeFieldValue (le_bytes 8 v) "LWORD" = VUint64 v) /\
  (is_u32 v -> DecodeFieldValue (le_bytes 4 v) "REAL" = VFloat32 v) /\
  (is_u64 v -> DecodeFieldValue (le_bytes 8 v) "LREAL" = VFloat64 v).
Proof.
  assert (H8 : 0 <= v mod 2 ^ 8 < 2 ^ 8) by (apply Z.mod_pos_bound; lia).
  assert (H16 : 0 <= v mod 2 ^ 16 < 2 ^ 16) by (apply Z.mod_pos_bound; lia).
  assert (H32 : 0 <= v mod 2 ^ 32 < 2 ^ 32) by (apply Z.mod_pos_bound; lia).
  assert (H64 : 0 <= v mod 2 ^ 64 < 2 ^ 64) by (apply Z.mod_pos_bound; lia).
  unfold is_u8, is_u16, is_u32, is_u64, u16_max, u32_max, u64_max.
  repeat match goal with |- _ /\ _ => split end; intros Hv;
    unfold DecodeFieldValue;
    cbn [String.eqb Ascii.eqb Bool.eqb orb andb];
    rewrite ?len_le_bytes; unfold len; cbn [length Z.of_nat Pos.of_succ_nat
      Pos.succ Z.eqb Z.geb Z.compare Pos.compare Pos.compare_cont];
    unfold to_u8, to_u16, to_u32, to_u64, u32_max, u64_max, to_i8, to_i16, to_i32.
  - rewrite byte_at_byte_of_Z by exact H8. now rewrite to_signed_mod by (lia || exact Hv).
  - now rewrite byte_at_byte_of_Z.
  - now rewrite byte_at_byte_of_Z.
  - rewrite (le_bytes_slice 2) by exact H16. now rewrite to_signed_mod by (lia || exact Hv).
  - now rewrite (le_bytes_slice 2).
  - now rewrite (le_bytes_slice 2).
  - rewrite (le_bytes_slice 4) by exact H32. now rewrite to_signed_mod by (lia || exact Hv).
  - now rewrite (le_bytes_slice 4).
  - now rewrite (le_bytes_slice 4).
  - rewrite (le_bytes_slice 8) by exact H64.
    change (2 ^ 64) with u64_max. now rewrite to_i64_mod.
  - now rewrite (le_bytes_slice 8).
  - now rewrite (le_bytes_slice 8).
  - now rewrite (le_bytes_slice 4).
  - now rewrite (le_bytes_slice 8).
Qed.

Lemma is_STRING_eqb dataType s :
  is_STRING dataType = true -> In s basic_types -> String.eqb dataType s = false.
Proof.
  intros Hs Hin. apply String.eqb_neq. intros ->.
  exact (is_STRING_not_basic _ Hs Hin).
Qed.

(** X5. What [EncodeValue] writes, [DecodeFieldValue] reads back under the
    same type name: the integer (or the float bits) the scanner returned,
    for each of the numeric types; for BOOL, whether the text was "true"
    or "1"; for a type name beginning with STRING and a positive size, the
    text cut to [size] bytes (the text being free of NUL bytes), the
    encoding being [size] bytes long.  A type name that is neither basic
    nor begins with STRING is refused. *)
Theorem EncodeValue_DecodeFieldValue
    (scan_int : bool -> Z -> string -> result Z)
    (scan_float : Z -> string -> result float_bits)
    (value : string) (size : Z) :
  scan_int_fits scan_int -> scan_float_fits scan_float ->
  let round (dataType : string) (r : result Z) (wrap : Z -> Value) :=
    forall v, r = Ok v ->
      exists data, EncodeValue scan_int scan_float value dataType size = Ok data /\
                   DecodeFieldValue data dataType = wrap v in
  (exists data, EncodeValue scan_int scan_float value "BOOL" size = Ok data /\
     DecodeFieldValue data "BOOL"
     = VBool (String.eqb value "true" || String.eqb value "1")) /\
  round "SINT" (scan_int true 8 value) VInt8 /\
  round "USINT" (scan_int false 8 value) VUint8 /\
  round "BYTE" (scan_int false 8 value) VUint8 /\
  round "INT" (scan_int true 16 value) VInt16 /\
  round "UINT" (scan_int false 16 value) VUint16 /\
  round "WORD" (scan_int false 16 value) VUint16 /\
  round "DINT" (scan_int true 32 value) VInt32 /\
  round "UDINT" (scan_int false 32 value) VUint32 /\
  round "DWORD" (scan_int false 32 value) VUint32 /\
  round "LINT" (scan_int true 64 value) VInt64 /\
  round "ULINT" (scan_int false 64 value) VUint64 /\
  round "LWORD" (scan_int false 64 value) VUint64 /\
  round "REAL" (scan_float 32 value) VFloat32 /\
  round "LREAL" (scan_float 64 value) VFloat64 /\
  (forall dataType,
     is_STRING dataType = true -> 0 < size ->
     NUL_free (list_byte_of_string value) ->
     exists data,
       EncodeValue scan_int scan_float value dataType size = Ok data /\
       len data = size /\
       DecodeFieldValue data dataType
       = VString (string_of_list_byte
                    (take (Z.to_nat size) (list_byte_of_string value)))) /\
  (forall dataType,
     ~ In dataType basic_types -> is_STRING dataType = false ->
     EncodeValue scan_int scan_float value dataType size
     = Err (ErrMsg ("unsupported data type: " ++ dataType))).
Proof.
  intros Hint Hfloat round. subst round. cbv beta.
  repeat match goal with |- _ /\ _ => split end.
  1: { eexists. split; [reflexivity|].
       destruct (String.eqb value "true" || String.eqb value "1"); reflexivity. }
  1-14: intros v Hv;
        destruct (DecodeFieldValue_ints v)
          as (D1 & D2 & D3 & D4 & D5 & D6 & D7 & D8 & D9 & D10 & D11 & D12
              & D13 & D14);
        unfold EncodeValue; cbn [String.eqb Ascii.eqb Bool.eqb orb];
        rewrite Hv; eexists; (split; [reflexivity|]);
        first [apply (Hint _ _ _ _) in Hv | apply (Hfloat _ _ _) in Hv].
  1: exact (D1 Hv).
  1: exact (D2 Hv).
  1: exact (D3 Hv).
  1: exact (D4 Hv).
  1: exact (D5 Hv).
  1: exact (D6 Hv).
  1: exact (D7 Hv).
  1: exact (D8 Hv).
  1: exact (D9 Hv).
  1: exact (D10 Hv).
  1: exact (D11 Hv).
  1: exact (D12 Hv).
  1: exact (D13 Hv).
  1: exact (D14 Hv).
  - intros dataType Hs Hsize Hfree.
    pose proof (is_STRING_not_basic _ Hs) as Hnot.
    exists (make_copy (Z.to_nat size) (list_byte_of_string value)).
    assert (Hlen : len (make_copy (Z.to_nat size) (list_byte_of_string value)) = size).
    { unfold len. rewrite length_make_copy. lia. }
    split; [|split].
    + unfold EncodeValue. not_basic Hnot. now rewrite Hs.
    + exact Hlen.
    + rewrite (DecodeFieldValue_not_basic _ _ Hnot), Hs, Hlen.
      destruct (Z.eqb_spec size 0); [lia|].
      unfold make_copy. rewrite until_NUL_app_zeros by now apply NUL_free_take.
      reflexivity.
  - intros dataType Hnot Hs. unfold EncodeValue. not_basic Hnot. now rewrite Hs.
Qed.

(** ** The DeviceNotification decoder on a stream that is cut short *)

Lemma take_app_cases {A} (n : nat) (a rest : list A) :
  (length a <= n)%nat -> take n (a ++ rest) = a ++ take (n - length a) rest.
Proof. intros H. now rewrite take_app, take_ge by lia. Qed.

Lemma ReadN_cut (a rest : list byte) (n : nat) :
  ((length a <= n)%nat ->
   Buffer.ReadN (length a) (cut n (a ++ rest)) = (a, cut (n - length a) rest)) /\
  ((n < length a)%nat -> failed (snd (Buffer.ReadN (length a) (cut n (a ++ rest))))).
Proof.
  unfold cut. split; intros H.
  - rewrite take_app_cases by exact H. apply ReadN_app.
  - rewrite ReadN_short; [reflexivity|]. rewrite length_take. lia.
Qed.

Lemma ReadN_failed n b : failed b -> Buffer.ReadN n b = ([], b).
Proof. intros H. now apply (ReadN_sticky n b ErrUnexpectedEOF). Qed.

Lemma ReadUint_failed w b : failed b -> Buffer.ReadUint w b = (0, b).
Proof.
  intros H. unfold Buffer.ReadUint. rewrite (ReadN_failed _ _ H).
  unfold failed in H. now rewrite H.
Qed.

Lemma ReadUint_cut (w : nat) z rest (n : nat) :
  0 <= z < 2 ^ (8 * Z.of_nat w) ->
  ((w <= n)%nat ->
   Buffer.ReadUint w (cut n (le_bytes w z ++ rest)) = (z, cut (n - w) rest)) /\
  ((n < w)%nat -> failed (snd (Buffer.ReadUint w (cut n (le_bytes w z ++ rest))))
                 /\ fst (Buffer.ReadUint w (cut n (le_bytes w z ++ rest))) = 0).
Proof.
  intros Hz. pose proof (ReadN_cut (le_bytes w z) rest n) as [Hok Hbad].
  rewrite length_le_bytes in Hok, Hbad. unfold Buffer.ReadUint. split; intros H.
  - rewrite (Hok H). cbn. now rewrite le_value_le_bytes.
  - specialize (Hbad H).
    destruct (Buffer.ReadN w (cut n (le_bytes w z ++ rest))) as [d b'].
    cbn [snd] in Hbad. unfold failed in *. rewrite Hbad. cbn [fst snd].
    split; [exact Hbad | reflexivity].
Qed.

Lemma check_failed {A} b (k : result A) :
  failed b -> check b k = Err ErrUnexpectedEOF.
Proof. intros H. unfold check, Buffer.Err. now rewrite H. Qed.

Lemma check_cut {A} n l (k : result A) : check (cut n l) k = k.
Proof. reflexivity. Qed.

Lemma sticky_ReadUint w : sticky (Buffer.ReadUint w).
Proof. intros b H. now rewrite (ReadUint_failed _ _ H). Qed.

Lemma sticky_ReadN n : sticky (Buffer.ReadN n).
Proof. intros b H. now rewrite (ReadN_failed _ _ H). Qed.

Lemma reads_ReadUint (w : nat) z :
  0 <= z < 2 ^ (8 * Z.of_nat w) -> reads (Buffer.ReadUint w) (le_bytes w z) z.
Proof.
  intros Hz. split; [apply sticky_ReadUint|]. intros rest n.
  rewrite length_le_bytes. destruct (ReadUint_cut w z rest n Hz) as [Hok Hbad].
  split; [exact Hok | intros H; now apply Hbad].
Qed.

Lemma reads_ReadN (a : list byte) : reads (Buffer.ReadN (length a)) a a.
Proof. split; [apply sticky_ReadN|]. intros rest n. apply ReadN_cut. Qed.

Lemma reads_ret {A} (v : A) : reads (fun b => (v, b)) [] v.
Proof.
  split; [intros b H; exact H|]. intros rest n. cbn [length app]. split.
  - intros _. now rewrite Nat.sub_0_r.
  - lia.
Qed.

Lemma sticky_then {A B} (R1 : Buffer.t -> A * Buffer.t)
    (R2 : A -> Buffer.t -> B * Buffer.t) :
  sticky R1 -> (forall x, sticky (R2 x)) -> sticky (then_read R1 R2).
Proof.
  intros H1 H2 b Hb. unfold then_read. specialize (H1 b Hb).
  destruct (R1 b) as [x b']. now apply H2.
Qed.

Lemma reads_then {A B} (R1 : Buffer.t -> A * Buffer.t)
    (R2 : A -> Buffer.t -> B * Buffer.t) i1 i2 v1 v2 :
  reads R1 i1 v1 -> (forall x, sticky (R2 x)) -> reads (R2 v1) i2 v2 ->
  reads (then_read R1 R2) (i1 ++ i2) v2.
Proof.
  intros [S1 H1] S2 [_ H2]. split; [now apply sticky_then|].
  intros rest n. rewrite length_app, <- app_assoc. unfold then_read.
  destruct (H1 (i2 ++ rest) n) as [Hok1 Hbad1].
  destruct (Nat.le_gt_cases (length i1) n) as [Hle|Hgt].
  - rewrite (Hok1 Hle).
    destruct (H2 rest (n - length i1)%nat) as [Hok2 Hbad2]. split; intros H.
    + rewrite Hok2 by lia. f_equal. f_equal. lia.
    + apply Hbad2. lia.
  - split; intros H; [lia|]. specialize (Hbad1 Hgt).
    destruct (R1 (cut n (i1 ++ i2 ++ rest))) as [x b']. now apply S2.
Qed.

Lemma reads_ReadAddr a : wf_Addr a -> reads ReadAddr (addr_bytes a) a.
Proof.
  intros Hp. destruct a as [[[[[[a b] c] d] e] f] p].
  change ReadAddr with
    (then_read (Buffer.ReadN 6) (fun n =>
     then_read Buffer.ReadUint16 (fun p b => (mkAddr (netid_of_bytes n) p, b)))).
  unfold addr_bytes. cbn [NetId Port netid_bytes].
  apply (reads_then _ _ _ _ [a; b; c; d; e; f]).
  - apply (reads_ReadN [a; b; c; d; e; f]).
  - intros x. apply sticky_then; [apply sticky_ReadUint|]. intros y b0 H. exact H.
  - rewrite <- (app_nil_r (le_bytes 2 p)).
    apply (reads_then _ _ _ _ p).
    + apply (reads_ReadUint 2). exact Hp.
    + intros y b0 H. exact H.
    + apply (reads_ret (mkAddr (a, b, c, d, e, f) p)).
Qed.

Lemma sticky_ReadAddr : sticky ReadAddr.
Proof.
  change ReadAddr with
    (then_read (Buffer.ReadN 6) (fun n =>
     then_read Buffer.ReadUint16 (fun p b => (mkAddr (netid_of_bytes n) p, b)))).
  apply sticky_then; [apply sticky_ReadN|]. intros x.
  apply sticky_then; [apply sticky_ReadUint|]. intros y b H. exact H.
Qed.

Lemma reads_ReadTCPHeader h :
  wf_TCPHeader h -> reads ReadTCPHeader (tcp_bytes h) h.
Proof.
  intros [Hr Hl]. destruct h as [r l]. cbn in Hr, Hl.
  change ReadTCPHeader with
    (then_read Buffer.ReadUint16 (fun r =>
     then_read Buffer.ReadUint32 (fun l b => (mkTCPHeader r l, b)))).
  unfold tcp_bytes. cbn [tcp_Reserved tcp_Length].
  apply (reads_then _ _ _ _ r).
  - apply (reads_ReadUint 2). exact Hr.
  - intros x. apply sticky_then; [apply sticky_ReadUint|]. intros y b0 H. exact H.
  - rewrite <- (app_nil_r (le_bytes 4 l)).
    apply (reads_then _ _ _ _ l).
    + apply (reads_ReadUint 4). exact Hl.
    + intros y b0 H. exact H.
    + apply (reads_ret (mkTCPHeader r l)).
Qed.

Lemma reads_ReadAMSHeader h :
  wf_AMSHeader h -> reads ReadAMSHeader (ams_bytes h) h.
Proof.
  intros (Ht & Hs & Hc & Hf & Hl & He & Hi).
  destruct h as [t s c f l e i]. cbn in Ht, Hs, Hc, Hf, Hl, He, Hi.
  change ReadAMSHeader with
    (then_read ReadAddr (fun t =>
     then_read ReadAddr (fun s =>
     then_read Buffer.ReadUint16 (fun c =>
     then_read Buffer.ReadUint16 (fun f =>
     then_read Buffer.ReadUint32 (fun l =>
     then_read Buffer.ReadUint32 (fun e =>
     then_read Buffer.ReadUint32 (fun i b =>
       (mkAMSHeader t s c f l e i, b))))))))).
  unfold ams_bytes. cbn [Target Sender CmdID StateFlags Length ErrorCode InvokeID].
  assert (Hst : forall A (v : A), sticky (fun b : Buffer.t => (v, b)))
    by (intros A v b H; exact H).
  apply (reads_then _ _ _ _ t); [now apply reads_ReadAddr | |].
  { intros x. repeat (apply sticky_then;
      [first [apply sticky_ReadAddr | apply sticky_ReadUint] | intros ?]).
    apply Hst. }
  apply (reads_then _ _ _ _ s); [now apply reads_ReadAddr | |].
  { intros x. repeat (apply sticky_then;
      [first [apply sticky_ReadAddr | apply sticky_ReadUint] | intros ?]).
    apply Hst. }
  apply (reads_then _ _ _ _ c); [now apply (reads_ReadUint 2) | |].
  { intros x. repeat (apply sticky_then;
      [first [apply sticky_ReadAddr | apply sticky_ReadUint] | intros ?]).
    apply Hst. }
  apply (reads_then _ _ _ _ f); [now apply (reads_ReadUint 2) | |].
  { intros x. repeat (apply sticky_then;
      [first [apply sticky_ReadAddr | apply sticky_ReadUint] | intros ?]).
    apply Hst. }
  apply (reads_then _ _ _ _ l); [now apply (reads_ReadUint 4) | |].
  { intros x. repeat (apply sticky_then;
      [first [apply sticky_ReadAddr | apply sticky_ReadUint] | intros ?]).
    apply Hst. }
  apply (reads_then _ _ _ _ e); [now apply (reads_ReadUint 4) | |].
  { intros x. repeat (apply sticky_then;
      [first [apply sticky_ReadAddr | apply sticky_ReadUint] | intros ?]).
    apply Hst. }
  rewrite <- (app_nil_r (le_bytes 4 i)).
  apply (reads_then _ _ _ _ i); [now apply (reads_ReadUint 4) | |].
  { intros x. apply Hst. }
  apply (reads_ret (mkAMSHeader t s c f l e i)).
Qed.

(** One read followed by the decoder's check, on a cut stream. *)
Lemma read_check_cut {A B} (R : Buffer.t -> A * Buffer.t) image v
    (k : A -> Buffer.t -> result B) rest n :
  reads R image v ->
  (let '(x, b) := R (cut n (image ++ rest)) in check b (k x b))
  = if (n <? length image)%nat then Err ErrUnexpectedEOF
    else k v (cut (n - length image) rest).
Proof.
  intros [_ H]. destruct (H rest n) as [Hok Hbad].
  destruct (Nat.ltb_spec n (length image)) as [Hlt|Hge].
  - specialize (Hbad Hlt). destruct (R (cut n (image ++ rest))) as [x b].
    now apply check_failed.
  - now rewrite (Hok Hge).
Qed.

Lemma decodes_samples l :
  Forall DeviceNotification.wf_sample l ->
  decodes (DeviceNotification.decode_samples (length l)) (samples_bytes l) l.
Proof.
  induction 1 as [|s tl (Hh & Hs & Hlen) _ IH]; intros rest n.
  - cbn. split; [intros _; now rewrite Nat.sub_0_r | lia].
  - cbn [length DeviceNotification.decode_samples samples_bytes map concat].
    fold (samples_bytes tl). unfold sample_bytes. rewrite <- !app_assoc.
    rewrite !length_app, !length_le_bytes.
    unfold Buffer.ReadUint32.
    rewrite (read_check_cut (Buffer.ReadUint 4) (le_bytes 4 (Handle s)) (Handle s))
      by (apply (reads_ReadUint 4); exact Hh).
    rewrite length_le_bytes.
    destruct (Nat.ltb_spec n 4) as [H1|H1]; [split; [lia | reflexivity]|].
    rewrite (read_check_cut (Buffer.ReadUint 4) (le_bytes 4 (Size s)) (Size s))
      by (apply (reads_ReadUint 4); exact Hs).
    rewrite length_le_bytes.
    destruct (Nat.ltb_spec (n - 4) 4) as [H2|H2]; [split; [lia | reflexivity]|].
    rewrite Hlen, Nat2Z.id.
    rewrite (read_check_cut (Buffer.ReadN (length (Data s))) (Data s) (Data s))
      by apply reads_ReadN.
    destruct (Nat.ltb_spec (n - 4 - 4) (length (Data s))) as [H3|H3];
      [split; [lia | reflexivity]|].
    destruct (IH rest (n - 4 - 4 - length (Data s))%nat) as [Hok Hbad].
    split; intros H.
    + rewrite Hok by lia. destruct s as [h sz d]. cbn in Hlen |- *.
      rewrite Hlen. do 3 f_equal. lia.
    + now rewrite Hbad by lia.
Qed.

(** Two reads followed by one check, on a cut stream. *)
Lemma read2_check_cut {A B C} (R1 : Buffer.t -> A * Buffer.t)
    (R2 : Buffer.t -> B * Buffer.t) i1 i2 v1 v2
    (k : A -> B -> Buffer.t -> result C) rest n :
  reads R1 i1 v1 -> reads R2 i2 v2 ->
  (let '(x, b) := R1 (cut n (i1 ++ i2 ++ rest)) in
   let '(y, b) := R2 b in check b (k x y b))
  = if (n <? length i1 + length i2)%nat then Err ErrUnexpectedEOF
    else k v1 v2 (cut (n - length i1 - length i2) rest).
Proof.
  intros [_ H1] [S2 H2]. destruct (H1 (i2 ++ rest) n) as [Hok1 Hbad1].
  destruct (Nat.le_gt_cases (length i1) n) as [Hle|Hgt].
  - rewrite (Hok1 Hle).
    destruct (H2 rest (n - length i1)%nat) as [Hok2 Hbad2].
    destruct (Nat.ltb_spec n (length i1 + length i2)) as [Hlt|Hge].
    + assert (Hf := Hbad2 ltac:(lia)).
      destruct (R2 (cut (n - length i1) (i2 ++ rest))) as [y b].
      now apply check_failed.
    + now rewrite Hok2 by lia.
  - specialize (Hbad1 Hgt).
    destruct (R1 (cut n (i1 ++ i2 ++ rest))) as [x b]. cbn [snd] in Hbad1.
    specialize (S2 b Hbad1). destruct (R2 b) as [y b']. cbn [snd] in S2.
    rewrite (check_failed _ _ S2).
    destruct (Nat.ltb_spec n (length i1 + length i2)); [reflexivity | lia].
Qed.

Lemma decodes_stamps l :
  Forall DeviceNotification.wf_stamp l ->
  decodes (DeviceNotification.decode_stamps (length l)) (stamps_bytes l) l.
Proof.
  induction 1 as [|st tl (Ht & Hc & Hlen & Hsm) _ IH]; intros rest n.
  - cbn. split; [intros _; now rewrite Nat.sub_0_r | lia].
  - cbn [length DeviceNotification.decode_stamps stamps_bytes map concat].
    fold (stamps_bytes tl). unfold stamp_bytes. rewrite <- !app_assoc.
    rewrite !length_app, !length_le_bytes.
    destruct (timestamp_halves _ Ht) as (Hlo & Hhi & Hts).
    unfold Buffer.ReadUint32.
    rewrite (read2_check_cut (Buffer.ReadUint 4) (Buffer.ReadUint 4)
               (le_bytes 4 (to_u32 (Timestamp st)))
               (le_bytes 4 (to_u32 (Z.shiftr (Timestamp st) 32)))
               (to_u32 (Timestamp st)) (to_u32 (Z.shiftr (Timestamp st) 32)))
      by (apply (reads_ReadUint 4); assumption).
    rewrite !length_le_bytes, Hts.
    destruct (Nat.ltb_spec n (4 + 4)) as [H1|H1]; [split; [lia | reflexivity]|].
    rewrite (read_check_cut (Buffer.ReadUint 4) (le_bytes 4 (SampleCount st))
               (SampleCount st)) by (apply (reads_ReadUint 4); exact Hc).
    rewrite length_le_bytes.
    destruct (Nat.ltb_spec (n - 4 - 4) 4) as [H2|H2]; [split; [lia | reflexivity]|].
    rewrite Hlen, Nat2Z.id.
    destruct (decodes_samples _ Hsm (stamps_bytes tl ++ rest) (n - 4 - 4 - 4)%nat)
      as [Hok Hbad].
    destruct (Nat.le_gt_cases (length (samples_bytes (Samples st))) (n - 4 - 4 - 4))
      as [H3|H3].
    + rewrite (Hok H3).
      destruct (IH rest (n - 4 - 4 - 4 - length (samples_bytes (Samples st)))%nat)
        as [Hok2 Hbad2].
      split; intros H.
      * rewrite Hok2 by lia. destruct st as [ts c sm]. cbn in Hlen |- *.
        rewrite Hlen. do 3 f_equal. lia.
      * now rewrite Hbad2 by lia.
    + rewrite (Hbad H3). split; [lia | reflexivity].
Qed.

Lemma Decode_cut x rest n :
  DeviceNotification.wf x ->
  DeviceNotification.Decode (cut n (request_bytes x ++ rest))
  = if (n <? length (request_bytes x))%nat then Err ErrUnexpectedEOF else Ok x.
Proof.
  intros (Htcp & Hams & Hl & Hc & Hlen & Hst).
  unfold DeviceNotification.Decode, request_bytes. rewrite <- !app_assoc.
  rewrite !length_app, length_tcp_bytes, length_ams_bytes, !length_le_bytes.
  rewrite (read2_check_cut ReadTCPHeader ReadAMSHeader
             (tcp_bytes (dn_tcpHeader x)) (ams_bytes (dn_amsHeader x))
             (dn_tcpHeader x) (dn_amsHeader x))
    by (first [now apply reads_ReadTCPHeader | now apply reads_ReadAMSHeader]).
  rewrite length_tcp_bytes, length_ams_bytes.
  set (total := (6 + (32 + (4 + (4 + length (stamps_bytes (Stamps x))))))%nat).
  destruct (Nat.ltb_spec n (6 + 32)) as [H0|H0].
  { destruct (Nat.ltb_spec n total); [reflexivity | lia]. }
  unfold Buffer.ReadUint32.
  rewrite (read_check_cut (Buffer.ReadUint 4) (le_bytes 4 (dn_Length x)) (dn_Length x))
    by (apply (reads_ReadUint 4); exact Hl).
  rewrite length_le_bytes.
  destruct (Nat.ltb_spec (n - 6 - 32) 4) as [H1|H1].
  { destruct (Nat.ltb_spec n total); [reflexivity | lia]. }
  rewrite (read_check_cut (Buffer.ReadUint 4) (le_bytes 4 (StampCount x)) (StampCount x))
    by (apply (reads_ReadUint 4); exact Hc).
  rewrite length_le_bytes.
  destruct (Nat.ltb_spec (n - 6 - 32 - 4) 4) as [H2|H2].
  { destruct (Nat.ltb_spec n total); [reflexivity | lia]. }
  subst total. destruct x as [tcp ams len cnt stamps].
  cbn [dn_tcpHeader dn_amsHeader dn_Length StampCount Stamps] in *.
  destruct (Z.eqb_spec cnt 0) as [Hz|Hz].
  - destruct stamps; [|cbn in Hlen; lia]. cbn [stamps_bytes map concat length].
    destruct (Nat.ltb_spec n (6 + (32 + (4 + (4 + 0))))); [lia | reflexivity].
  - rewrite Hlen, Nat2Z.id.
    destruct (decodes_stamps _ Hst rest (n - 6 - 32 - 4 - 4)%nat) as [Hok Hbad].
    destruct (Nat.ltb_spec n (6 + (32 + (4 + (4 + length (stamps_bytes stamps))))))
      as [H3|H3].
    + now rewrite Hbad by lia.
    + rewrite Hok by lia. reflexivity.
Qed.

(** X6. The DeviceNotification decoder on the bytes [Encode] writes for a
    well-formed packet: followed by any further bytes, they decode to the
    packet (what comes after the packet is not looked at); cut anywhere
    before their end, they decode to the short-stream error, never to a
    packet. *)
Theorem notification_Decode_prefix_and_suffix (x : DeviceNotificationRequest) :
  DeviceNotification.wf x ->
  let bytes := Buffer.Bytes (DeviceNotification.Encode x Buffer.empty) in
  (forall extra,
     DeviceNotification.Decode (Buffer.NewBuffer (bytes ++ extra)) = Ok x) /\
  (forall n, (n < length bytes)%nat ->
     DeviceNotification.Decode (Buffer.NewBuffer (take n bytes))
     = Err ErrUnexpectedEOF).
Proof.
  intros Hwf bytes. subst bytes. unfold Buffer.empty.
  rewrite (appends_Encode x Hwf).
  cbn [Buffer.Bytes Buffer.buf app]. split.
  - intros extra. now apply Decode_request_bytes.
  - intros n Hn. pose proof (Decode_cut x [] n Hwf) as H.
    rewrite app_nil_r in H. unfold cut in H. unfold Buffer.NewBuffer.
    rewrite H. destruct (Nat.ltb_spec n (length (request_bytes x))); [reflexivity | lia].
Qed.

(** ** The receive pump and notification frames *)

Lemma Header_Decode_cut tcp ams rest n :
  wf_TCPHeader tcp -> wf_AMSHeader ams ->
  Header_Decode (cut n (tcp_bytes tcp ++ ams_bytes ams ++ rest))
  = if (n <? 38)%nat then Err ErrUnexpectedEOF else Ok (mkHeader tcp ams).
Proof.
  intros Htcp Hams. unfold Header_Decode, finish.
  rewrite (read2_check_cut ReadTCPHeader ReadAMSHeader (tcp_bytes tcp)
             (ams_bytes ams) tcp ams (fun t a _ => Ok (mkHeader t a)))
    by (first [now apply reads_ReadTCPHeader | now apply reads_ReadAMSHeader]).
  now rewrite length_tcp_bytes, length_ams_bytes.
Qed.

Lemma classify_notification h :
  CmdID h = CmdADSDeviceNotification ->
  classify h = Some KDeviceNotificationRequest.
Proof.
  intros H. unfold classify, IsReadResponse, IsWriteResponse, IsReadWriteResponse,
    IsReadStateRequest, DeviceNotification.IsDeviceNotificationRequest.
  rewrite H. reflexivity.
Qed.

(** X7. A well-formed DeviceNotification frame, as [Encode] writes it,
    arriving at the receive pump.  When it has at most 1500 bytes, the
    pump hands the decoded packet to the registered callback exactly once
    and goes on, a panic of the callback being logged and survived; with
    no callback registered it does nothing.  When the frame has more than
    1500 bytes, the pump reads only the first 1500, the decoding fails,
    and the notification is never handed over. *)
Theorem receive_notification_frame
    (x : DeviceNotificationRequest) (i : pump_in) (c : Client) :
  DeviceNotification.wf x ->
  CmdID (dn_amsHeader x) = CmdADSDeviceNotification ->
  let frame := Buffer.Bytes (DeviceNotification.Encode x Buffer.empty) in
  in_read i = Ok frame ->
  ((length frame <= packetSize)%nat ->
   receive_iter i c
   = match notificationCallback c with
     | Some callback =>
         (match callback x with
          | Some _ => emit (emit c (EvCallback x))
                           (EvLog "client: panic in notification callback")
          | None => emit c (EvCallback x)
          end, Continue)
     | None => (c, Continue)
     end) /\
  ((packetSize < length frame)%nat ->
   receive_iter i c
   = (match notificationCallback c with
      | Some _ => emit c (EvLog "client: failed to decode notification")
      | None => c
      end, Continue)).
Proof.
  intros Hwf Hcmd frame Hread. subst frame. revert Hread.
  unfold Buffer.empty. rewrite (appends_Encode x Hwf).
  cbn [Buffer.Bytes Buffer.buf app]. intros Hread.
  pose proof Hwf as (Htcp & Hams & _).
  set (bytes := request_bytes x) in *.
  assert (Hlen38 : (38 <= length bytes)%nat).
  { subst bytes. unfold request_bytes.
    rewrite !length_app, length_tcp_bytes, length_ams_bytes. lia. }
  assert (Hhdr : forall n, (38 <= n)%nat ->
    Header_Decode (Buffer.NewBuffer (take n bytes))
    = Ok (mkHeader (dn_tcpHeader x) (dn_amsHeader x))).
  { intros n Hn. subst bytes. unfold request_bytes.
    pose proof (Header_Decode_cut _ _
      (le_bytes 4 (dn_Length x) ++ le_bytes 4 (StampCount x) ++ stamps_bytes (Stamps x))
      n Htcp Hams) as H.
    unfold cut in H. unfold Buffer.NewBuffer. rewrite H.
    destruct (Nat.ltb_spec n 38); [lia | reflexivity]. }
  assert (Hdec : forall n,
    DeviceNotification.Decode (Buffer.NewBuffer (take n bytes))
    = if (n <? length bytes)%nat then Err ErrUnexpectedEOF else Ok x).
  { intros n. pose proof (Decode_cut x [] n Hwf) as H.
    rewrite app_nil_r in H. exact H. }
  assert (H38 : (38 <= packetSize)%nat) by (unfold packetSize; lia).
  assert (Hiter : receive_iter i c
    = match DeviceNotification.Decode (Buffer.NewBuffer (take packetSize bytes)) with
      | Err _ =>
          match notificationCallback c with
          | Some _ =>
              (emit c (EvLog "client: failed to decode notification"), Continue)
          | None => (c, Continue)
          end
      | Ok req =>
          match notificationCallback c with
          | Some callback =>
              match callback req with
              | Some _ =>
                  (emit (emit c (EvCallback req))
                        (EvLog "client: panic in notification callback"), Continue)
              | None => (emit c (EvCallback req), Continue)
              end
          | None => (c, Continue)
          end
      end).
  { unfold receive_iter. rewrite Hread, (Hhdr packetSize H38).
    cbn [hdr_AMSHeader]. rewrite (classify_notification _ Hcmd).
    cbn [decode_kind].
    destruct (DeviceNotification.Decode (Buffer.NewBuffer (take packetSize bytes)));
      reflexivity. }
  rewrite Hiter, Hdec. clear Hiter.
  split; intros Hsize.
  - destruct (Nat.ltb_spec packetSize (length bytes)); [lia|].
    destruct (notificationCallback c) as [cb|]; [|reflexivity].
    destruct (cb x); reflexivity.
  - destruct (Nat.ltb_spec packetSize (length bytes)); [|lia].
    destruct (notificationCallback c); reflexivity.
Qed.
